(** * zotero-add: annotation export and library backup

    A shallow embedding of [lib/zotero_annotate.py],
    [lib/get_annotations.py], [lib/export_annotations.py] and
    [lib/zotero_backup.py].

    Python values decoded from JSON are an inductive type [json]; the
    operations the program applies to them ([d.get], [d[k]], truth tests,
    iteration, string methods) are partial functions into an error type that
    carries the Python exception raised.  Effectful code (HTTP requests,
    sleeping, printing, files, subprocesses) is written in a state and
    exception monad over a [world] that holds the file system, the trace of
    events so far and the oracles for the remote server, for [git] and for
    the clock. *)

From Stdlib Require Import ZArith QArith Ascii String List Bool Lia.
From stdpp Require Import base gmap strings list pretty.

Set Warnings "-register-all".
Open Scope Z_scope.

(* ===================================================================== *)
(** * Python strings *)
(* ===================================================================== *)

(** A Python [str] is modelled by a Rocq [string] whose characters are the
    code points below 256; on such text the functions below agree with
    Python's.  Literals of the source are written as they stand in the
    source file. *)
Module PyStr.

Definition code (c : ascii) : N := N_of_ascii c.

Definition between (lo hi : N) (c : ascii) : bool :=
  (N.leb lo (code c) && N.leb (code c) hi)%bool.

Definition is_digit : ascii -> bool := between 48 57.
Definition is_lower : ascii -> bool := between 97 122.
Definition is_upper : ascii -> bool := between 65 90.

Definition eqb_char (a b : ascii) : bool := Ascii.eqb a b.

(** [c in chars] for a character and a string of characters. *)
Fixpoint mem (c : ascii) (chars : string) : bool :=
  match chars with
  | EmptyString => false
  | String d r => (eqb_char c d || mem c r)%bool
  end.

Definition is_empty (s : string) : bool :=
  match s with EmptyString => true | _ => false end.

(** [str.lower()]: A-Z, and the upper-case letters of the range
    192..222 (215, the multiplication sign, has no case). *)
Definition lower_char (c : ascii) : ascii :=
  if (is_upper c || (between 192 222 c && negb (N.eqb (code c) 215)))%bool
  then ascii_of_N (code c + 32) else c.

Fixpoint lower (s : string) : string :=
  match s with
  | EmptyString => EmptyString
  | String c r => String (lower_char c) (lower r)
  end.

(** White space as [str.strip()] without argument understands it. *)
Definition is_space (c : ascii) : bool :=
  (between 9 13 c || between 28 32 c
   || N.eqb (code c) 133 || N.eqb (code c) 160)%bool.

Fixpoint lstrip (p : ascii -> bool) (s : string) : string :=
  match s with
  | EmptyString => EmptyString
  | String c r => if p c then lstrip p r else s
  end.

Fixpoint rstrip (p : ascii -> bool) (s : string) : string :=
  match s with
  | EmptyString => EmptyString
  | String c r =>
      let r' := rstrip p r in
      if (p c && is_empty r')%bool then EmptyString else String c r'
  end.

(** [s.strip(chars)] with the characters to remove given as a predicate. *)
Definition strip_with (p : ascii -> bool) (s : string) : string :=
  rstrip p (lstrip p s).

Definition strip (s : string) : string := strip_with is_space s.
Definition strip_chars (chars : string) (s : string) : string :=
  strip_with (fun c => mem c chars) s.

(** [s[:n]]. *)
Fixpoint take (n : nat) (s : string) : string :=
  match n, s with
  | S n', String c r => String c (take n' r)
  | _, _ => EmptyString
  end.

(** [re.sub(r'[set]', rep, s)]: every character of the class is replaced
    by [rep]. *)
Fixpoint sub_each (in_class : ascii -> bool) (rep : string) (s : string)
  : string :=
  match s with
  | EmptyString => EmptyString
  | String c r =>
      if in_class c then (rep +:+ sub_each in_class rep r)
      else String c (sub_each in_class rep r)
  end.

(** [re.sub(r'[set]+', rep, s)]: every maximal run of characters of the
    class is replaced by one [rep]; [in_run] tells that the previous
    character belonged to the run being replaced. *)
Fixpoint sub_runs_from (in_class : ascii -> bool) (rep : string)
         (in_run : bool) (s : string) : string :=
  match s with
  | EmptyString => EmptyString
  | String c r =>
      if in_class c then
        if in_run then sub_runs_from in_class rep true r
        else rep +:+ sub_runs_from in_class rep true r
      else String c (sub_runs_from in_class rep false r)
  end.

Definition sub_runs (in_class : ascii -> bool) (rep s : string) : string :=
  sub_runs_from in_class rep false s.

(** [sep.join(parts)]. *)
Fixpoint join (sep : string) (parts : list string) : string :=
  match parts with
  | [] => EmptyString
  | [p] => p
  | p :: rest => p +:+ sep +:+ join sep rest
  end.

(** [s.startswith(prefix)] and the suffix test. *)
Definition startswith (pre s : string) : bool := String.prefix pre s.

Fixpoint endswith_from (n : nat) (suf s : string) : bool :=
  match n with
  | O => String.eqb suf s
  | S n' =>
      match s with
      | EmptyString => false
      | String _ r => endswith_from n' suf r
      end
  end.

Definition endswith (suf s : string) : bool :=
  endswith_from (String.length s - String.length suf)%nat suf s
  && Nat.leb (String.length suf) (String.length s).

(** The text after the last slash: [Path(p).name]. *)
Fixpoint name_from (acc : string) (s : string) : string :=
  match s with
  | EmptyString => acc
  | String c r =>
      if eqb_char c "/" then name_from r r else name_from acc r
  end.

Definition basename (p : string) : string := name_from p p.

(** Characters that have no literal form in this file. *)
Definition dquote : ascii := "034"%char.
Definition backslash : ascii := "092"%char.
Definition newline : string := String "010"%char EmptyString.

End PyStr.

(* ===================================================================== *)
(** * Python values and exceptions *)
(* ===================================================================== *)

(** What [json.loads] and [response.json()] produce.  A number stands for an
    integer; an object keeps its entries in the order of the document, with
    distinct keys. *)
Inductive json : Type :=
| JNull
| JBool (b : bool)
| JNum (n : Z)
| JStr (s : string)
| JArr (elems : list json)
| JObj (fields : list (string * json)).

(** The exceptions the program can meet. *)
Inductive exn : Type :=
| RuntimeError (msg : string)
| HTTPError (status : Z)            (* requests.HTTPError, from raise_for_status *)
| KeyError (key : string)
| TypeError
| AttributeError
| ValueError (msg : string)
| CalledProcessError (returncode : Z)
| OSError                            (* the program could not be started *)
| SystemExit (code : Z).

(** The class of an exception: what an [except] clause, and a caller that
    tells failures apart, looks at. *)
Inductive exn_class : Type :=
| CRuntimeError | CHTTPError | CKeyError | CTypeError | CAttributeError
| CValueError | CCalledProcessError | COSError | CSystemExit.

Definition class_of (e : exn) : exn_class :=
  match e with
  | RuntimeError _ => CRuntimeError
  | HTTPError _ => CHTTPError
  | KeyError _ => CKeyError
  | TypeError => CTypeError
  | AttributeError => CAttributeError
  | ValueError _ => CValueError
  | CalledProcessError _ => CCalledProcessError
  | OSError => COSError
  | SystemExit _ => CSystemExit
  end.

(** [except Exception] catches everything but [SystemExit]. *)
Definition is_Exception (e : exn) : bool :=
  match e with SystemExit _ => false | _ => true end.

Definition is_HTTPError (e : exn) : bool :=
  match e with HTTPError _ => true | _ => false end.

Definition is_CalledProcessError (e : exn) : bool :=
  match e with CalledProcessError _ => true | _ => false end.

(** A pure computation that may raise. *)
Inductive result (A : Type) : Type :=
| Ok (a : A)
| Err (e : exn).
Arguments Ok {A} a.
Arguments Err {A} e.

Definition rbind {A B} (r : result A) (k : A -> result B) : result B :=
  match r with
  | Ok a => k a
  | Err e => Err e
  end.

Declare Scope result_scope.
Delimit Scope result_scope with res.
Notation "x <- r ;; k" := (rbind r (fun x => k))
  (at level 100, r at next level, right associativity) : result_scope.

Fixpoint rmap_list {A B} (f : A -> result B) (l : list A) : result (list B) :=
  match l with
  | [] => Ok []
  | a :: r =>
      (b <- f a ;; bs <- rmap_list f r ;; Ok (b :: bs))%res
  end.

Module Py.

(** Truth value of an object: [if v:], [not v], [a or b]. *)
Definition truthy (v : json) : bool :=
  match v with
  | JNull => false
  | JBool b => b
  | JNum n => negb (n =? 0)
  | JStr s => negb (PyStr.is_empty s)
  | JArr l => match l with [] => false | _ => true end
  | JObj l => match l with [] => false | _ => true end
  end.

(** [a or b]. *)
Definition or_else (a b : json) : json := if truthy a then a else b.

Fixpoint assoc (k : string) (l : list (string * json)) : option json :=
  match l with
  | [] => None
  | (k', v) :: r => if String.eqb k k' then Some v else assoc k r
  end.

(** [d.get(k, default)]; only a dict has the method. *)
Definition get (d : json) (k : string) (default : json) : result json :=
  match d with
  | JObj l => Ok (match assoc k l with Some v => v | None => default end)
  | _ => Err AttributeError
  end.

(** [d[k]] with a string key. *)
Definition getitem (d : json) (k : string) : result json :=
  match d with
  | JObj l => match assoc k l with Some v => Ok v | None => Err (KeyError k) end
  | _ => Err TypeError
  end.

(** [isinstance(v, dict)]. *)
Definition is_dict (v : json) : bool :=
  match v with JObj _ => true | _ => false end.

Definition str_chars (s : string) : list json :=
  map (fun c => JStr (String c EmptyString)) (list_ascii_of_string s).

(** The elements a [for] loop or [list.extend] sees. *)
Definition iter (v : json) : result (list json) :=
  match v with
  | JArr l => Ok l
  | JObj l => Ok (map (fun kv => JStr (fst kv)) l)
  | JStr s => Ok (str_chars s)
  | _ => Err TypeError
  end.

(** [len(v)]. *)
Definition len (v : json) : result Z :=
  match v with
  | JArr l => Ok (Z.of_nat (length l))
  | JObj l => Ok (Z.of_nat (length l))
  | JStr s => Ok (Z.of_nat (String.length s))
  | _ => Err TypeError
  end.

(** The receiver of a [str] method such as [.strip()], [.lower()],
    [.startswith()]. *)
Definition str_method (v : json) : result string :=
  match v with
  | JStr s => Ok s
  | _ => Err AttributeError
  end.

(** The subject of [re.sub]. *)
Definition re_subject (v : json) : result string :=
  match v with
  | JStr s => Ok s
  | _ => Err TypeError
  end.

(** [v == "text"]. *)
Definition eq_str (v : json) (s : string) : bool :=
  match v with
  | JStr t => String.eqb t s
  | _ => false
  end.

(** [v[:n]] on the sequences that can be sliced. *)
Definition slice_to (n : nat) (v : json) : result json :=
  match v with
  | JStr s => Ok (JStr (PyStr.take n s))
  | JArr l => Ok (JArr (firstn n l))
  | _ => Err TypeError
  end.

End Py.

(** [str(v)] and the interpolation of [v] in an f-string.  Strings, [None],
    the booleans and integers are rendered as Python does; the rendering of a
    list or a dict is left to the run-time system. *)
Class Runtime : Type := { str_container : json -> string }.

Definition py_str `{Runtime} (v : json) : string :=
  match v with
  | JStr s => s
  | JNull => "None"
  | JBool true => "True"
  | JBool false => "False"
  | JNum n => pretty n
  | JArr _ | JObj _ => str_container v
  end.

(* ===================================================================== *)
(** * The world: network, files, console, processes, clock *)
(* ===================================================================== *)

(** [session.get(url, params=params, stream=stream)]. *)
Record request : Type := {
  url : string;
  headers : list (string * string);          (* the session's own headers *)
  params : list (string * json);
  stream : bool
}.

(** An HTTP response: the status, the decoded body read by [.json()] and the
    chunks [iter_content] yields.  Redirections are followed by the HTTP
    library; transport failures are outside the model. *)
Record response : Type := {
  status_code : Z;
  body : json;
  content : list string
}.

(** What a file holds: the text given to [write_text], the value whose
    [json.dumps(_, indent=2)] was written, or downloaded bytes. *)
Inductive file_content : Type :=
| Text (s : string)
| JsonDump (v : json)
| Binary (data : string).

(** The arguments of a [print]: literal text of the source and the values
    interpolated or passed along, before they are rendered. *)
Inductive piece : Type :=
| PLit (s : string)
| PStr (s : string)
| PVal (v : json)
| PInt (n : Z)
| PExn (e : exn).

(** [subprocess.run(argv)]: the exit status, or no process at all. *)
Inductive proc_outcome : Type :=
| Exited (returncode : Z)
| NotStarted.

Record datetime : Type := {
  year : nat; month : nat; day : nat;
  hour : nat; minute : nat; second : nat; microsecond : nat
}.

Inductive event : Type :=
| EvGet (req : request) (resp : response)
| EvSleep (seconds : Q)
| EvPrint (line : list piece)
| EvMkdir (path : string)
| EvWrite (path : string) (c : file_content)
| EvRun (argv : list string) (o : proc_outcome).

(** The remote server, [git] and the clock answer as functions of what has
    happened so far, so that a scripted stub, a server with state and a
    repository that changes are all instances. *)
Record world : Type := {
  w_fs : gmap string file_content;
  w_dirs : gset string;
  w_trace : list event;                      (* oldest event first *)
  w_environ : gmap string string;            (* os.environ *)
  w_server : list event -> request -> response;
  w_subprocess : list event -> list string -> proc_outcome;
  w_clock : list event -> datetime
}.

Definition record_event (e : event) (w : world) : world :=
  {| w_fs := w_fs w; w_dirs := w_dirs w; w_trace := w_trace w ++ [e];
     w_environ := w_environ w; w_server := w_server w;
     w_subprocess := w_subprocess w; w_clock := w_clock w |}.

Definition store_file (p : string) (c : file_content) (w : world) : world :=
  {| w_fs := <[p := c]> (w_fs w); w_dirs := w_dirs w; w_trace := w_trace w;
     w_environ := w_environ w; w_server := w_server w;
     w_subprocess := w_subprocess w; w_clock := w_clock w |}.

Definition store_dir (p : string) (w : world) : world :=
  {| w_fs := w_fs w; w_dirs := {[p]} ∪ w_dirs w; w_trace := w_trace w;
     w_environ := w_environ w; w_server := w_server w;
     w_subprocess := w_subprocess w; w_clock := w_clock w |}.

(** ** The monad of effectful code *)

(** [Diverge] is the answer of a loop that was given too little fuel; no
    [except] clause sees it. *)
Inductive outcome (A : Type) : Type :=
| Ret (a : A)
| Raise (e : exn)
| Diverge.
Arguments Ret {A} a.
Arguments Raise {A} e.
Arguments Diverge {A}.

Definition M (A : Type) : Type := world -> outcome A * world.

Definition ret {A} (a : A) : M A := fun w => (Ret a, w).
Definition raise {A} (e : exn) : M A := fun w => (Raise e, w).
Definition diverge {A} : M A := fun w => (Diverge, w).

Definition bind {A B} (m : M A) (k : A -> M B) : M B :=
  fun w =>
    match m w with
    | (Ret a, w') => k a w'
    | (Raise e, w') => (Raise e, w')
    | (Diverge, w') => (Diverge, w')
    end.

Declare Scope monad_scope.
Delimit Scope monad_scope with M.
Notation "x <- m ;; k" := (bind m (fun x => k))
  (at level 100, m at next level, right associativity) : monad_scope.
Notation "m ;; k" := (bind m (fun _ => k))
  (at level 100, right associativity) : monad_scope.

(** [try: m except <classes>: handler]. *)
Definition try_except {A} (m : M A) (catches : exn -> bool)
           (handler : exn -> M A) : M A :=
  fun w =>
    match m w with
    | (Raise e, w') => if catches e then handler e w' else (Raise e, w')
    | r => r
    end.

Definition lift {A} (r : result A) : M A :=
  match r with
  | Ok a => ret a
  | Err e => raise e
  end.

Definition emit (e : event) : M unit := fun w => (Ret tt, record_event e w).

(** [for x in xs: body x]. *)
Fixpoint for_each {A} (xs : list A) (body : A -> M unit) : M unit :=
  match xs with
  | [] => ret tt
  | x :: r => (body x ;; for_each r body)%M
  end.

(** ** Primitive effects *)

Definition session_get (req : request) : M response :=
  fun w =>
    let resp := w_server w (w_trace w) req in
    (Ret resp, record_event (EvGet req resp) w).

(** [resp.raise_for_status()]: the client and server error statuses. *)
Definition is_error_status (s : Z) : bool := (400 <=? s) && (s <? 600).

Definition raise_for_status (resp : response) : M unit :=
  if is_error_status (status_code resp)
  then raise (HTTPError (status_code resp))
  else ret tt.

(** [time.sleep(d)]; a negative length is refused, and then no time is
    spent. *)
Definition sleep (d : Q) : M unit :=
  if Qle_bool 0 d then emit (EvSleep d)
  else raise (ValueError "sleep length must be non-negative").

Definition print (line : list piece) : M unit := emit (EvPrint line).

(** Writing replaces the file; local input and output do not fail. *)
Definition write_file (p : string) (c : file_content) : M unit :=
  fun w => (Ret tt, record_event (EvWrite p c) (store_file p c w)).

(** [p.mkdir(parents=True, exist_ok=True)]. *)
Definition mkdir (p : string) : M unit :=
  fun w => (Ret tt, record_event (EvMkdir p) (store_dir p w)).

Definition path_exists (p : string) : M bool :=
  fun w => (Ret (bool_decide (is_Some (w_fs w !! p))), w).

(** [subprocess.run(argv, check=True)]. *)
Definition subprocess_run (argv : list string) : M unit :=
  fun w =>
    let o := w_subprocess w (w_trace w) argv in
    let w' := record_event (EvRun argv o) w in
    match o with
    | Exited 0 => (Ret tt, w')
    | Exited rc => (Raise (CalledProcessError rc), w')
    | NotStarted => (Raise OSError, w')
    end.

Definition utcnow : M datetime := fun w => (Ret (w_clock w (w_trace w)), w).

(** [os.environ.get(name, default)]. *)
Definition env_get (name : string) (default : option string)
  : M (option string) :=
  fun w =>
    (Ret (match w_environ w !! name with Some v => Some v | None => default end),
     w).

(** [dir / name]: the pieces are joined by a slash.  The right operand is
    taken as one relative segment; what [pathlib] does with an absolute
    operand or with empty and dot segments is outside the model. *)
Definition path_join (dir name : string) : string := dir +:+ "/" +:+ name.

(** [dir / v] for a value [v]: only a string can be a path segment. *)
Definition path_join_value (dir : string) (v : json) : result string :=
  match v with
  | JStr s => Ok (path_join dir s)
  | _ => Err TypeError
  end.

(* ===================================================================== *)
(** * lib/zotero_annotate.py *)
(* ===================================================================== *)

(** Truth value of an optional string: [None] and [''] are false. *)
Definition opt_truthy (o : option string) : bool :=
  match o with
  | Some s => negb (PyStr.is_empty s)
  | None => false
  end.

(** [a or b] on optional strings. *)
Definition opt_or (a b : option string) : option string :=
  if opt_truthy a then a else b.

(** The text an optional string becomes inside an f-string. *)
Definition opt_str (o : option string) : string :=
  match o with
  | Some s => s
  | None => "None"
  end.

(** The class [ZoteroClient]. *)
Module ZoteroClient.
Section Methods.
Context `{Runtime}.

Record t : Type := {
  api_key : option string;
  library_id : option string;
  library_type : option string;
  base_url : string
}.

(** [__init__(api_key=None, library_id=None, library_type=None)]. *)
Definition init (api_key library_id library_type : option string) : M t :=
  (env_key <- env_get "ZOTERO_API_KEY" None ;;
   let api_key := opt_or api_key env_key in
   env_id <- env_get "ZOTERO_LIBRARY_ID" None ;;
   let library_id := opt_or library_id env_id in
   env_type <- env_get "ZOTERO_LIBRARY_TYPE" (Some "users") ;;
   let library_type := opt_or library_type env_type in
   if negb (opt_truthy api_key) then
     raise (ValueError
              "Missing Zotero API key (set ZOTERO_API_KEY or pass api_key).")
   else if negb (opt_truthy library_id) then
     raise (ValueError
              "Missing Zotero library ID (set ZOTERO_LIBRARY_ID or pass library_id).")
   else
     ret {| api_key := api_key; library_id := library_id;
            library_type := library_type;
            base_url := "https://api.zotero.org/" +:+ opt_str library_type
                        +:+ "/" +:+ opt_str library_id |})%M.

Definition session_headers (self : t) : list (string * string) :=
  [("Zotero-API-Key", opt_str (api_key self))].

(** [query_items(top=True, limit=100)]. *)
Definition query_items (self : t) (top : bool) (limit : Z) : M json :=
  (let url := base_url self +:+ "/items" in
   let url := if top then url +:+ "/top" else url in
   response <- session_get {| url := url; headers := session_headers self;
                              params := [("limit", JNum limit)];
                              stream := false |} ;;
   raise_for_status response ;;
   ret (body response))%M.

(** [[i for i in children if i["data"].get("itemType") == kind]]. *)
Fixpoint children_of_type (kind : string) (children : list json)
  : result (list json) :=
  match children with
  | [] => Ok []
  | i :: rest =>
      (data <- Py.getitem i "data" ;;
       ty <- Py.get data "itemType" JNull ;;
       keep <- children_of_type kind rest ;;
       Ok (if Py.eq_str ty kind then i :: keep else keep))%res
  end.

Definition query_children (self : t) (item_key : json) (kind : string)
  : M (list json) :=
  (let url := base_url self +:+ "/items/" +:+ py_str item_key
              +:+ "/children" in
   response <- session_get {| url := url; headers := session_headers self;
                              params := []; stream := false |} ;;
   raise_for_status response ;;
   children <- lift (Py.iter (body response)) ;;
   lift (children_of_type kind children))%M.

Definition query_attachments (self : t) (item_key : json) : M (list json) :=
  query_children self item_key "attachment".

Definition query_annotations (self : t) (attachment_key : json)
  : M (list json) :=
  query_children self attachment_key "annotation".

(** The loop over the attachments of one item in [get_all_annotations]:
    [all_annotations.extend(annotations)] for each of them. *)
Fixpoint extend_with_annotations (self : t) (attachments : list json)
         (all_annotations : list json) : M (list json) :=
  match attachments with
  | [] => ret all_annotations
  | att :: rest =>
      (key <- lift (Py.getitem att "key") ;;
       annotations <- query_annotations self key ;;
       extend_with_annotations self rest (all_annotations ++ annotations))%M
  end.

(** The loop over the items in [get_all_annotations]. *)
Fixpoint annotations_of_items (self : t) (items : list json)
         (all_annotations : list json) : M (list json) :=
  match items with
  | [] => ret all_annotations
  | item :: rest =>
      (key <- lift (Py.getitem item "key") ;;
       attachments <- query_attachments self key ;;
       all_annotations <- extend_with_annotations self attachments
                            all_annotations ;;
       annotations_of_items self rest all_annotations)%M
  end.

(** [get_all_annotations(limit=100)]. *)
Definition get_all_annotations (self : t) (limit : Z) : M (list json) :=
  (items <- query_items self true limit ;;
   items <- lift (Py.iter items) ;;
   annotations_of_items self items [])%M.

End Methods.
End ZoteroClient.

(* ===================================================================== *)
(** * lib/get_annotations.py *)
(* ===================================================================== *)

(** The script that prints every annotation of the library. *)
Module GetAnnotations.
Section Script.
Context `{Runtime}.

(** The body of the loop over the annotations. *)
Definition print_annotation (ann : json) : M unit :=
  (data <- lift (Py.getitem ann "data") ;;
   page <- lift (Py.get data "pageLabel" JNull) ;;
   text <- lift (Py.get data "annotationText" JNull) ;;
   print [PLit "["; PVal page; PLit "] "; PVal text] ;;
   comment <- lift (Py.get data "annotationComment" JNull) ;;
   (if Py.truthy comment then print [PLit "  Comment: "; PVal comment]
    else ret tt) ;;
   print [])%M.

Definition script : M unit :=
  (client <- ZoteroClient.init None None None ;;
   annotations <- ZoteroClient.get_all_annotations client 50 ;;
   for_each annotations print_annotation)%M.

End Script.
End GetAnnotations.

(* ===================================================================== *)
(** * lib/export_annotations.py *)
(* ===================================================================== *)

Definition is_slug_char (c : ascii) : bool :=
  PyStr.is_lower c || PyStr.is_digit c.

(** [re.sub(r'[^a-z0-9]+', '-', value.lower()).strip('-')]. *)
Definition slugify (value : string) : string :=
  PyStr.strip_chars "-"
    (PyStr.sub_runs (fun c => negb (is_slug_char c)) "-" (PyStr.lower value)).

(** The characters a file name must not hold: backslash, slash, star,
    question mark, colon, double quote, angle brackets and bar. *)
Definition illegal_filename_chars : string :=
  String PyStr.backslash ("/*?:" +:+ String PyStr.dquote "<>|").

(** [re.sub(<that class>, '_', title)[:100]]. *)
Definition safe_title_of (title : string) : string :=
  PyStr.take 100
    (PyStr.sub_each (fun c => PyStr.mem c illegal_filename_chars) "_" title).

(** The tags of one creator in the loop over [creators]. *)
Definition creator_tags (c : json) : result (list string) :=
  (ty <- Py.get c "creatorType" JNull ;;
   if Py.eq_str ty "author" || Py.eq_str ty "editor" then
     f <- Py.get c "firstName" (JStr "") ;;
     f <- Py.str_method f ;;
     let first := PyStr.lower (PyStr.strip f) in
     l <- Py.get c "lastName" (JStr "") ;;
     l <- Py.str_method l ;;
     let last := PyStr.lower (PyStr.strip l) in
     if negb (PyStr.is_empty last)
     then Ok ["#" +:+ slugify (first +:+ "-" +:+ last)]
     else Ok []
   else Ok [])%res.

Fixpoint author_tags_of (creators : list json) : result (list string) :=
  match creators with
  | [] => Ok []
  | c :: rest =>
      (tags <- creator_tags c ;;
       more <- author_tags_of rest ;;
       Ok (tags ++ more))%res
  end.

(** [annotations_by_attachment]: a dict from attachment key to the
    attachment and its annotations, in insertion order. *)
Definition annotated : Type := (json * list json)%type.
Definition annotation_dict : Type := list (json * annotated).

(** Keys of a dict must be hashable; equal keys are one entry
    ([True == 1] and [False == 0]). *)
Definition hashable (k : json) : bool :=
  match k with
  | JArr _ | JObj _ => false
  | _ => true
  end.

Definition key_eqb (a b : json) : bool :=
  match a, b with
  | JNull, JNull => true
  | JStr s, JStr t => String.eqb s t
  | JNum n, JNum m => n =? m
  | JBool x, JBool y => Bool.eqb x y
  | JNum n, JBool y | JBool y, JNum n => n =? (if y then 1 else 0)
  | _, _ => false
  end.

Fixpoint dict_update (d : annotation_dict) (k : json) (v : annotated)
  : annotation_dict :=
  match d with
  | [] => [(k, v)]
  | (k', v') :: rest =>
      if key_eqb k' k then (k', v) :: rest
      else (k', v') :: dict_update rest k v
  end.

(** [d[k] = v]. *)
Definition dict_set (d : annotation_dict) (k : json) (v : annotated)
  : result annotation_dict :=
  if hashable k then Ok (dict_update d k v) else Err TypeError.

Module ExportAnnotations.
Section Functions.
Context `{Runtime}.

Definition ensure_output_dir (path : string) : M string :=
  (mkdir path ;; ret path)%M.

(** [f"{safe_title or 'untitled'}_{item['key']}.md"]. *)
Definition filename_of (safe_title : string) (key : json) : string :=
  (if PyStr.is_empty safe_title then "untitled" else safe_title)
  +:+ "_" +:+ py_str key +:+ ".md".

(** The entry of one creator in the [**Authors:**] line. *)
Definition creator_name (c : json) : result string :=
  (f <- Py.get c "firstName" (JStr "") ;;
   l <- Py.get c "lastName" (JStr "") ;;
   Ok (PyStr.strip (py_str f +:+ " " +:+ py_str l)))%res.

(** The lines of one annotation, numbered [ann_count]. *)
Definition annotation_lines (ann_count : nat) (ann : json)
  : result (list string) :=
  (ann_data <- Py.getitem ann "data" ;;
   ann_type <- Py.get ann_data "annotationType" (JStr "") ;;
   page <- Py.get ann_data "annotationPageLabel" (JStr "") ;;
   text <- Py.get ann_data "annotationText" (JStr "") ;;
   comment <- Py.get ann_data "annotationComment" (JStr "") ;;
   color <- Py.get ann_data "annotationColor" (JStr "") ;;
   Ok ([ ""; "### Annotation " +:+ pretty ann_count;
         "**p" +:+ py_str page +:+ ", type: " +:+ py_str ann_type +:+ "**";
         py_str text ]
       ++ (if Py.truthy comment
           then ["  > Comment: " +:+ py_str comment] else [])
       ++ (if Py.truthy color
           then ["  > _(Color: " +:+ py_str color +:+ ")_"] else [])
       ++ [ "" ]))%res.

Fixpoint annotations_lines (ann_count : nat) (annotations : list json)
  : result (list string) :=
  match annotations with
  | [] => Ok []
  | ann :: rest =>
      (ls <- annotation_lines ann_count ann ;;
       more <- annotations_lines (S ann_count) rest ;;
       Ok (ls ++ more))%res
  end.

(** The section of one attachment. *)
Definition entry_lines (entry : annotated) : result (list string) :=
  (let (attachment, annotations) := entry in
   att_data <- Py.getitem attachment "data" ;;
   att_title <- Py.get att_data "title" (JStr "Attachment") ;;
   ls <- annotations_lines 0 annotations ;;
   Ok (("## " +:+ py_str att_title) :: ls ++ [""]))%res.

Fixpoint entries_lines (entries : list annotated) : result (list string) :=
  match entries with
  | [] => Ok []
  | e :: rest =>
      (ls <- entry_lines e ;;
       more <- entries_lines rest ;;
       Ok (ls ++ more))%res
  end.

(** The pure part of [write_markdown_for_item]: the name of the file and
    its text, computed in the order of the source. *)
Definition markdown_of_item (item : json)
           (annotations_by_attachment : annotation_dict)
  : result (string * string) :=
  (data <- Py.getitem item "data" ;;
   title <- Py.get data "title" (JStr "Untitled") ;;
   item_type <- Py.get data "itemType" (JStr "document") ;;
   creators <- Py.get data "creators" (JArr []) ;;
   date <- Py.get data "date" (JStr "") ;;
   year <- Py.slice_to 4 date ;;
   cs <- Py.iter creators ;;
   author_tags <- author_tags_of cs ;;
   ty <- Py.str_method item_type ;;
   let doc_tag := "#" +:+ slugify ty in
   t <- Py.re_subject title ;;
   let safe_title := safe_title_of t in
   key <- Py.getitem item "key" ;;
   let filename := filename_of safe_title key in
   names <- (if Py.truthy creators then rmap_list creator_name cs
             else Ok []) ;;
   sections <- entries_lines (map snd annotations_by_attachment) ;;
   let lines :=
     [ "# " +:+ py_str title ]
     ++ (if Py.truthy year then ["**Year:** " +:+ py_str year] else [])
     ++ [ ""; "**Item Type:** " +:+ py_str item_type ]
     ++ (if Py.truthy creators
         then ["**Authors:** " +:+ PyStr.join ", " names] else [])
     ++ [ ""; "**Tags:** " +:+ PyStr.join " " (author_tags ++ [doc_tag]);
          PyStr.newline +:+ "---" +:+ PyStr.newline ]
     ++ sections in
   Ok (filename, PyStr.join PyStr.newline lines))%res.

Definition write_markdown_for_item (item : json)
           (annotations_by_attachment : annotation_dict)
           (output_dir : string) : M unit :=
  (fc <- lift (markdown_of_item item annotations_by_attachment) ;;
   let filepath := path_join output_dir (fst fc) in
   write_file filepath (Text (snd fc)) ;;
   print [PLit "✅ Wrote "; PStr (PyStr.basename filepath)])%M.

(** The loop over the attachments of one item in [export]. *)
Fixpoint collect_annotations (client : ZoteroClient.t)
         (attachments : list json) (acc : annotation_dict)
  : M annotation_dict :=
  match attachments with
  | [] => ret acc
  | att :: rest =>
      (key <- lift (Py.getitem att "key") ;;
       annotations <- ZoteroClient.query_annotations client key ;;
       acc' <- (match annotations with
                | [] => ret acc
                | _ => lift (dict_set acc key (att, annotations))
                end) ;;
       collect_annotations client rest acc')%M
  end.

(** The body of the loop over the items in [export]. *)
Definition export_item (client : ZoteroClient.t) (output_dir : string)
           (item : json) : M unit :=
  (key <- lift (Py.getitem item "key") ;;
   attachments <- ZoteroClient.query_attachments client key ;;
   annotations_by_attachment <- collect_annotations client attachments [] ;;
   match annotations_by_attachment with
   | _ :: _ =>
       write_markdown_for_item item annotations_by_attachment output_dir
   | [] =>
       data <- lift (Py.getitem item "data") ;;
       title <- lift (Py.get data "title" JNull) ;;
       print [PLit "⚪ No annotations found for: "; PVal title]
   end)%M.

(** Command-line arguments as [argparse] hands them over. *)
Record args : Type := { output_dir : string; limit : Z }.

Definition export (a : args) : M unit :=
  (output_dir <- ensure_output_dir (output_dir a) ;;
   client <- ZoteroClient.init None None None ;;
   items <- ZoteroClient.query_items client true (limit a) ;;
   n <- lift (Py.len items) ;;
   print [PLit "📚 Found "; PInt n; PLit " items."] ;;
   items <- lift (Py.iter items) ;;
   for_each items (export_item client output_dir))%M.

End Functions.
End ExportAnnotations.

(* ===================================================================== *)
(** * lib/zotero_backup.py *)
(* ===================================================================== *)

Definition API_VERSION : string := "3".

Definition ensure_dir (p : string) : M unit := mkdir p.

Definition is_name_char (c : ascii) : bool :=
  PyStr.is_digit c || PyStr.is_lower c || PyStr.is_upper c
  || PyStr.mem c "-_.".

(** [re.sub(<not a digit, letter, dash, underscore or dot>+, '_', s)
    .strip('_')[:150]]. *)
Definition slugify_name (s : string) : string :=
  PyStr.take 150
    (PyStr.strip_chars "_"
       (PyStr.sub_runs (fun c => negb (is_name_char c)) "_" s)).

(** [s.zfill(width)] for the decimal digits of a natural number. *)
Fixpoint zeros (n : nat) : string :=
  match n with
  | O => EmptyString
  | S n' => String "0" (zeros n')
  end.

Definition digits (width n : nat) : string :=
  let s := pretty n in zeros (width - String.length s) +:+ s.

Definition date_time_text (d : datetime) : string :=
  digits 4 (year d) +:+ "-" +:+ digits 2 (month d) +:+ "-"
  +:+ digits 2 (day d) +:+ "T" +:+ digits 2 (hour d) +:+ ":"
  +:+ digits 2 (minute d) +:+ ":" +:+ digits 2 (second d).

(** [d.isoformat()]: the microseconds appear only when they are not zero. *)
Definition isoformat (d : datetime) : string :=
  date_time_text d
  +:+ (match microsecond d with
       | O => EmptyString
       | us => "." +:+ digits 6 us
       end).

(** [d.strftime('%Y-%m-%dT%H:%M:%SZ')]. *)
Definition strftime_utc (d : datetime) : string := date_time_text d +:+ "Z".

Definition gitignore_text : string :=
  PyStr.newline +:+ "# Example .gitignore - adjust as needed" +:+ PyStr.newline
  +:+ "__pycache__/" +:+ PyStr.newline +:+ "*.pyc" +:+ PyStr.newline.

(** The bytes a download leaves in the file: the chunks that are not
    empty, one after the other. *)
Fixpoint written_chunks (chunks : list string) : string :=
  match chunks with
  | [] => EmptyString
  | c :: rest =>
      if PyStr.is_empty c then written_chunks rest
      else c +:+ written_chunks rest
  end.

(** The class [ZoteroBackup]. *)
Module ZoteroBackup.
Section Methods.
Context `{Runtime}.

Record t : Type := {
  api_key : string;
  library_id : string;
  library_type : string;
  base_url : string;
  output_dir : string;
  include_attachments : bool;
  commit_repo : bool;
  sleep_between_requests : Q;
  per_page : Z;
  items_dir : string;
  attachments_dir : string;
  annotations_dir : string;
  meta_dir : string
}.

Definition init (api_key library_id library_type output_dir : string)
           (include_attachments commit_repo : bool)
           (sleep_between_requests : Q) (per_page : Z) : M t :=
  (let self :=
     {| api_key := api_key; library_id := library_id;
        library_type := library_type;
        base_url := "https://api.zotero.org/" +:+ library_type +:+ "/"
                    +:+ library_id;
        output_dir := output_dir;
        include_attachments := include_attachments;
        commit_repo := commit_repo;
        sleep_between_requests := sleep_between_requests;
        per_page := per_page;
        items_dir := path_join output_dir "items";
        attachments_dir := path_join output_dir "attachments";
        annotations_dir := path_join output_dir "annotations";
        meta_dir := path_join output_dir "meta" |} in
   for_each [items_dir self; attachments_dir self; annotations_dir self;
             meta_dir self] ensure_dir ;;
   ret self)%M.

Definition session_headers (self : t) : list (string * string) :=
  [("Zotero-API-Key", api_key self);
   ("User-Agent", "zotero_backup_script/1.0")].

Definition rate_limited_message : string :=
  "Rate limited by Zotero API (HTTP 429). Consider increasing delays.".

(** [_get(path, params=None, stream=False)]. *)
Definition _get (self : t) (path : string)
           (params : list (string * json)) (stream : bool) : M response :=
  (let url := base_url self +:+ path in
   let params :=
     match Py.assoc "v" params with
     | Some _ => params
     | None => params ++ [("v", JStr API_VERSION)]
     end in
   resp <- session_get {| url := url; headers := session_headers self;
                          params := params; stream := stream |} ;;
   if status_code resp =? 429 then raise (RuntimeError rate_limited_message)
   else
     raise_for_status resp ;;
     ret resp)%M.

(** The [while True] loop of [list_all_items]; [fuel] bounds the number of
    pages requested. *)
Fixpoint list_all_items_loop (fuel : nat) (self : t) (items : list json)
         (start : Z) : M (list json) :=
  match fuel with
  | O => diverge
  | S fuel' =>
      (resp <- _get self "/items/top"
                 [("start", JNum start); ("limit", JNum (per_page self))]
                 false ;;
       let batch := body resp in
       if negb (Py.truthy batch) then ret items
       else
         elems <- lift (Py.iter batch) ;;
         let items := items ++ elems in
         n <- lift (Py.len batch) ;;
         print [PLit "Fetched "; PInt n; PLit " items (start=";
                PInt start; PLit ")"] ;;
         let start := start + n in
         sleep (sleep_between_requests self) ;;
         if n <? per_page self then ret items
         else list_all_items_loop fuel' self items start)%M
  end.

Definition list_all_items (fuel : nat) (self : t) : M (list json) :=
  list_all_items_loop fuel self [] 0.

Definition get_item (self : t) (item_key : json) : M json :=
  (resp <- _get self ("/items/" +:+ py_str item_key) [] false ;;
   ret (body resp))%M.

Definition get_item_children (self : t) (item_key : json) : M json :=
  (resp <- _get self ("/items/" +:+ py_str item_key +:+ "/children")
             [] false ;;
   ret (body resp))%M.

(** The loop over the link names that can hold a download address: the
    [href] of the first candidate that is a dict with a true [href]. *)
Fixpoint named_href (links : json) (candidates : list string)
  : result (option json) :=
  match candidates with
  | [] => Ok None
  | candidate :: rest =>
      (link_obj <- Py.get links candidate JNull ;;
       if Py.is_dict link_obj then
         href <- Py.get link_obj "href" JNull ;;
         if Py.truthy href then Ok (Some href) else named_href links rest
       else named_href links rest)%res
  end.

Definition link_candidates : list string :=
  ["enclosure"; "file"; "link"; "attachment"].

(** The [href] of the first entry of [links], when the named candidates
    gave none. *)
Definition first_entry_href (links : json) : result (option json) :=
  match links with
  | JObj ((_, first) :: _) =>
      if Py.is_dict first then
        (href <- Py.get first "href" JNull ;;
         Ok (if Py.truthy href then Some href else None))%res
      else Ok None
  | _ => Ok None
  end.

(** [with open(dest_path, 'wb') as fh: ...]. *)
Definition save_stream (resp : response) (dest_path : string) : M unit :=
  write_file dest_path (Binary (written_chunks (content resp))).

Definition get_attachment_file (self : t) (attachment : json)
           (dest_path : string) : M bool :=
  (links <- lift (Py.get attachment "links" JNull) ;;
   let links := Py.or_else links (JObj []) in
   href <- lift (named_href links link_candidates) ;;
   href <- (match href with
            | None => lift (first_entry_href links)
            | Some _ => ret href
            end) ;;
   match href with
   | None =>
       att_key <- lift (Py.get attachment "key" JNull) ;;
       if Py.truthy att_key then
         saved <- try_except
                    (resp <- _get self ("/items/" +:+ py_str att_key
                                        +:+ "/file") [] true ;;
                     if status_code resp =? 200 then
                       save_stream resp dest_path ;; ret true
                     else ret false)
                    is_HTTPError (fun _ => ret false) ;;
         ret saved
       else ret false
   | Some href =>
       h <- lift (Py.str_method href) ;;
       let h := if PyStr.startswith "/" h
                then "https://api.zotero.org" +:+ h else h in
       try_except
         (print [PLit "  Downloading file from "; PStr h] ;;
          resp <- session_get {| url := h; headers := session_headers self;
                                 params := []; stream := true |} ;;
          raise_for_status resp ;;
          save_stream resp dest_path ;;
          ret true)
         is_Exception
         (fun e =>
            print [PLit "  ⚠️  Failed to download "; PStr h; PLit ": ";
                   PExn e] ;;
            ret false)
   end)%M.

(** The download of one attachment in [backup]: a first attempt under
    the name taken from the metadata, a second one under the key. *)
Definition download_attachment (self : t) (child cdata att_key : json)
           (att_dir : string) : M unit :=
  (filename <- lift (Py.get cdata "filename" JNull) ;;
   title <- lift (Py.get cdata "title" JNull) ;;
   let raw_fn := Py.or_else (Py.or_else filename title) att_key in
   raw_fn <- lift (Py.re_subject raw_fn) ;;
   let fn := slugify_name raw_fn in
   let dest_path := path_join att_dir fn in
   success <- get_attachment_file self child dest_path ;;
   if negb success then
     let dest_path2 := path_join att_dir (py_str att_key) in
     success2 <- get_attachment_file self child dest_path2 ;;
     if success2
     then print [PLit "    saved as "; PStr (PyStr.basename dest_path2)]
     else print [PLit "    skipped downloading attachment "; PVal att_key]
   else print [PLit "    saved file "; PStr (PyStr.basename dest_path)])%M.

(** The annotations of one attachment in [backup]. *)
Definition backup_annotations (self : t) (att_key : json) : M unit :=
  try_except
    (ann_children <- get_item_children self att_key ;;
     sleep (sleep_between_requests self) ;;
     if Py.truthy ann_children then
       let ann_file :=
         path_join (annotations_dir self) (py_str att_key +:+ ".json") in
       write_file ann_file (JsonDump ann_children) ;;
       n <- lift (Py.len ann_children) ;;
       print [PLit "    saved "; PInt n; PLit " annotation(s)"]
     else ret tt)%M
    is_Exception
    (fun e =>
       print [PLit "    failed to fetch children for attachment ";
              PVal att_key; PLit ": "; PExn e]).

(** The body of the loop over the children of an item. *)
Definition backup_child (self : t) (child : json) : M unit :=
  (cdata <- lift (Py.get child "data" (JObj [])) ;;
   ty <- lift (Py.get cdata "itemType" (JStr "")) ;;
   ty <- lift (Py.str_method ty) ;;
   let ctype := PyStr.lower ty in
   if String.eqb ctype "attachment" then
     att_key <- lift (Py.get child "key" JNull) ;;
     title <- lift (Py.get cdata "title" JNull) ;;
     filename <- lift (Py.get cdata "filename" JNull) ;;
     let att_title :=
       Py.or_else (Py.or_else title filename)
                  (JStr ("attachment-" +:+ py_str att_key)) in
     att_title <- lift (Py.re_subject att_title) ;;
     let att_safe_name := slugify_name att_title in
     att_dir <- lift (path_join_value (attachments_dir self) att_key) ;;
     ensure_dir att_dir ;;
     let att_meta_file := path_join att_dir (py_str att_key +:+ ".json") in
     write_file att_meta_file (JsonDump child) ;;
     (if include_attachments self
      then download_attachment self child cdata att_key att_dir
      else ret tt) ;;
     backup_annotations self att_key
   else ret tt)%M.

(** The body of the loop over the items; [idx] counts from 1. *)
Definition backup_item (self : t) (total : nat) (idx : nat) (item : json)
  : M unit :=
  (data <- lift (Py.get item "data" (JObj [])) ;;
   item_key <- lift (Py.get item "key" JNull) ;;
   title <- lift (Py.get data "title"
                         (JStr ("item-" +:+ py_str item_key))) ;;
   print [PLit "["; PInt (Z.of_nat idx); PLit "/"; PInt (Z.of_nat total);
          PLit "] Backing up item "; PVal item_key; PLit " — ";
          PVal title] ;;
   let item_file :=
     path_join (items_dir self) (py_str item_key +:+ ".json") in
   write_file item_file (JsonDump item) ;;
   children <- get_item_children self item_key ;;
   sleep (sleep_between_requests self) ;;
   children <- lift (Py.iter children) ;;
   for_each children (backup_child self))%M.

(** [for idx, item in enumerate(items, start=idx)]. *)
Fixpoint backup_items (self : t) (total : nat) (idx : nat)
         (items : list json) : M unit :=
  match items with
  | [] => ret tt
  | item :: rest =>
      (backup_item self total idx item ;;
       backup_items self total (S idx) rest)%M
  end.

Definition git_in (self : t) (command : list string) : list string :=
  ["git"; "-C"; output_dir self] ++ command.

Definition _is_git_repo (self : t) : M bool :=
  try_except
    (subprocess_run (git_in self ["rev-parse"]) ;; ret true)%M
    is_CalledProcessError
    (fun _ => ret false).

Definition commit_message (now : datetime) : string :=
  "Zotero backup " +:+ strftime_utc now.

(** The first block of [_maybe_init_and_commit]: the repository is
    initialized if there is none; [false] stands for the early [return]
    after a failed [git init]. *)
Definition init_repo_if_needed (self : t) : M bool :=
  (is_repo <- _is_git_repo self ;;
   if negb is_repo then
     print [PLit "Initializing git repo in output directory..."] ;;
     try_except
       (subprocess_run ["git"; "init"; output_dir self] ;;
        ret true)
       is_Exception
       (fun e =>
          print [PLit "Failed to init git repo: "; PExn e] ;;
          ret false)
   else ret true)%M.

(** The second block: a recommended [.gitignore], unless there is one. *)
Definition write_gitignore_if_absent (self : t) : M unit :=
  (let gi_path := path_join (output_dir self) ".gitignore" in
   present <- path_exists gi_path ;;
   if negb present then write_file gi_path (Text gitignore_text)
   else ret tt)%M.

(** The third block: add and commit. *)
Definition add_and_commit (self : t) : M unit :=
  try_except
    (subprocess_run (git_in self ["add"; "."]) ;;
     now <- utcnow ;;
     let msg := commit_message now in
     subprocess_run (git_in self ["commit"; "-m"; msg]) ;;
     print [PLit "Committed backup to git."])%M
    is_CalledProcessError
    (fun e =>
       print [PLit "git add/commit failed (maybe nothing to commit).";
              PExn e]).

Definition _maybe_init_and_commit (self : t) : M unit :=
  (ready <- init_repo_if_needed self ;;
   if negb ready then ret tt
   else
     write_gitignore_if_absent self ;;
     add_and_commit self)%M.

(** The method [backup]; [fuel] bounds the pages of [list_all_items]. *)
Definition backup (fuel : nat) (self : t) : M unit :=
  (print [PLit "Starting Zotero backup"] ;;
   items <- list_all_items fuel self ;;
   now <- utcnow ;;
   let meta :=
     JObj [("fetched_at", JStr (isoformat now +:+ "Z"));
           ("item_count", JNum (Z.of_nat (length items)))] in
   write_file (path_join (meta_dir self) "backup_meta.json")
              (JsonDump meta) ;;
   backup_items self (length items) 1 items ;;
   print [PLit "Backup complete."] ;;
   if commit_repo self then _maybe_init_and_commit self else ret tt)%M.

End Methods.
End ZoteroBackup.

(** ** The command [backup()] *)

Record backup_args : Type := {
  arg_output_dir : string;
  arg_include_attachments : bool;
  arg_commit_repo : bool;
  arg_sleep : Q;
  arg_per_page : Z
}.

(** What [parser.parse_args()] does with the command line: it returns the
    arguments or leaves the program itself. *)
Inductive parsed (A : Type) : Type :=
| Parsed (a : A)
| ParserExit (code : Z).
Arguments Parsed {A} a.
Arguments ParserExit {A} code.

(** The function [backup] of the module.  Interrupts of the user do not
    occur in the model, so the clause for [KeyboardInterrupt] is never
    entered. *)
Section Command.
Context `{Runtime}.

Definition backup (fuel : nat) (command_line : parsed backup_args)
  : M unit :=
  match command_line with
  | ParserExit code => raise (SystemExit code)
  | Parsed args =>
      (api_key <- env_get "ZOTERO_API_KEY" None ;;
       lib_id <- env_get "ZOTERO_LIBRARY_ID" None ;;
       lib_type <- env_get "ZOTERO_LIBRARY_TYPE" (Some "users") ;;
       if negb (opt_truthy api_key) || negb (opt_truthy lib_id) then
         print [PLit "Missing environment variables. Set ZOTERO_API_KEY and ZOTERO_LIBRARY_ID."] ;;
         raise (SystemExit 2)
       else
         zb <- ZoteroBackup.init (opt_str api_key) (opt_str lib_id)
                 (opt_str lib_type) (arg_output_dir args)
                 (arg_include_attachments args) (arg_commit_repo args)
                 (arg_sleep args) (arg_per_page args) ;;
         try_except (ZoteroBackup.backup fuel zb)
           is_Exception
           (fun e => print [PLit "Error during backup:"; PExn e] ;;
                     raise e))%M
  end.

End Command.

(* ===================================================================== *)
(** * Vocabulary of the properties *)
(* ===================================================================== *)

(** ** Traces *)

(** The requests of a trace, in order. *)
Fixpoint requests_of (t : list event) : list request :=
  match t with
  | [] => []
  | EvGet req _ :: r => req :: requests_of r
  | _ :: r => requests_of r
  end.

(** The events a run added to the trace, and the files it wrote. *)
Definition new_events (before after : world) : list event :=
  drop (length (w_trace before)) (w_trace after).

Fixpoint written_paths (t : list event) : list string :=
  match t with
  | [] => []
  | EvWrite p _ :: r => p :: written_paths r
  | _ :: r => written_paths r
  end.

(** The world with more events in its trace and nothing else changed. *)
Definition record_events (evs : list event) (w : world) : world :=
  {| w_fs := w_fs w; w_dirs := w_dirs w; w_trace := w_trace w ++ evs;
     w_environ := w_environ w; w_server := w_server w;
     w_subprocess := w_subprocess w; w_clock := w_clock w |}.

(** The answer the server gives to [req] in the world [w]. *)
Definition answer (w : world) (req : request) : response :=
  w_server w (w_trace w) req.

(** How the result of a pure computation ends an effectful one. *)
Definition outcome_of {A} (r : result A) : outcome A :=
  match r with
  | Ok a => Ret a
  | Err e => Raise e
  end.

(** The world after an event: a write stores the file, a [mkdir] the
    directory, and every event is appended to the trace. *)
Definition apply_event (w : world) (e : event) : world :=
  match e with
  | EvWrite p c => record_event e (store_file p c w)
  | EvMkdir p => record_event e (store_dir p w)
  | _ => record_event e w
  end.

(** The world after a sequence of events. *)
Definition replay (evs : list event) (w : world) : world :=
  fold_left apply_event evs w.

(** Events that leave the disk alone. *)
Definition quiet (e : event) : bool :=
  match e with
  | EvWrite _ _ | EvMkdir _ => false
  | _ => true
  end.

(** [m] changes the world by events that satisfy [P], whatever its
    outcome. *)
Definition emits {A} (P : list event -> Prop) (m : M A) : Prop :=
  forall w, exists evs, snd (m w) = replay evs w /\ P evs.

(** Properties of traces that hold of the empty trace and of the
    concatenation of two traces that have them. *)
Class TraceProperty (P : list event -> Prop) : Prop := {
  tp_nil : P [];
  tp_app : forall a b, P a -> P b -> P (a ++ b)
}.

(** ** Requests and answers *)

(** The answer 200 with a JSON body, and an answer that is only a status. *)
Definition ok_response (b : json) : response :=
  {| status_code := 200; body := b; content := [] |}.

Definition status_response (s : Z) : response :=
  {| status_code := s; body := JNull; content := [] |}.

(** The request [_get(path, params, stream)] sends. *)
Definition get_request (self : ZoteroBackup.t) (path : string)
           (params : list (string * json)) (stream : bool) : request :=
  {| url := ZoteroBackup.base_url self +:+ path;
     headers := ZoteroBackup.session_headers self;
     params := match Py.assoc "v" params with
               | Some _ => params
               | None => params ++ [("v", JStr API_VERSION)]
               end;
     stream := stream |}.

(** The request for the page of top-level items that starts at [start]. *)
Definition page_request (self : ZoteroBackup.t) (start : Z) : request :=
  {| url := ZoteroBackup.base_url self +:+ "/items/top";
     headers := ZoteroBackup.session_headers self;
     params := [("start", JNum start);
                ("limit", JNum (ZoteroBackup.per_page self));
                ("v", JStr API_VERSION)];
     stream := false |}.

(** The request to the generic file endpoint of an attachment. *)
Definition file_request `{Runtime} (self : ZoteroBackup.t) (att_key : json)
  : request :=
  get_request self ("/items/" +:+ py_str att_key +:+ "/file") [] true.

(** The request of [query_items]. *)
Definition items_request (client : ZoteroClient.t) (top : bool) (limit : Z)
  : request :=
  {| url := (if top then (ZoteroClient.base_url client +:+ "/items") +:+ "/top"
             else ZoteroClient.base_url client +:+ "/items");
     headers := ZoteroClient.session_headers client;
     params := [("limit", JNum limit)];
     stream := false |}.

(** The request of [query_attachments] and [query_annotations]. *)
Definition children_request `{Runtime} (client : ZoteroClient.t)
           (item_key : json)
  : request :=
  {| url := ZoteroClient.base_url client +:+ "/items/" +:+ py_str item_key
            +:+ "/children";
     headers := ZoteroClient.session_headers client;
     params := [];
     stream := false |}.

(** What [_get] raises for an error status. *)
Definition get_failure (s : Z) : exn :=
  if s =? 429 then RuntimeError ZoteroBackup.rate_limited_message
  else HTTPError s.

(** What a query for the children of type [kind] makes of an answer. *)
Definition children_result (kind : string) (resp : response)
  : result (list json) :=
  if is_error_status (status_code resp)
  then Err (HTTPError (status_code resp))
  else (children <- Py.iter (body resp) ;;
        ZoteroClient.children_of_type kind children)%res.

(** ** Pagination *)

(** [len(batch)]. *)
Definition batch_size (b : list json) : Z := Z.of_nat (length b).

(** A batch after which the pagination stops: empty, or shorter than a
    page. *)
Definition last_batch (per_page : Z) (b : list json) : bool :=
  match b with
  | [] => true
  | _ => batch_size b <? per_page
  end.

(** The batches read from a scripted server: up to and including the first
    one that stops the pagination; past the end of the script the stub
    answers with an empty batch. *)
Fixpoint pages_read (per_page : Z) (batches : list (list json))
  : list (list json) :=
  match batches with
  | [] => [[]]
  | b :: rest =>
      if last_batch per_page b then [b] else b :: pages_read per_page rest
  end.

(** The offsets of successive pages: each is the previous one advanced by
    the size of the batch received. *)
Fixpoint offsets (start : Z) (pages : list (list json)) : list Z :=
  match pages with
  | [] => []
  | b :: rest => start :: offsets (start + batch_size b) rest
  end.

(** The events of reading [pages] from offset [start] on. *)
Fixpoint page_events (self : ZoteroBackup.t) (start : Z)
         (pages : list (list json)) : list event :=
  match pages with
  | [] => []
  | b :: rest =>
      EvGet (page_request self start) (ok_response (JArr b))
      :: match b with
         | [] => []
         | _ => [EvPrint [PLit "Fetched "; PInt (batch_size b);
                          PLit " items (start="; PInt start; PLit ")"];
                 EvSleep (ZoteroBackup.sleep_between_requests self)]
         end
      ++ page_events self (start + batch_size b) rest
  end.

(** The pagination stops at the first batch that is empty or short: the
    pages read are a prefix of the script (followed by the empty batch the
    stub gives at its end), the last page read stops the loop and no earlier
    one does. *)
Definition stops_at_first_last_batch (per_page : Z)
           (script pages : list (list json)) : Prop :=
  (exists unread, script ++ [[]] = pages ++ unread)
  /\ exists before final,
      pages = before ++ [final]
      /\ Forall (fun b => last_batch per_page b = false) before
      /\ last_batch per_page final = true.

(** ** The Markdown export *)

(** One character of the sanitized title. *)
Definition sanitize_char (c : ascii) : ascii :=
  if PyStr.mem c illegal_filename_chars then "_"%char else c.

(** A string changed character by character. *)
Fixpoint string_map (f : ascii -> ascii) (s : string) : string :=
  match s with
  | EmptyString => EmptyString
  | String c r => String (f c) (string_map f r)
  end.

(** The name the claim describes, with the separator of the file layout
    ([<sanitized-title>_<key>.md]) or without any. *)
Definition claimed_filename `{Runtime} (separator title : string)
           (key : json)
  : string :=
  safe_title_of title +:+ separator +:+ py_str key +:+ ".md".


(** ** The items of an export, one after the other *)

(** A request, as an event. *)
Definition is_get (e : event) : bool :=
  match e with
  | EvGet _ _ => true
  | _ => false
  end.





(** ** Downloads and files *)

(** A link object that carries an [href]: a dict whose [href] is true. *)
Definition carries_href (link_obj : json) : bool :=
  match link_obj with
  | JObj l =>
      Py.truthy (match Py.assoc "href" l with Some v => v | None => JNull end)
  | _ => false
  end.

(** [attachment.get('links') or {}] for a dict with the given entries. *)
Definition links_of (fields : list (string * json)) : json :=
  Py.or_else (match Py.assoc "links" fields with Some v => v | None => JNull end)
             (JObj []).






(** ** Sleeping *)

(** Requests for a page of items carry a [start] parameter; requests for
    children carry none.  Both are made without streaming, downloads with. *)
Definition is_page_request (req : request) : bool :=
  match Py.assoc "start" (params req) with
  | Some _ => true
  | None => false
  end.

(** A batch with at least one item. *)
Definition nonempty_array (v : json) : bool :=
  match v with
  | JArr (_ :: _) => true
  | _ => false
  end.


(** The requests for a page or for children that were answered without an
    error status and, for a page, by a batch that is not empty. *)
Definition answered_listing (req : request) (resp : response) : bool :=
  negb (stream req)
  && negb (is_error_status (status_code resp))
  && (if is_page_request req then nonempty_array (body resp) else true).

(** The next thing that happens is a sleep of [d] seconds, at most a line of
    progress printed before it. *)
Definition sleeps_next (d : Q) (rest : list event) : Prop :=
  match rest with
  | EvSleep d' :: _ => d' = d
  | EvPrint _ :: EvSleep d' :: _ => d' = d
  | _ => False
  end.




(** The next thing that happens is a sleep, of whatever length, at most a
    line of progress printed before it. *)
Definition sleep_follows (rest : list event) : Prop :=
  match rest with
  | EvSleep _ :: _ => True
  | EvPrint _ :: EvSleep _ :: _ => True
  | _ => False
  end.

(** After each request that is [due] the program sleeps [d] seconds, and
    after each other request it does not sleep. *)
Fixpoint paced_exactly (due : request -> response -> bool) (d : Q)
         (evs : list event) : Prop :=
  match evs with
  | [] => True
  | EvGet req resp :: rest =>
      (if due req resp then sleeps_next d rest else ~ sleep_follows rest)
      /\ paced_exactly due d rest
  | _ :: rest => paced_exactly due d rest
  end.

(** The sleeps of a trace, and its requests that are [due]. *)
Fixpoint sleeps_of (evs : list event) : list Q :=
  match evs with
  | [] => []
  | EvSleep d :: rest => d :: sleeps_of rest
  | _ :: rest => sleeps_of rest
  end.

Fixpoint due_requests (due : request -> response -> bool)
         (evs : list event) : list request :=
  match evs with
  | [] => []
  | EvGet req resp :: rest =>
      if due req resp then req :: due_requests due rest
      else due_requests due rest
  | _ :: rest => due_requests due rest
  end.

(** The whole discipline: a sleep of [d] seconds after each request that is
    [due], none after another request, and no sleep at the start or in
    excess of the requests that are due. *)
Definition sleeps_exactly_when (due : request -> response -> bool) (d : Q)
           (evs : list event) : Prop :=
  paced_exactly due d evs
  /\ ~ sleep_follows evs
  /\ length (sleeps_of evs) = length (due_requests due evs).

(** ** The command and the commit *)

(** The notice of the command when a credential is missing. *)
Definition missing_variables_message : list piece :=
  [PLit "Missing environment variables. Set ZOTERO_API_KEY and ZOTERO_LIBRARY_ID."].

(** The command lines of the commit step, and what it prints. *)
Definition rev_parse_command (self : ZoteroBackup.t) : list string :=
  ["git"; "-C"; ZoteroBackup.output_dir self; "rev-parse"].

Definition init_command (self : ZoteroBackup.t) : list string :=
  ["git"; "init"; ZoteroBackup.output_dir self].

Definition add_command (self : ZoteroBackup.t) : list string :=
  ["git"; "-C"; ZoteroBackup.output_dir self; "add"; "."].

Definition commit_command (self : ZoteroBackup.t) (msg : string)
  : list string :=
  ["git"; "-C"; ZoteroBackup.output_dir self; "commit"; "-m"; msg].

Definition gitignore_path (self : ZoteroBackup.t) : string :=
  path_join (ZoteroBackup.output_dir self) ".gitignore".

Definition init_notice : event :=
  EvPrint [PLit "Initializing git repo in output directory..."].

Definition init_failed_report (e : exn) : event :=
  EvPrint [PLit "Failed to init git repo: "; PExn e].

Definition committed_notice : event :=
  EvPrint [PLit "Committed backup to git."].

Definition commit_failed_report (e : exn) : event :=
  EvPrint [PLit "git add/commit failed (maybe nothing to commit).";
           PExn e].

(** A command was run. *)
Definition is_run (e : event) : bool :=
  match e with EvRun _ _ => true | _ => false end.

(** [git] can be started, whatever it then answers. *)
Definition git_starts (w : world) : Prop :=
  forall hist argv, w_subprocess w hist argv <> NotStarted.

(** What [subprocess.run(argv, check=True)] raises for an outcome of the
    command: nothing when it exits with status 0. *)
Definition run_failure (o : proc_outcome) : option exn :=
  match o with
  | Exited 0 => None
  | Exited rc => Some (CalledProcessError rc)
  | NotStarted => Some OSError
  end.

(** The outcome of the command [argv] when it is run in the world [w]
    after the events [before]. *)
Definition git_outcome (w : world) (before : list event)
           (argv : list string) : proc_outcome :=
  w_subprocess w (w_trace w ++ before) argv.

(** The events after which there is a repository: [git rev-parse]
    succeeded, or it failed and [git init] succeeded. *)
Definition repository_ready (self : ZoteroBackup.t) (w : world)
           (ready : list event) : Prop :=
  (git_outcome w [] (rev_parse_command self) = Exited 0
   /\ ready = [EvRun (rev_parse_command self) (Exited 0)])
  \/ exists rc0,
      rc0 <> 0
      /\ git_outcome w [] (rev_parse_command self) = Exited rc0
      /\ git_outcome w [EvRun (rev_parse_command self) (Exited rc0);
                        init_notice] (init_command self) = Exited 0
      /\ ready = [EvRun (rev_parse_command self) (Exited rc0); init_notice;
                  EvRun (init_command self) (Exited 0)].

(** The write of the default [.gitignore], when the world has none. *)
Definition ignore_file_written (self : ZoteroBackup.t) (w : world)
  : list event :=
  match w_fs w !! gitignore_path self with
  | Some _ => []
  | None => [EvWrite (gitignore_path self) (Text gitignore_text)]
  end.

(** What is printed after [git commit]. *)
Definition commit_closing (o : proc_outcome) : list event :=
  match o with
  | Exited 0 => [committed_notice]
  | Exited rc => [commit_failed_report (CalledProcessError rc)]
  | NotStarted => []
  end.

(** How a step ends that ran a command with outcome [o] under an [except]
    clause for [CalledProcessError]: only a command that could not be
    started ends it with an exception. *)
Definition ends_after (o : proc_outcome) : outcome unit :=
  match o with
  | NotStarted => Raise OSError
  | Exited _ => Ret tt
  end.

(** The events of the commit step and the way it ends, for every way the
    commands can end.  Without [git] at all the step ends with the
    exception of the first command.  A [git init] that fails is reported
    and ends the step.  With a repository the [.gitignore] is written if
    there is none and the changes are staged; a [git add] or [git commit]
    that exits with a status other than 0 is reported, one that cannot be
    started ends the step with its exception.  The message of the commit
    carries the time read after staging. *)
Definition commit_cases (self : ZoteroBackup.t) (w : world)
           (evs : list event) (o : outcome unit) : Prop :=
  let rev := EvRun (rev_parse_command self) in
  let init := EvRun (init_command self) in
  let add := EvRun (add_command self) in
  let ignore := ignore_file_written self w in
  (git_outcome w [] (rev_parse_command self) = NotStarted
   /\ evs = [rev NotStarted] /\ o = Raise OSError)
  \/ (exists rc0 o1 e,
         rc0 <> 0
         /\ git_outcome w [] (rev_parse_command self) = Exited rc0
         /\ git_outcome w [rev (Exited rc0); init_notice] (init_command self)
            = o1
         /\ run_failure o1 = Some e
         /\ evs = [rev (Exited rc0); init_notice; init o1;
                   init_failed_report e]
         /\ o = Ret tt)
  \/ (exists ready,
         repository_ready self w ready
         /\ ((exists o2,
                 git_outcome w (ready ++ ignore) (add_command self) = o2
                 /\ o2 <> Exited 0
                 /\ evs = ready ++ ignore
                          ++ add o2
                             :: match o2 with
                                | Exited rc =>
                                    [commit_failed_report
                                       (CalledProcessError rc)]
                                | NotStarted => []
                                end
                 /\ o = ends_after o2)
             \/ (exists o3,
                    let staged := ready ++ ignore ++ [add (Exited 0)] in
                    let now := w_clock w (w_trace w ++ staged) in
                    let commit :=
                      commit_command self
                        ("Zotero backup " +:+ strftime_utc now) in
                    git_outcome w (ready ++ ignore) (add_command self)
                    = Exited 0
                    /\ git_outcome w staged commit = o3
                    /\ evs = staged ++ EvRun commit o3 :: commit_closing o3
                    /\ o = ends_after o3))).

(** The method [backup] up to and including the line [Backup complete.],
    that is without the commit step. *)
Definition items_phase `{Runtime} (fuel : nat) (self : ZoteroBackup.t)
  : M unit :=
  (print [PLit "Starting Zotero backup"] ;;
   items <- ZoteroBackup.list_all_items fuel self ;;
   now <- utcnow ;;
   let meta :=
     JObj [("fetched_at", JStr (isoformat now +:+ "Z"));
           ("item_count", JNum (Z.of_nat (length items)))] in
   write_file (path_join (ZoteroBackup.meta_dir self) "backup_meta.json")
              (JsonDump meta) ;;
   ZoteroBackup.backup_items self (length items) 1 items ;;
   print [PLit "Backup complete."])%M.

(** ** Slugs and file names *)

(** Words of the characters a-z and 0-9 separated by single hyphens:
    [after_hyphen] tells that the previous character was a hyphen, or that
    the text starts here, so that a word has to follow. *)
Fixpoint slug_from (after_hyphen : bool) (s : string) : bool :=
  match s with
  | EmptyString => negb after_hyphen
  | String c r =>
      if is_slug_char c then slug_from false r
      else PyStr.eqb_char c "-" && negb after_hyphen && slug_from true r
  end.

Definition is_slug (s : string) : bool :=
  match s with
  | EmptyString => true
  | _ => slug_from true s
  end.

(** The same without the condition on the end of the text. *)
Fixpoint hyphenated (after_hyphen : bool) (s : string) : bool :=
  match s with
  | EmptyString => true
  | String c r =>
      if is_slug_char c then hyphenated false r
      else PyStr.eqb_char c "-" && negb after_hyphen && hyphenated true r
  end.

(** The characters of a string. *)
Definition chars (s : string) : list ascii := list_ascii_of_string s.

(** The first character, if there is one. *)
Definition first_char (s : string) : option ascii :=
  match s with
  | EmptyString => None
  | String c _ => Some c
  end.

(** ** Children by type *)

(** [i["data"].get("itemType") == kind], when it can be evaluated. *)
Definition item_type_is (kind : string) (i : json) : result bool :=
  (data <- Py.getitem i "data" ;;
   ty <- Py.get data "itemType" JNull ;;
   Ok (Py.eq_str ty kind))%res.

(** An item that is known to be of type [kind]. *)
Definition has_item_type (kind : string) (i : json) : bool :=
  match item_type_is kind i with
  | Ok b => b
  | Err _ => false
  end.

(** A request of the client [ZoteroClient]: sent with its session headers
    to an address under its base URL, and read as a whole. *)
Definition client_request (client : ZoteroClient.t) (e : event) : Prop :=
  match e with
  | EvGet req _ =>
      headers req = ZoteroClient.session_headers client
      /\ PyStr.startswith (ZoteroClient.base_url client) (url req) = true
      /\ stream req = false
  | _ => False
  end.


(** The credential [name] is not usable: unset, or set to the empty
    string. *)
Definition no_credential (w : world) (name : string) : Prop :=
  opt_truthy (w_environ w !! name) = false.

(** ** The Markdown export, as a whole *)

(** What the export command does: it creates its output directory, sends
    requests that are read as a whole, prints, and writes texts to files
    [<name>.md] of the output directory.  It neither sleeps nor runs a
    command. *)
Definition export_step (out : string) (e : event) : Prop :=
  match e with
  | EvMkdir p => p = out
  | EvGet req _ => stream req = false
  | EvPrint _ => True
  | EvWrite p (Text _) =>
      exists name, p = path_join out name /\ PyStr.endswith ".md" name = true
  | EvWrite _ _ => False
  | EvSleep _ => False
  | EvRun _ _ => False
  end.

(** ** Pagination without end *)

(** A server that answers every request with a batch that is neither empty
    nor shorter than a page. *)
Definition never_short (per_page : Z) (w : world) : Prop :=
  forall hist req,
    is_error_status (status_code (w_server w hist req)) = false
    /\ exists batch,
        body (w_server w hist req) = JArr batch
        /\ batch <> []
        /\ per_page <= batch_size batch.

(** ** The children of an item in a backup *)

(** The request of [get_item_children]. *)
Definition item_children_request `{Runtime} (self : ZoteroBackup.t)
           (item_key : json) : request :=
  get_request self ("/items/" +:+ py_str item_key +:+ "/children") [] false.

(** The file that holds the annotations of an attachment. *)
Definition annotations_file `{Runtime} (self : ZoteroBackup.t)
           (att_key : json) : string :=
  path_join (ZoteroBackup.annotations_dir self) (py_str att_key +:+ ".json").

(** The report of a failure to fetch or save them. *)
Definition children_failed_report (att_key : json) (e : exn) : event :=
  EvPrint [PLit "    failed to fetch children for attachment ";
           PVal att_key; PLit ": "; PExn e].

(** The file that holds the snapshot of an item. *)
Definition item_file `{Runtime} (self : ZoteroBackup.t) (item : json)
  : string :=
  path_join (ZoteroBackup.items_dir self)
    (py_str (match Py.get item "key" JNull with
             | Ok k => k
             | Err _ => JNull
             end) +:+ ".json").

(** What every step of a backup run respects: requests carry the headers
    of the session, the API key among them; a pause has the configured
    length; the only program run is [git]. *)
Definition backup_step (self : ZoteroBackup.t) (e : event) : Prop :=
  match e with
  | EvGet req _ => headers req = ZoteroBackup.session_headers self
  | EvSleep d => d = ZoteroBackup.sleep_between_requests self
  | EvRun argv _ => head argv = Some "git"
  | _ => True
  end.

(** ** The address of a download *)

(** The address [get_attachment_file] settles on: the [href] of the first
    named link that carries one, else the [href] of the first entry of the
    links, else none. *)
Definition download_href (attachment : json) : result (option json) :=
  (links <- Py.get attachment "links" JNull ;;
   let links := Py.or_else links (JObj []) in
   href <- ZoteroBackup.named_href links ZoteroBackup.link_candidates ;;
   match href with
   | None => ZoteroBackup.first_entry_href links
   | Some _ => Ok href
   end)%res.

(** An address that starts with a slash is taken on the host of the API. *)
Definition absolute_href (h : string) : string :=
  if PyStr.startswith "/" h then "https://api.zotero.org" +:+ h else h.

(** The request of a download from the address [h], and the lines printed
    before it and after a failure. *)
Definition href_request (self : ZoteroBackup.t) (h : string) : request :=
  {| url := absolute_href h;
     headers := ZoteroBackup.session_headers self;
     params := [];
     stream := true |}.

Definition downloading_notice (h : string) : event :=
  EvPrint [PLit "  Downloading file from "; PStr (absolute_href h)].

Definition download_failed_report (h : string) (e : exn) : event :=
  EvPrint [PLit "  ⚠️  Failed to download "; PStr (absolute_href h);
           PLit ": "; PExn e].

(** The requests one attempt to download an attachment sends: at most
    one, to the address found in the links or to the generic file
    endpoint. *)
Definition download_requests `{Runtime} (self : ZoteroBackup.t)
           (attachment : json) : list request :=
  match download_href attachment with
  | Ok (Some (JStr h)) => [href_request self h]
  | Ok (Some _) => []
  | Ok None =>
      match Py.get attachment "key" JNull with
      | Ok att_key => if Py.truthy att_key then [file_request self att_key]
                      else []
      | Err _ => []
      end
  | Err _ => []
  end.

(** ** The manifest and the snapshots of a backup *)

(** The file that holds the manifest of a backup. *)
Definition manifest_path (self : ZoteroBackup.t) : string :=
  path_join (ZoteroBackup.meta_dir self) "backup_meta.json".

(** The manifest written at the time [now] for [n] items. *)
Definition manifest (now : datetime) (n : nat) : json :=
  JObj [("fetched_at", JStr (isoformat now +:+ "Z"));
        ("item_count", JNum (Z.of_nat n))].

(** The first line a backup prints. *)
Definition start_notice : event := EvPrint [PLit "Starting Zotero backup"].

(* ===================================================================== *)
(** * Concrete worlds *)
(* ===================================================================== *)

(** [str] of a list or a dict is not needed where every interpolated value
    is a string or a scalar; closed examples run with this instance. *)
Definition scalar_runtime : Runtime :=
  {| str_container := fun _ => "<container>" |}.

(** A stub that answers the n-th request with the n-th batch of a script,
    and with an empty batch when the script is used up. *)
Definition scripted (batches : list (list json))
  : list event -> request -> response :=
  fun hist _ => ok_response (JArr (nth (length (requests_of hist)) batches [])).

(** A server that gives the same answer to every request. *)
Definition always (resp : response) : list event -> request -> response :=
  fun _ _ => resp.

(** The clock of the examples. *)
Definition noon : datetime :=
  {| year := 2024; month := 5; day := 6;
     hour := 12; minute := 0; second := 0; microsecond := 0 |}.

(** A world with empty disk and console, where [git] always succeeds. *)
Definition fresh_world (server : list event -> request -> response)
           (environ : gmap string string) : world :=
  {| w_fs := ∅; w_dirs := ∅; w_trace := []; w_environ := environ;
     w_server := server;
     w_subprocess := fun _ _ => Exited 0;
     w_clock := fun _ => noon |}.

(** An environment with both credentials, and one without library id. *)
Definition credentials : gmap string string :=
  <["ZOTERO_API_KEY" := "secret"]> (<["ZOTERO_LIBRARY_ID" := "42"]> ∅).

Definition only_api_key : gmap string string :=
  <["ZOTERO_API_KEY" := "secret"]> ∅.

(** A library and a run with the default settings of the command line. *)
Definition sample_backup : ZoteroBackup.t :=
  {| ZoteroBackup.api_key := "secret";
     ZoteroBackup.library_id := "42";
     ZoteroBackup.library_type := "users";
     ZoteroBackup.base_url := "https://api.zotero.org/users/42";
     ZoteroBackup.output_dir := "out";
     ZoteroBackup.include_attachments := true;
     ZoteroBackup.commit_repo := true;
     ZoteroBackup.sleep_between_requests := 1 # 2;
     ZoteroBackup.per_page := 100;
     ZoteroBackup.items_dir := "out/items";
     ZoteroBackup.attachments_dir := "out/attachments";
     ZoteroBackup.annotations_dir := "out/annotations";
     ZoteroBackup.meta_dir := "out/meta" |}.

(** The client of the Markdown export for the same library. *)
Definition sample_client : ZoteroClient.t :=
  {| ZoteroClient.api_key := Some "secret";
     ZoteroClient.library_id := Some "42";
     ZoteroClient.library_type := Some "users";
     ZoteroClient.base_url := "https://api.zotero.org/users/42" |}.

(** The command line [-o out]. *)
Definition default_args : backup_args :=
  {| arg_output_dir := "out"; arg_include_attachments := true;
     arg_commit_repo := true; arg_sleep := 1 # 2; arg_per_page := 100 |}.

(** [n] distinct items, numbered from [from]. *)
Fixpoint numbered_items (from : Z) (n : nat) : list json :=
  match n with
  | O => []
  | S n' => JObj [("key", JNum from)] :: numbered_items (from + 1) n'
  end.

(** Three batches of 100, 100 and 37 items. *)
Definition sample_script : list (list json) :=
  [numbered_items 0 100; numbered_items 100 100; numbered_items 200 37].

(** The creator Jane Q. Doe in a given role. *)
Definition jane_q_doe (role : string) : json :=
  JObj [("creatorType", JStr role); ("firstName", JStr "Jane Q.");
        ("lastName", JStr "Doe")].

(** An item with an empty title, one with a title, and the annotations of
    one attachment. *)
Definition untitled_item : json :=
  JObj [("key", JStr "ABCD2345");
        ("data", JObj [("title", JStr ""); ("itemType", JStr "book")])].

Definition titled_item : json :=
  JObj [("key", JStr "ABCD2345");
        ("data", JObj [("title", JStr "What is a proof?");
                       ("itemType", JStr "book")])].

Definition one_annotated_attachment : annotation_dict :=
  [(JStr "PDF00001",
    (JObj [("key", JStr "PDF00001"); ("data", JObj [("title", JStr "Full text")])],
     [JObj [("data", JObj [("annotationText", JStr "see here")])]]))].

(** A linked attachment as the service describes it: no enclosure, but a
    [self] link to its own record. *)
Definition linked_attachment : json :=
  JObj [("key", JStr "ATT00001");
        ("links",
         JObj [("self",
                JObj [("href",
                       JStr "https://api.zotero.org/users/42/items/ATT00001");
                      ("type", JStr "application/json")])]);
        ("data", JObj [("itemType", JStr "attachment");
                       ("title", JStr "Publisher page")])].

(** An attachment whose links carry no address at all. *)
Definition bare_attachment : json :=
  JObj [("key", JStr "ATT00002");
        ("links", JObj [("up", JObj [("type", JStr "application/json")])]);
        ("data", JObj [("itemType", JStr "attachment");
                       ("title", JStr "scan.pdf")])].

(** A server without file endpoint: 404 for [/file], the record itself for
    every other address. *)
Definition no_file_endpoint : list event -> request -> response :=
  fun _ req =>
    if PyStr.endswith "/file" (url req) then status_response 404
    else {| status_code := 200; body := JNull; content := ["{}"] |}.

(** An item with one attachment and a note; the attachment has no
    annotations. *)
Definition plain_item : json :=
  JObj [("key", JStr "ITEM0001");
        ("data", JObj [("title", JStr "Unread paper");
                       ("itemType", JStr "journalArticle")])].


Definition plain_note : json :=
  JObj [("key", JStr "NOTE0001"); ("data", JObj [("itemType", JStr "note")])].


(** A second run over an unchanged library: there is a repository and
    [git commit] has nothing to commit. *)
Definition nothing_to_commit : list event -> list string -> proc_outcome :=
  fun _ argv =>
    if String.eqb (nth 3 argv "") "commit" then Exited 1 else Exited 0.

Definition unchanged_backup_world : world :=
  {| w_fs := <["out/.gitignore" := Text gitignore_text]> ∅;
     w_dirs := ∅; w_trace := []; w_environ := credentials;
     w_server := scripted [];
     w_subprocess := nothing_to_commit;
     w_clock := fun _ => noon |}.




(** A machine without [git]: no command can be started. *)
Definition no_git : list event -> list string -> proc_outcome :=
  fun _ _ => NotStarted.

Definition world_without_git : world :=
  {| w_fs := ∅; w_dirs := ∅; w_trace := []; w_environ := credentials;
     w_server := scripted [];
     w_subprocess := no_git;
     w_clock := fun _ => noon |}.

(** A library with one item, whose attachment carries two annotations, the
    second one with a comment. *)
Definition read_item : json :=
  JObj [("key", JStr "ITEM0002");
        ("data", JObj [("title", JStr "Read paper");
                       ("itemType", JStr "journalArticle")])].

Definition read_attachment : json :=
  JObj [("key", JStr "ATT00004");
        ("data", JObj [("itemType", JStr "attachment");
                       ("title", JStr "paper.pdf")])].

Definition first_annotation : json :=
  JObj [("key", JStr "ANN00001");
        ("data", JObj [("itemType", JStr "annotation");
                       ("annotationText", JStr "a key passage")])].

Definition second_annotation : json :=
  JObj [("key", JStr "ANN00002");
        ("data", JObj [("itemType", JStr "annotation");
                       ("annotationText", JStr "another one");
                       ("annotationComment", JStr "check this")])].

Definition annotated_library : list event -> request -> response :=
  fun _ req =>
    if PyStr.endswith "/items/top" (url req)
    then ok_response (JArr [read_item])
    else if PyStr.endswith "/items/ITEM0002/children" (url req)
    then ok_response (JArr [read_attachment; plain_note])
    else if PyStr.endswith "/items/ATT00004/children" (url req)
    then ok_response (JArr [first_annotation; second_annotation])
    else ok_response (JArr []).

(** A server that answers every request with the same full page. *)
Definition endless_library : list event -> request -> response :=
  always (ok_response (JArr (numbered_items 0 100))).

(** A server that limits the rate of every request. *)
Definition rate_limiting : list event -> request -> response :=
  always (status_response 429).

(** An attachment whose links name a file and an enclosure, in that
    order. *)
Definition enclosed_attachment : json :=
  JObj [("key", JStr "ATT00005");
        ("links",
         JObj [("file", JObj [("href", JStr "https://files.example/a.pdf")]);
               ("enclosure", JObj [("href", JStr "/users/42/items/ATT00005/file/view")])]);
        ("data", JObj [("itemType", JStr "attachment");
                       ("filename", JStr "a.pdf")])].

(** A server that holds one document behind every address. *)
Definition file_server : list event -> request -> response :=
  always {| status_code := 200; body := JNull;
            content := ["%PDF"; ""; "-1.7"] |}.

(** A library of two items without children. *)
Definition two_items : list json :=
  [plain_item; read_item].

Definition small_library : list event -> request -> response :=
  fun _ req =>
    if PyStr.endswith "/items/top" (url req)
    then ok_response (JArr two_items)
    else ok_response (JArr []).

(* ===================================================================== *)
(** * Properties *)
(* ===================================================================== *)

(** ** Running monadic code *)

Lemma bind_raise {A B} (m : M A) (k : A -> M B) w e w' :
  m w = (Raise e, w') -> bind m k w = (Raise e, w').
Proof. intros E. unfold bind. now rewrite E. Qed.

Lemma requests_of_app t u :
  requests_of (t ++ u) = requests_of t ++ requests_of u.
Proof.
  induction t as [|e t IH]; simpl; [reflexivity|].
  destruct e; simpl; now rewrite ?IH.
Qed.

(** ** [_get] *)

Lemma _get_passes self path params stream w :
  let req := get_request self path params stream in
  is_error_status (status_code (answer w req)) = false ->
  ZoteroBackup._get self path params stream w
  = (Ret (answer w req), record_event (EvGet req (answer w req)) w).
Proof.
  intros req Hs. unfold ZoteroBackup._get, bind, session_get.
  fold (get_request self path params stream). fold req. fold (answer w req).
  assert ((status_code (answer w req) =? 429) = false) as ->.
  { apply Z.eqb_neq. intros E. rewrite E in Hs. discriminate. }
  unfold raise_for_status. now rewrite Hs.
Qed.

Lemma _get_rate_limited self path params stream w :
  let req := get_request self path params stream in
  status_code (answer w req) = 429 ->
  ZoteroBackup._get self path params stream w
  = (Raise (RuntimeError ZoteroBackup.rate_limited_message),
     record_event (EvGet req (answer w req)) w).
Proof.
  intros req Hs. unfold ZoteroBackup._get, bind, session_get.
  fold (get_request self path params stream). fold req. fold (answer w req).
  now rewrite Hs.
Qed.

Lemma _get_http_error self path params stream w :
  let req := get_request self path params stream in
  is_error_status (status_code (answer w req)) = true ->
  status_code (answer w req) <> 429 ->
  ZoteroBackup._get self path params stream w
  = (Raise (HTTPError (status_code (answer w req))),
     record_event (EvGet req (answer w req)) w).
Proof.
  intros req Hs Hn. unfold ZoteroBackup._get, bind, session_get.
  fold (get_request self path params stream). fold req. fold (answer w req).
  apply Z.eqb_neq in Hn. rewrite Hn.
  unfold raise_for_status. now rewrite Hs.
Qed.

(** ** Traces *)

Lemma record_event_events e w : record_event e w = record_events [e] w.
Proof. reflexivity. Qed.

Lemma record_events_nil w : record_events [] w = w.
Proof. destruct w. unfold record_events. simpl. now rewrite app_nil_r. Qed.

Lemma record_events_app a b w :
  record_events b (record_events a w) = record_events (a ++ b) w.
Proof. unfold record_events. simpl. now rewrite app_assoc. Qed.

Lemma drop_head {A} (d : A) (k : nat) (l : list A) x rest :
  drop k l = x :: rest -> nth k l d = x /\ drop (S k) l = rest.
Proof.
  revert l. induction k as [|k IH]; intros [|y l]; simpl; try discriminate.
  - intros [= -> ->]. split; [reflexivity | now rewrite drop_0].
  - intros E. apply IH in E. exact E.
Qed.

Lemma drop_end {A} (d : A) (k : nat) (l : list A) :
  drop k l = [] -> nth k l d = d.
Proof.
  revert l. induction k as [|k IH]; intros [|y l]; simpl;
    try discriminate; auto.
Qed.

(** ** [list_all_items] against a scripted server *)

Section Pagination.

Variable self : ZoteroBackup.t.
Variable script : list (list json).
Hypothesis sleep_ok : (0 <= ZoteroBackup.sleep_between_requests self)%Q.

Let per_page := ZoteroBackup.per_page self.

Lemma scripted_answer w start :
  w_server w = scripted script ->
  answer w (page_request self start)
  = ok_response
      (JArr (nth (length (requests_of (w_trace w))) script [])).
Proof. intros E. unfold answer. now rewrite E. Qed.

Lemma sleep_returns w :
  sleep (ZoteroBackup.sleep_between_requests self) w
  = (Ret tt,
     record_events [EvSleep (ZoteroBackup.sleep_between_requests self)] w).
Proof.
  unfold sleep, emit. apply Qle_bool_iff in sleep_ok.
  now rewrite sleep_ok.
Qed.

Lemma page_get_scripted w start :
  w_server w = scripted script ->
  let resp :=
    ok_response (JArr (nth (length (requests_of (w_trace w))) script [])) in
  ZoteroBackup._get self "/items/top"
    [("start", JNum start); ("limit", JNum per_page)] false w
  = (Ret resp, record_events [EvGet (page_request self start) resp] w).
Proof.
  intros Hsrv resp.
  pose proof (_get_passes self "/items/top"
                [("start", JNum start); ("limit", JNum per_page)] false w)
    as Hget.
  change (get_request self "/items/top"
            [("start", JNum start); ("limit", JNum per_page)] false)
    with (page_request self start) in Hget.
  cbv zeta in Hget. rewrite (scripted_answer w start Hsrv) in Hget.
  exact (Hget eq_refl).
Qed.

Lemma list_all_items_loop_scripted :
  forall batches items start w fuel,
    w_server w = scripted script ->
    drop (length (requests_of (w_trace w))) script = batches ->
    (length batches < fuel)%nat ->
    ZoteroBackup.list_all_items_loop fuel self items start w
    = (Ret (items ++ concat (pages_read per_page batches)),
       record_events (page_events self start (pages_read per_page batches))
                     w).
Proof.
  induction batches as [|b rest IH]; intros items start w fuel Hsrv Hdrop Hfuel;
    (destruct fuel as [|fuel]; [simpl in Hfuel; lia|]).
  - (* the script is used up: one more request, answered by an empty batch *)
    cbn [ZoteroBackup.list_all_items_loop]. unfold bind at 1.
    fold per_page. rewrite (page_get_scripted w start Hsrv).
    rewrite (drop_end [] _ _ Hdrop). simpl.
    unfold ret. now rewrite app_nil_r.
  - apply (drop_head []) in Hdrop as [Hnth Hrest].
    cbn [ZoteroBackup.list_all_items_loop]. unfold bind at 1.
    fold per_page. rewrite (page_get_scripted w start Hsrv), Hnth.
    cbn [body ok_response].
    destruct b as [|x b'].
    + simpl. unfold ret. now rewrite app_nil_r.
    + set (b := x :: b') in *.
      assert (Py.truthy (JArr b) = true) as -> by reflexivity.
      cbn [negb]. unfold bind at 1. cbn [lift Py.iter ret].
      unfold bind at 1. cbn [lift Py.len ret].
      unfold bind at 1. unfold print at 1, emit at 1.
      unfold bind at 1. rewrite sleep_returns.
      rewrite !record_event_events, !record_events_app.
      fold (batch_size b).
      cbn [pages_read]. unfold last_batch. fold b.
      change (match b with [] => true | _ :: _ => batch_size b <? per_page end)
        with (batch_size b <? per_page).
      destruct (batch_size b <? per_page) eqn:Hshort.
      * unfold ret. cbn [concat page_events]. rewrite !app_nil_r.
        reflexivity.
      * rewrite (IH (items ++ b) (start + batch_size b)).
        -- cbn [concat page_events]. rewrite record_events_app.
           now rewrite <- !app_assoc.
        -- exact Hsrv.
        -- cbn [w_trace record_events]. rewrite requests_of_app.
           rewrite length_app. simpl.
           replace (length (requests_of (w_trace w)) + 1)%nat
             with (S (length (requests_of (w_trace w)))) by lia.
           exact Hrest.
        -- simpl in Hfuel. lia.
Qed.

End Pagination.

Lemma last_batch_spec per_page b :
  last_batch per_page b = true <-> b = [] \/ batch_size b < per_page.
Proof.
  unfold last_batch. destruct b as [|x b].
  - split; auto.
  - rewrite Z.ltb_lt. split; [auto | intros [E|E]; [discriminate | exact E]].
Qed.

Lemma pages_read_stops per_page script :
  stops_at_first_last_batch per_page script (pages_read per_page script).
Proof.
  induction script as [|b rest [[unread Hu] (before & final & Hp & Hb & Hf)]].
  - split; [exists []; reflexivity|]. exists [], []. repeat split; constructor.
  - simpl. destruct (last_batch per_page b) eqn:Hl.
    + split; [exists (rest ++ [[]]); reflexivity|].
      exists [], b. repeat split; [constructor | exact Hl].
    + split.
      * exists unread. simpl. now rewrite Hu.
      * exists (b :: before), final. rewrite Hp. repeat split.
        -- now constructor.
        -- exact Hf.
Qed.

(** C1. Against any scripted sequence of page responses [list_all_items]
    requests successive pages, the first at offset 0 and each next one at
    the previous offset advanced by the size of the batch received, stops at
    the first batch that is empty or smaller than [per_page], and returns the
    batches read, in order.  For batches of sizes 100, 100 and 37 and
    [per_page = 100] these are three requests, at offsets 0, 100 and 200,
    and the 237 items of the three batches. *)
Theorem list_all_items_paginates
        (self : ZoteroBackup.t) (script : list (list json)) (w : world)
        (fuel : nat) :
  (0 <= ZoteroBackup.sleep_between_requests self)%Q ->
  w_server w = scripted script ->
  w_trace w = [] ->
  (length script < fuel)%nat ->
  let per_page := ZoteroBackup.per_page self in
  let pages := pages_read per_page script in
  exists w',
    ZoteroBackup.list_all_items fuel self w = (Ret (concat pages), w')
    /\ requests_of (w_trace w') = map (page_request self) (offsets 0 pages)
    /\ stops_at_first_last_batch per_page script pages
    /\ (forall b1 b2 b3 unread,
          per_page = 100 ->
          script = b1 :: b2 :: b3 :: unread ->
          length b1 = 100%nat -> length b2 = 100%nat -> length b3 = 37%nat ->
          concat pages = b1 ++ b2 ++ b3
          /\ length (concat pages) = 237%nat
          /\ requests_of (w_trace w')
             = [page_request self 0; page_request self 100;
                page_request self 200]).
Proof.
  intros Hsleep Hsrv Htrace Hfuel per_page pages.
  pose proof (list_all_items_loop_scripted self script Hsleep script [] 0 w fuel
                Hsrv) as Hrun.
  rewrite Htrace in Hrun. specialize (Hrun eq_refl Hfuel).
  fold per_page in Hrun. fold pages in Hrun. simpl app in Hrun.
  assert (Hreq : forall start ps,
             requests_of (page_events self start ps)
             = map (page_request self) (offsets start ps)).
  { intros start ps. revert start.
    induction ps as [|b ps IH]; intros start; [reflexivity|].
    simpl. rewrite requests_of_app, IH. now destruct b. }
  eexists. split; [exact Hrun|]. cbn [w_trace record_events].
  rewrite Htrace. simpl app. rewrite Hreq.
  split; [reflexivity|]. split; [apply pages_read_stops|].
  intros b1 b2 b3 unread Hpp -> H1 H2 H3.
  assert (Hpages : pages = [b1; b2; b3]).
  { unfold pages. simpl. rewrite Hpp.
    assert (last_batch 100 b1 = false) as ->.
    { apply not_true_is_false. rewrite last_batch_spec. unfold batch_size.
      intros [->|?]; [discriminate | lia]. }
    assert (last_batch 100 b2 = false) as ->.
    { apply not_true_is_false. rewrite last_batch_spec. unfold batch_size.
      intros [->|?]; [discriminate | lia]. }
    assert (last_batch 100 b3 = true) as ->.
    { rewrite last_batch_spec. unfold batch_size. right. lia. }
    reflexivity. }
  rewrite Hpages. simpl concat. rewrite app_nil_r.
  split; [reflexivity|]. split.
  - rewrite !length_app. lia.
  - simpl. unfold batch_size. rewrite H1, H2. reflexivity.
Qed.

Lemma list_all_items_paginates_witness :
  exists w',
    ZoteroBackup.list_all_items 4 sample_backup
      (fresh_world (scripted sample_script) credentials)
    = (Ret (numbered_items 0 237), w')
    /\ requests_of (w_trace w')
       = [page_request sample_backup 0; page_request sample_backup 100;
          page_request sample_backup 200].
Proof.
  destruct (list_all_items_paginates sample_backup sample_script
              (fresh_world (scripted sample_script) credentials) 4)
    as (w' & Hrun & _ & _ & Hthree).
  - unfold Qle. simpl. lia.
  - reflexivity.
  - reflexivity.
  - simpl. lia.
  - exists w'. destruct (Hthree _ _ _ [] eq_refl eq_refl eq_refl eq_refl eq_refl)
      as (Hitems & _ & Hreqs).
    split; [|exact Hreqs]. rewrite Hrun, Hitems. reflexivity.
Defined.

(** ** Author tags *)

Lemma eq_str_true v s : Py.eq_str v s = true <-> v = JStr s.
Proof.
  destruct v; simpl; try (split; [discriminate | intros [=]]).
  rewrite String.eqb_eq. split; [now intros -> | now intros [= ->]].
Qed.

Lemma author_tags_of_app before after tb ta :
  author_tags_of before = Ok tb ->
  author_tags_of after = Ok ta ->
  author_tags_of (before ++ after) = Ok (tb ++ ta).
Proof.
  revert tb. induction before as [|c before IH]; simpl; intros tb Hb Ha.
  - now injection Hb as <-.
  - destruct (creator_tags c) as [tc|]; simpl in *; [|discriminate].
    destruct (author_tags_of before) as [tb'|]; simpl in *; [|discriminate].
    injection Hb as <-. rewrite (IH tb' eq_refl Ha). simpl.
    now rewrite app_assoc.
Qed.

(** C2, as the claim states it, fails: the author Jane Q. Doe gets the tag
    [#jane-q-doe], in which the initial of the first name is kept. *)
Lemma jane_q_doe_tag_is_not_jane_doe :
  creator_tags (jane_q_doe "author") = Ok ["#jane-q-doe"]
  /\ creator_tags (jane_q_doe "author") <> Ok ["#jane-doe"].
Proof. split; [reflexivity | discriminate]. Qed.

(** C2, amended. A creator of type author or editor with first name
    "Jane Q." and last name "Doe" contributes exactly the tag [#jane-q-doe]:
    the lower-cased names joined by a hyphen, every run of characters other
    than a-z and 0-9 turned into one hyphen.  A creator of any other type
    contributes no tag, whatever its names.  The tags of an item are the
    contributions of its creators, in order. *)
Theorem creator_tag_slug (fields : list (string * json)) (ty : json) :
  Py.get (JObj fields) "creatorType" JNull = Ok ty ->
  (ty = JStr "author" \/ ty = JStr "editor" ->
   Py.assoc "firstName" fields = Some (JStr "Jane Q.") ->
   Py.assoc "lastName" fields = Some (JStr "Doe") ->
   creator_tags (JObj fields) = Ok ["#jane-q-doe"])
  /\ (ty <> JStr "author" -> ty <> JStr "editor" ->
      creator_tags (JObj fields) = Ok [])
  /\ (forall before after tb tc ta,
        author_tags_of before = Ok tb ->
        creator_tags (JObj fields) = Ok tc ->
        author_tags_of after = Ok ta ->
        author_tags_of (before ++ JObj fields :: after)
        = Ok (tb ++ tc ++ ta)).
Proof.
  intros Hty. simpl in Hty. injection Hty as Hty.
  split; [|split].
  - intros Hrole Hfirst Hlast. unfold creator_tags. simpl Py.get.
    rewrite Hty, Hfirst, Hlast. cbn [rbind].
    destruct Hrole as [-> | ->]; reflexivity.
  - intros Ha He. unfold creator_tags. simpl Py.get. rewrite Hty.
    cbn [rbind].
    destruct (Py.eq_str ty "author") eqn:E1;
      [apply eq_str_true in E1; contradiction|].
    destruct (Py.eq_str ty "editor") eqn:E2;
      [apply eq_str_true in E2; contradiction|].
    reflexivity.
  - intros before after tb tc ta Hb Hc Ha.
    apply author_tags_of_app; [exact Hb|]. simpl. now rewrite Hc, Ha.
Qed.

Lemma creator_tag_slug_witness :
  creator_tags (jane_q_doe "editor") = Ok ["#jane-q-doe"]
  /\ creator_tags (jane_q_doe "contributor") = Ok [].
Proof.
  split.
  - apply (creator_tag_slug _ (JStr "editor")); [reflexivity | | | ];
      [right; reflexivity | reflexivity | reflexivity].
  - apply (creator_tag_slug _ (JStr "contributor")); [reflexivity | | ];
      discriminate.
Defined.

(** ** The name of the Markdown file *)

Section Filename.
Context `{Runtime}.

Lemma safe_title_of_chars title :
  safe_title_of title = PyStr.take 100 (string_map sanitize_char title).
Proof.
  unfold safe_title_of. f_equal.
  induction title as [|c r IH]; [reflexivity|].
  cbn [PyStr.sub_each string_map]. unfold sanitize_char at 1.
  destruct (PyStr.mem c illegal_filename_chars); rewrite IH; reflexivity.
Qed.

Ltac rstep H :=
  match type of H with
  | context [rbind ?r _] =>
      let E := fresh "E" in
      destruct r eqn:E; cbn [rbind] in H; [|discriminate H]
  end.

Lemma markdown_of_item_filename item entries fn text :
  ExportAnnotations.markdown_of_item item entries = Ok (fn, text) ->
  exists data title key,
    Py.getitem item "data" = Ok data
    /\ Py.get data "title" (JStr "Untitled") = Ok (JStr title)
    /\ Py.getitem item "key" = Ok key
    /\ fn = ExportAnnotations.filename_of (safe_title_of title) key.
Proof.
  intros Hm. unfold ExportAnnotations.markdown_of_item in Hm.
  rstep Hm. rename a into data. rstep Hm. rename a into title.
  do 7 rstep Hm.
  destruct (Py.re_subject title) as [t|] eqn:Et; cbn [rbind] in Hm;
    [|discriminate Hm].
  destruct title; try discriminate Et. injection Et as ->.
  destruct (Py.getitem item "key") as [key|] eqn:Ek; cbn [rbind] in Hm;
    [|discriminate Hm].
  do 2 rstep Hm. injection Hm as <- _.
  exists data, t, key. repeat split; assumption.
Qed.

End Filename.

Lemma new_events_record evs w w0 :
  w_trace w0 = w_trace w -> new_events w (record_events evs w0) = evs.
Proof.
  intros E. unfold new_events. simpl. rewrite E. now rewrite drop_app_length.
Qed.

Section MarkdownFile.
Context `{Runtime}.

Lemma write_markdown_for_item_returns item entries output_dir w w' :
  ExportAnnotations.write_markdown_for_item item entries output_dir w
  = (Ret tt, w') ->
  exists fn text,
    ExportAnnotations.markdown_of_item item entries = Ok (fn, text)
    /\ w' = record_events
              [EvWrite (path_join output_dir fn) (Text text);
               EvPrint [PLit "✅ Wrote ";
                        PStr (PyStr.basename (path_join output_dir fn))]]
              (store_file (path_join output_dir fn) (Text text) w).
Proof.
  unfold ExportAnnotations.write_markdown_for_item, bind.
  destruct (ExportAnnotations.markdown_of_item item entries)
    as [[fn text]|e]; simpl; [|discriminate].
  intros [= <-]. exists fn, text. split; [reflexivity|].
  now rewrite !record_event_events, record_events_app.
Qed.

(** C7, amended. The file written for an item is named after its title
    and key alone: the title with each character that is illegal in a file
    name replaced by an underscore and cut to 100 characters, or
    [untitled] when that is empty, then an underscore, the key and the
    extension [.md].  Two runs over items with the same title and key write
    a file of the same name. *)
Theorem markdown_filename_of_title_and_key
        (item : json) (entries : annotation_dict) (output_dir : string)
        (w w' : world) :
  ExportAnnotations.write_markdown_for_item item entries output_dir w
  = (Ret tt, w') ->
  exists data title key,
    Py.getitem item "data" = Ok data
    /\ Py.get data "title" (JStr "Untitled") = Ok (JStr title)
    /\ Py.getitem item "key" = Ok key
    /\ let safe_title := PyStr.take 100 (string_map sanitize_char title) in
       let filename :=
         (if PyStr.is_empty safe_title then "untitled" else safe_title)
         +:+ "_" +:+ py_str key +:+ ".md" in
       written_paths (new_events w w') = [path_join output_dir filename]
       /\ is_Some (w_fs w' !! path_join output_dir filename)
       /\ forall item2 entries2 data2 w2 w2',
           ExportAnnotations.write_markdown_for_item
             item2 entries2 output_dir w2 = (Ret tt, w2') ->
           Py.getitem item2 "data" = Ok data2 ->
           Py.get data2 "title" (JStr "Untitled") = Ok (JStr title) ->
           Py.getitem item2 "key" = Ok key ->
           written_paths (new_events w2 w2')
           = written_paths (new_events w w').
Proof.
  intros Hrun.
  assert (Hshape : forall it en d t k v v',
             ExportAnnotations.write_markdown_for_item it en output_dir v
             = (Ret tt, v') ->
             Py.getitem it "data" = Ok d ->
             Py.get d "title" (JStr "Untitled") = Ok (JStr t) ->
             Py.getitem it "key" = Ok k ->
             written_paths (new_events v v')
             = [path_join output_dir
                  (ExportAnnotations.filename_of (safe_title_of t) k)]
             /\ is_Some
                  (w_fs v' !! path_join output_dir
                     (ExportAnnotations.filename_of (safe_title_of t) k))).
  { intros it en d t k v v' Hr Hd Ht Hk.
    apply write_markdown_for_item_returns in Hr as (fn & text & Hm & ->).
    apply markdown_of_item_filename in Hm
      as (d' & t' & k' & Hd' & Ht' & Hk' & ->).
    rewrite Hd in Hd'. injection Hd' as <-.
    rewrite Ht in Ht'. injection Ht' as <-.
    rewrite Hk in Hk'. injection Hk' as <-.
    rewrite new_events_record by reflexivity. split; [reflexivity|].
    cbn [w_fs record_events store_file]. rewrite lookup_insert_eq. eauto. }
  pose proof Hrun as Hrun'.
  apply write_markdown_for_item_returns in Hrun' as (fn & text & Hm & _).
  apply markdown_of_item_filename in Hm as (data & title & key & Hd & Ht & Hk & _).
  exists data, title, key. repeat (split; [assumption|]).
  cbv zeta. rewrite <- safe_title_of_chars.
  destruct (Hshape _ _ _ _ _ _ _ Hrun Hd Ht Hk) as [Hp Hf].
  split; [exact Hp|]. split; [exact Hf|].
  intros item2 entries2 data2 w2 w2' Hrun2 Hd2 Ht2 Hk2.
  destruct (Hshape _ _ _ _ _ _ _ Hrun2 Hd2 Ht2 Hk2) as [Hp2 _].
  now rewrite Hp, Hp2.
Qed.

End MarkdownFile.

(** C7, as the claim states it, fails for an item whose title is empty: the
    file is called [untitled_ABCD2345.md], which is not the sanitized title
    followed by the key and [.md], with or without a separator. *)
Lemma untitled_item_filename :
  let run :=
    @ExportAnnotations.write_markdown_for_item scalar_runtime
      untitled_item one_annotated_attachment "out"
      (fresh_world (scripted []) credentials) in
  fst run = Ret tt
  /\ written_paths (w_trace (snd run)) = ["out/untitled_ABCD2345.md"]
  /\ "untitled_ABCD2345.md"
     <> @claimed_filename scalar_runtime "" "" (JStr "ABCD2345")
  /\ "untitled_ABCD2345.md"
     <> @claimed_filename scalar_runtime "_" "" (JStr "ABCD2345").
Proof. repeat split; discriminate. Qed.

Lemma markdown_filename_of_title_and_key_witness :
  written_paths
    (w_trace
       (snd (@ExportAnnotations.write_markdown_for_item scalar_runtime
               titled_item one_annotated_attachment "out"
               (fresh_world (scripted []) credentials))))
  = ["out/What is a proof__ABCD2345.md"].
Proof.
  destruct (@markdown_filename_of_title_and_key scalar_runtime
              titled_item one_annotated_attachment "out"
              (fresh_world (scripted []) credentials)
              (snd (@ExportAnnotations.write_markdown_for_item scalar_runtime
                      titled_item one_annotated_attachment "out"
                      (fresh_world (scripted []) credentials)))
              eq_refl)
    as (data & title & key & Hd & Ht & Hk & Hp & _).
  injection Hd as <-. injection Ht as <-. injection Hk as <-.
  exact Hp.
Defined.

(** ** HTTP failures *)

Lemma _get_fails self path params stream w :
  let req := get_request self path params stream in
  is_error_status (status_code (answer w req)) = true ->
  ZoteroBackup._get self path params stream w
  = (Raise (get_failure (status_code (answer w req))),
     record_events [EvGet req (answer w req)] w).
Proof.
  intros req Hs. unfold get_failure.
  destruct (status_code (answer w req) =? 429) eqn:E.
  - apply Z.eqb_eq in E. now apply _get_rate_limited.
  - apply Z.eqb_neq in E. now apply _get_http_error.
Qed.

(** C6, as the claim states it, fails for the requests of [ZoteroClient]:
    [query_items] raises the same kind of error, [requests.HTTPError], when
    the server limits the rate (429) and when it fails otherwise (500). *)
Lemma query_items_does_not_tell_rate_limiting :
  fst (ZoteroClient.query_items sample_client true 100
         (fresh_world (always (status_response 429)) credentials))
  = Raise (HTTPError 429)
  /\ fst (ZoteroClient.query_items sample_client true 100
            (fresh_world (always (status_response 500)) credentials))
     = Raise (HTTPError 500)
  /\ class_of (HTTPError 429) = class_of (HTTPError 500).
Proof. repeat split. Qed.

Section HttpFailures.
Context `{Runtime}.

(** C6, amended. A request whose answer has an error status (400..599)
    fails the call after that one request, without a retry, and the error
    reaches the caller.  Requests made through [ZoteroBackup._get] fail
    with a [RuntimeError] for status 429 and with an [HTTPError] for any
    other error status, two different kinds; requests made by
    [ZoteroClient] fail with an [HTTPError] for every error status, 429
    included. *)
Theorem error_status_fails_the_call (w : world) (s : Z) :
  is_error_status s = true ->
  (forall self path params stream,
      status_code (answer w (get_request self path params stream)) = s ->
      ZoteroBackup._get self path params stream w
      = (Raise (get_failure s),
         record_events
           [EvGet (get_request self path params stream)
                  (answer w (get_request self path params stream))] w))
  /\ (forall self item_key,
        let req := get_request self ("/items/" +:+ py_str item_key
                                     +:+ "/children") [] false in
        status_code (answer w req) = s ->
        ZoteroBackup.get_item_children self item_key w
        = (Raise (get_failure s),
           record_events [EvGet req (answer w req)] w))
  /\ (forall self fuel,
        let req := page_request self 0 in
        status_code (answer w req) = s ->
        ZoteroBackup.list_all_items (S fuel) self w
        = (Raise (get_failure s),
           record_events [EvGet req (answer w req)] w))
  /\ (forall client top limit,
        let req := items_request client top limit in
        status_code (answer w req) = s ->
        ZoteroClient.query_items client top limit w
        = (Raise (HTTPError s), record_events [EvGet req (answer w req)] w))
  /\ (forall client item_key kind,
        let req := children_request client item_key in
        status_code (answer w req) = s ->
        ZoteroClient.query_children client item_key kind w
        = (Raise (HTTPError s), record_events [EvGet req (answer w req)] w))
  /\ (s = 429 -> class_of (get_failure s) = CRuntimeError)
  /\ (s <> 429 -> class_of (get_failure s) = CHTTPError)
  /\ CRuntimeError <> CHTTPError.
Proof.
  intros Hs. repeat split.
  - intros self path params stream E. rewrite <- E. apply _get_fails.
    now rewrite E.
  - intros self item_key req E.
    unfold ZoteroBackup.get_item_children. apply bind_raise.
    rewrite <- E. apply _get_fails. fold req. now rewrite E.
  - intros self fuel req E.
    unfold ZoteroBackup.list_all_items. simpl. apply bind_raise.
    rewrite <- E. apply (_get_fails self "/items/top"
                           [("start", JNum 0);
                            ("limit", JNum (ZoteroBackup.per_page self))]).
    change (is_error_status (status_code (answer w req)) = true).
    now rewrite E.
  - intros client top limit req E.
    unfold ZoteroClient.query_items, bind, session_get.
    change {| url := _; headers := _; params := _; stream := _ |}
      with req.
    fold (answer w req). unfold raise_for_status. rewrite E, Hs.
    reflexivity.
  - intros client item_key kind req E.
    unfold ZoteroClient.query_children, bind, session_get.
    fold (children_request client item_key). fold req.
    fold (answer w req). unfold raise_for_status. rewrite E, Hs.
    reflexivity.
  - intros ->. reflexivity.
  - intros Hn. unfold get_failure. apply Z.eqb_neq in Hn. now rewrite Hn.
  - discriminate.
Qed.

End HttpFailures.

Lemma error_status_fails_the_call_witness :
  fst (ZoteroBackup._get sample_backup "/items/top" [] false
         (fresh_world (always (status_response 429)) credentials))
  = Raise (RuntimeError ZoteroBackup.rate_limited_message)
  /\ fst (ZoteroBackup._get sample_backup "/items/top" [] false
            (fresh_world (always (status_response 404)) credentials))
     = Raise (HTTPError 404).
Proof.
  split.
  - destruct (@error_status_fails_the_call scalar_runtime
                (fresh_world (always (status_response 429)) credentials) 429
                eq_refl) as (Hget & _).
    now rewrite (Hget sample_backup "/items/top" [] false eq_refl).
  - destruct (@error_status_fails_the_call scalar_runtime
                (fresh_world (always (status_response 404)) credentials) 404
                eq_refl) as (Hget & _).
    now rewrite (Hget sample_backup "/items/top" [] false eq_refl).
Defined.

(** ** The command without its credentials *)

Section MissingCredentials.
Context `{Runtime}.

(** C5. When [ZOTERO_API_KEY] or [ZOTERO_LIBRARY_ID] is not set, the
    backup command, once its command line is parsed, prints a notice and
    exits with status 2; it sends no request and touches no file. *)
Theorem backup_exits_without_credentials
        (fuel : nat) (args : backup_args) (w : world) :
  w_environ w !! "ZOTERO_API_KEY" = None
  \/ w_environ w !! "ZOTERO_LIBRARY_ID" = None ->
  exists w',
    backup fuel (Parsed args) w = (Raise (SystemExit 2), w')
    /\ new_events w w' = [EvPrint missing_variables_message]
    /\ requests_of (new_events w w') = []
    /\ w_fs w' = w_fs w
    /\ w_dirs w' = w_dirs w.
Proof.
  intros Hmissing.
  exists (record_events [EvPrint missing_variables_message] w).
  rewrite new_events_record by reflexivity.
  split; [|repeat split].
  unfold backup, bind, env_get.
  destruct Hmissing as [E|E]; rewrite E.
  - reflexivity.
  - cbn [opt_truthy negb]. rewrite orb_true_r. reflexivity.
Qed.

(** Whatever the command line, nothing is requested before the
    credentials are looked at. *)
Lemma backup_rejected_command_line fuel code w :
  backup fuel (ParserExit code) w = (Raise (SystemExit code), w).
Proof. reflexivity. Qed.

(** An empty variable counts as a missing one. *)
Lemma backup_exits_with_empty_credentials fuel args w :
  w_environ w !! "ZOTERO_API_KEY" = Some ""
  \/ w_environ w !! "ZOTERO_LIBRARY_ID" = Some "" ->
  backup fuel (Parsed args) w
  = (Raise (SystemExit 2),
     record_events [EvPrint missing_variables_message] w).
Proof.
  intros Hmissing. unfold backup, bind, env_get.
  destruct Hmissing as [E|E]; rewrite E.
  - reflexivity.
  - cbn [opt_truthy PyStr.is_empty negb]. rewrite orb_true_r. reflexivity.
Qed.

End MissingCredentials.

Lemma backup_exits_without_credentials_witness :
  exists w',
    @backup scalar_runtime 10 (Parsed default_args)
      (fresh_world (scripted sample_script) only_api_key)
    = (Raise (SystemExit 2), w')
    /\ requests_of (w_trace w') = [].
Proof.
  destruct (@backup_exits_without_credentials scalar_runtime 10 default_args
              (fresh_world (scripted sample_script) only_api_key))
    as (w' & Hrun & _ & Hreq & _).
  - right. reflexivity.
  - exists w'. split; [exact Hrun|].
    unfold new_events in Hreq. simpl in Hreq. now rewrite drop_0 in Hreq.
Defined.

(** ** The download of an attachment *)

Section Download.
Context `{Runtime}.

Lemma named_href_none link_fields candidates :
  (forall name v, In name candidates ->
                  Py.assoc name link_fields = Some v -> carries_href v = false) ->
  ZoteroBackup.named_href (JObj link_fields) candidates = Ok None.
Proof.
  induction candidates as [|c rest IH]; intros Hno; [reflexivity|].
  cbn [ZoteroBackup.named_href Py.get rbind].
  assert (Hrest : ZoteroBackup.named_href (JObj link_fields) rest = Ok None).
  { apply IH. intros name v Hin. apply Hno. now right. }
  destruct (Py.assoc c link_fields) as [v|] eqn:Ev; [|exact Hrest].
  specialize (Hno c v (or_introl eq_refl) Ev).
  destruct v; try exact Hrest.
  cbn [Py.is_dict Py.get rbind]. simpl in Hno. rewrite Hno. exact Hrest.
Qed.

Lemma first_entry_href_none link_fields :
  (forall name v rest, link_fields = (name, v) :: rest ->
                       carries_href v = false) ->
  ZoteroBackup.first_entry_href (JObj link_fields) = Ok None.
Proof.
  intros Hno. destruct link_fields as [|[name v] rest]; [reflexivity|].
  specialize (Hno name v rest eq_refl). simpl.
  destruct v; try reflexivity. simpl in *. now rewrite Hno.
Qed.

(** The generic endpoint when it answers with a status other than 200 and
    429: a request, no file, and [False]. *)
Lemma generic_endpoint_not_200 self att_key dest_path w :
  let req := file_request self att_key in
  status_code (answer w req) <> 200 ->
  status_code (answer w req) <> 429 ->
  try_except
    (resp <- ZoteroBackup._get self ("/items/" +:+ py_str att_key +:+ "/file")
               [] true ;;
     if status_code resp =? 200
     then ZoteroBackup.save_stream resp dest_path ;; ret true
     else ret false)%M
    is_HTTPError (fun _ => ret false) w
  = (Ret false, record_events [EvGet req (answer w req)] w).
Proof.
  intros req H200 H429. unfold try_except, bind.
  destruct (is_error_status (status_code (answer w req))) eqn:Herr.
  - rewrite (_get_http_error self _ [] true w Herr H429). reflexivity.
  - rewrite (_get_passes self _ [] true w Herr).
    fold (file_request self att_key). fold req.
    apply Z.eqb_neq in H200. now rewrite H200.
Qed.

End Download.

(** C3, as the claim states it, fails: none of the four named links carries
    an [href] and the generic file endpoint answers 404, yet the first entry
    of the links has an [href], the generic endpoint is never asked, and the
    call downloads that address, creates the file and returns [True]. *)
Lemma first_link_entry_is_downloaded :
  let w := fresh_world no_file_endpoint credentials in
  let run :=
    @ZoteroBackup.get_attachment_file scalar_runtime sample_backup
      linked_attachment "out/attachments/ATT00001/Publisher_page" w in
  ZoteroBackup.named_href
    (JObj [("self",
            JObj [("href",
                   JStr "https://api.zotero.org/users/42/items/ATT00001");
                  ("type", JStr "application/json")])])
    ZoteroBackup.link_candidates = Ok None
  /\ status_code
       (answer w (@file_request scalar_runtime sample_backup (JStr "ATT00001")))
     = 404
  /\ fst run = Ret true
  /\ w_fs (snd run) !! "out/attachments/ATT00001/Publisher_page"
     = Some (Binary "{}").
Proof. repeat split. Qed.

Section DownloadFallback.
Context `{Runtime}.

(** C3, amended. When no entry of the links named enclosure, file, link or
    attachment carries an [href], the first entry of the links carries none
    either, and the generic file endpoint answers with a status other than
    200 and 429, [get_attachment_file] returns [False]: it raises nothing
    and writes no file.  The same holds, without any request, when the
    attachment has no key. *)
Theorem get_attachment_file_gives_up
        (self : ZoteroBackup.t) (fields link_fields : list (string * json))
        (dest_path : string) (w : world) :
  links_of fields = JObj link_fields ->
  (forall name v, In name ZoteroBackup.link_candidates ->
                  Py.assoc name link_fields = Some v ->
                  carries_href v = false) ->
  (forall name v rest, link_fields = (name, v) :: rest ->
                       carries_href v = false) ->
  (forall att_key,
      Py.assoc "key" fields = Some att_key ->
      Py.truthy att_key = true ->
      status_code (answer w (file_request self att_key)) <> 200
      /\ status_code (answer w (file_request self att_key)) <> 429) ->
  exists w',
    ZoteroBackup.get_attachment_file self (JObj fields) dest_path w
    = (Ret false, w')
    /\ w_fs w' = w_fs w
    /\ written_paths (new_events w w') = []
    /\ (length (requests_of (new_events w w')) <= 1)%nat.
Proof.
  intros Hlinks Hnamed Hfirst Hstatus.
  unfold ZoteroBackup.get_attachment_file.
  unfold bind at 1. cbn [lift Py.get ret]. fold (links_of fields).
  rewrite Hlinks.
  unfold bind at 1. rewrite (named_href_none _ _ Hnamed). cbn [lift ret].
  unfold bind at 1. rewrite (first_entry_href_none _ Hfirst). cbn [lift ret].
  unfold bind at 1. cbn [lift Py.get ret].
  destruct (Py.assoc "key" fields) as [att_key|] eqn:Ekey.
  - destruct (Py.truthy att_key) eqn:Htrue.
    + destruct (Hstatus att_key eq_refl Htrue) as [H200 H429].
      unfold bind at 1.
      rewrite (generic_endpoint_not_200 self att_key dest_path w H200 H429).
      eexists. split; [reflexivity|].
      rewrite new_events_record by reflexivity. repeat split. simpl. lia.
    + exists w. unfold new_events. rewrite drop_all.
      repeat split. simpl. lia.
  - exists w. unfold new_events. rewrite drop_all.
    repeat split. simpl. lia.
Qed.

(** Rate limiting is not among the failures the fallback swallows: the
    [RuntimeError] of [_get] leaves [get_attachment_file]. *)
Lemma get_attachment_file_rate_limited
      self fields link_fields att_key dest_path w :
  links_of fields = JObj link_fields ->
  ZoteroBackup.named_href (JObj link_fields) ZoteroBackup.link_candidates
  = Ok None ->
  ZoteroBackup.first_entry_href (JObj link_fields) = Ok None ->
  Py.assoc "key" fields = Some att_key ->
  Py.truthy att_key = true ->
  status_code (answer w (file_request self att_key)) = 429 ->
  ZoteroBackup.get_attachment_file self (JObj fields) dest_path w
  = (Raise (RuntimeError ZoteroBackup.rate_limited_message),
     record_events [EvGet (file_request self att_key)
                          (answer w (file_request self att_key))] w).
Proof.
  intros Hlinks Hnamed Hfirst Hkey Htrue H429.
  unfold ZoteroBackup.get_attachment_file.
  unfold bind at 1. cbn [lift Py.get ret]. fold (links_of fields).
  rewrite Hlinks.
  unfold bind at 1. rewrite Hnamed. cbn [lift ret].
  unfold bind at 1. rewrite Hfirst. cbn [lift ret].
  unfold bind at 1. cbn [lift Py.get ret]. rewrite Hkey, Htrue.
  unfold bind at 1. unfold try_except. unfold bind at 1.
  rewrite (_get_rate_limited self _ [] true w H429). reflexivity.
Qed.

End DownloadFallback.

Lemma get_attachment_file_gives_up_witness :
  exists w',
    @ZoteroBackup.get_attachment_file scalar_runtime sample_backup
      bare_attachment "out/attachments/ATT00002/scan.pdf"
      (fresh_world no_file_endpoint credentials)
    = (Ret false, w')
    /\ w_fs w' = ∅.
Proof.
  destruct (@get_attachment_file_gives_up scalar_runtime sample_backup
              [("key", JStr "ATT00002");
               ("links", JObj [("up", JObj [("type", JStr "application/json")])]);
               ("data", JObj [("itemType", JStr "attachment");
                              ("title", JStr "scan.pdf")])]
              [("up", JObj [("type", JStr "application/json")])]
              "out/attachments/ATT00002/scan.pdf"
              (fresh_world no_file_endpoint credentials))
    as (w' & Hrun & Hfs & _).
  - reflexivity.
  - intros name v [<-|[<-|[<-|[<-|[]]]]]; discriminate.
  - intros name v rest [= <- <- <-]. reflexivity.
  - intros att_key [= <-] _. split; discriminate.
  - exists w'. split; [exact Hrun | exact Hfs].
Defined.

(** ** Items without annotations *)

Section AnnotationQueries.
Context `{Runtime}.

Lemma query_children_run client item_key kind w :
  let req := children_request client item_key in
  ZoteroClient.query_children client item_key kind w
  = (outcome_of (children_result kind (answer w req)),
     record_events [EvGet req (answer w req)] w).
Proof.
  intros req. unfold ZoteroClient.query_children, bind, session_get.
  fold (children_request client item_key). fold req. fold (answer w req).
  unfold children_result, raise_for_status.
  destruct (is_error_status (status_code (answer w req))); [reflexivity|].
  destruct (Py.iter (body (answer w req))) as [children|e]; [|reflexivity].
  cbv beta iota delta [ret lift raise rbind].
  destruct (ZoteroClient.children_of_type kind children); reflexivity.
Qed.

Lemma written_paths_app t u :
  written_paths (t ++ u) = written_paths t ++ written_paths u.
Proof.
  induction t as [|e t IH]; [reflexivity|].
  destruct e; simpl; now rewrite ?IH.
Qed.

End AnnotationQueries.

Section ExportItem.
Context `{Runtime}.


End ExportItem.


Lemma is_get_no_write evs :
  Forall (fun e => is_get e = true) evs -> written_paths evs = [].
Proof.
  induction 1 as [|e evs He _ IH]; [reflexivity|].
  destruct e; try discriminate He. exact IH.
Qed.

Lemma is_get_no_print evs line :
  Forall (fun e => is_get e = true) evs -> ~ In (EvPrint line) evs.
Proof.
  intros Hall Hin. rewrite List.Forall_forall in Hall.
  apply Hall in Hin. discriminate Hin.
Qed.


Section ExportedItems.
Context `{Runtime}.
Variable client : ZoteroClient.t.
Variable out : string.





End ExportedItems.

Section ExportOfItems.
Context `{Runtime}.


End ExportOfItems.



(** ** The commit *)

Lemma write_gitignore_if_absent_run self w :
  ZoteroBackup.write_gitignore_if_absent self w
  = (Ret tt,
     match w_fs w !! gitignore_path self with
     | Some _ => w
     | None =>
         record_events
           [EvWrite (gitignore_path self) (Text gitignore_text)]
           (store_file (gitignore_path self) (Text gitignore_text) w)
     end).
Proof.
  unfold ZoteroBackup.write_gitignore_if_absent, bind, path_exists.
  fold (gitignore_path self).
  destruct (w_fs w !! gitignore_path self) as [c|] eqn:E.
  - rewrite bool_decide_eq_true_2 by eauto. reflexivity.
  - rewrite bool_decide_eq_false_2 by (intros [c Hc]; discriminate).
    reflexivity.
Qed.

(* ===================================================================== *)
(** * Traces of whole runs *)
(* ===================================================================== *)

#[export] Instance Forall_trace_property (Q : event -> Prop)
  : TraceProperty (Forall Q).
Proof.
  split; [constructor | intros a b Ha Hb; apply Forall_app; auto].
Qed.

Lemma replay_app a b w : replay (a ++ b) w = replay b (replay a w).
Proof. unfold replay. apply fold_left_app. Qed.

Lemma replay_trace evs w : w_trace (replay evs w) = w_trace w ++ evs.
Proof.
  revert w. induction evs as [|e evs IH]; intros w; simpl.
  - now rewrite app_nil_r.
  - rewrite IH. destruct e; simpl; now rewrite <- app_assoc.
Qed.

Lemma new_events_replay evs w : new_events w (replay evs w) = evs.
Proof. unfold new_events. rewrite replay_trace. apply drop_app_length. Qed.

Lemma record_events_replay evs w :
  forallb quiet evs = true -> record_events evs w = replay evs w.
Proof.
  revert w. induction evs as [|e evs IH]; intros w Hq.
  - apply record_events_nil.
  - simpl in Hq. apply andb_true_iff in Hq as [He Hq].
    change (e :: evs) with ([e] ++ evs).
    rewrite <- record_events_app, replay_app, (IH _ Hq).
    f_equal. destruct e; try discriminate; reflexivity.
Qed.

Section EmitRules.
Context {P : list event -> Prop} `{!TraceProperty P}.

Lemma emits_ret {A} (a : A) : emits P (ret a).
Proof. intros w. exists []. split; [reflexivity | apply tp_nil]. Qed.

Lemma emits_raise {A} (e : exn) : emits P (@raise A e).
Proof. intros w. exists []. split; [reflexivity | apply tp_nil]. Qed.

Lemma emits_diverge {A} : emits P (@diverge A).
Proof. intros w. exists []. split; [reflexivity | apply tp_nil]. Qed.

Lemma emits_lift {A} (r : result A) : emits P (lift r).
Proof. destruct r; [apply emits_ret | apply emits_raise]. Qed.

Lemma emits_bind {A B} (m : M A) (k : A -> M B) :
  emits P m -> (forall a, emits P (k a)) -> emits P (bind m k).
Proof.
  intros Hm Hk w. unfold bind.
  destruct (Hm w) as (evs1 & Hw1 & HP1).
  destruct (m w) as [[a|e|] w1]; cbn [snd] in Hw1; subst w1.
  - destruct (Hk a (replay evs1 w)) as (evs2 & Hw2 & HP2).
    exists (evs1 ++ evs2). rewrite replay_app.
    split; [exact Hw2 | now apply tp_app].
  - exists evs1. split; [reflexivity | exact HP1].
  - exists evs1. split; [reflexivity | exact HP1].
Qed.

Lemma emits_try_except {A} (m : M A) catches (handler : exn -> M A) :
  emits P m -> (forall e, emits P (handler e)) ->
  emits P (try_except m catches handler).
Proof.
  intros Hm Hh w. unfold try_except.
  destruct (Hm w) as (evs1 & Hw1 & HP1).
  destruct (m w) as [[a|e|] w1]; cbn [snd] in Hw1; subst w1.
  - exists evs1. split; [reflexivity | exact HP1].
  - destruct (catches e).
    + destruct (Hh e (replay evs1 w)) as (evs2 & Hw2 & HP2).
      exists (evs1 ++ evs2). rewrite replay_app.
      split; [exact Hw2 | now apply tp_app].
    + exists evs1. split; [reflexivity | exact HP1].
  - exists evs1. split; [reflexivity | exact HP1].
Qed.

Lemma emits_for_each {A} (xs : list A) (body : A -> M unit) :
  (forall x, emits P (body x)) -> emits P (for_each xs body).
Proof.
  intros Hb. induction xs as [|x xs IH]; simpl.
  - apply emits_ret.
  - apply emits_bind; [apply Hb | intros _; exact IH].
Qed.

Lemma emits_event (e : event) :
  (forall w, apply_event w e = record_event e w) ->
  P [e] -> emits P (emit e).
Proof.
  intros He HP w. exists [e]. split; [|exact HP].
  unfold emit, replay. simpl. now rewrite He.
Qed.

Lemma emits_print line : P [EvPrint line] -> emits P (print line).
Proof. intros HP. apply emits_event; [reflexivity | exact HP]. Qed.

Lemma emits_sleep d : P [EvSleep d] -> emits P (sleep d).
Proof.
  intros HP. unfold sleep.
  destruct (Qle_bool 0 d); [|apply emits_raise].
  apply emits_event; [reflexivity | exact HP].
Qed.

Lemma emits_session_get req :
  (forall resp, P [EvGet req resp]) -> emits P (session_get req).
Proof.
  intros HP w. exists [EvGet req (w_server w (w_trace w) req)].
  split; [reflexivity | apply HP].
Qed.

Lemma emits_write_file p c : P [EvWrite p c] -> emits P (write_file p c).
Proof. intros HP w. exists [EvWrite p c]. split; [reflexivity | exact HP]. Qed.

Lemma emits_mkdir p : P [EvMkdir p] -> emits P (mkdir p).
Proof. intros HP w. exists [EvMkdir p]. split; [reflexivity | exact HP]. Qed.

Lemma emits_subprocess_run argv :
  (forall o, P [EvRun argv o]) -> emits P (subprocess_run argv).
Proof.
  intros HP w. exists [EvRun argv (w_subprocess w (w_trace w) argv)].
  split; [|apply HP]. unfold subprocess_run.
  destruct (w_subprocess w (w_trace w) argv) as [[| |]|]; reflexivity.
Qed.

Lemma emits_utcnow : emits P utcnow.
Proof. intros w. exists []. split; [reflexivity | apply tp_nil]. Qed.

Lemma emits_path_exists p : emits P (path_exists p).
Proof. intros w. exists []. split; [reflexivity | apply tp_nil]. Qed.

Lemma emits_env_get name default : emits P (env_get name default).
Proof. intros w. exists []. split; [reflexivity | apply tp_nil]. Qed.

Lemma emits_raise_for_status resp : emits P (raise_for_status resp).
Proof.
  unfold raise_for_status.
  destruct (is_error_status (status_code resp));
    [apply emits_raise | apply emits_ret].
Qed.

End EmitRules.

(** Decomposition of a computation along its structure; what is left are
    the calls of other functions and the events of the primitives. *)
Ltac emits_step :=
  cbv beta;
  lazymatch goal with
  | |- emits _ (bind _ _) => apply emits_bind; [|intros ?]
  | |- emits _ (try_except _ _ _) => apply emits_try_except; [|intros ?]
  | |- emits _ (for_each _ _) => apply emits_for_each; intros ?
  | |- emits _ (ret _) => apply emits_ret
  | |- emits _ (raise _) => apply emits_raise
  | |- emits _ diverge => apply emits_diverge
  | |- emits _ (lift _) => apply emits_lift
  | |- emits _ (print _) => apply emits_print
  | |- emits _ (sleep _) => apply emits_sleep
  | |- emits _ (session_get _) => apply emits_session_get; intros ?
  | |- emits _ (write_file _ _) => apply emits_write_file
  | |- emits _ (mkdir _) => apply emits_mkdir
  | |- emits _ (ensure_dir _) => apply emits_mkdir
  | |- emits _ (subprocess_run _) => apply emits_subprocess_run; intros ?
  | |- emits _ utcnow => apply emits_utcnow
  | |- emits _ (path_exists _) => apply emits_path_exists
  | |- emits _ (env_get _ _) => apply emits_env_get
  | |- emits _ (raise_for_status _) => apply emits_raise_for_status
  | |- emits _ (if ?b then _ else _) => destruct b
  | |- emits _ (match ?x with _ => _ end) => destruct x
  end.

Ltac emits_structure := repeat emits_step.

(** ** Sleeping between requests *)

Lemma sleeps_next_app d a b : sleeps_next d a -> sleeps_next d (a ++ b).
Proof.
  destruct a as [|[] a]; simpl; try contradiction; auto.
  destruct a as [|[] a]; simpl; try contradiction; auto.
Qed.

Lemma sleeps_next_follows d a : sleeps_next d a -> sleep_follows a.
Proof.
  destruct a as [|[] a]; simpl; try contradiction; auto.
  destruct a as [|[] a]; simpl; try contradiction; auto.
Qed.

Lemma sleep_follows_app a b :
  ~ sleep_follows a -> ~ sleep_follows b -> ~ sleep_follows (a ++ b).
Proof.
  intros Ha Hb. destruct a as [|e a]; [exact Hb|].
  destruct e; simpl in *; auto.
  destruct a as [|e' a]; simpl in *.
  - destruct b as [|[] b]; simpl in *; auto.
  - destruct e'; auto.
Qed.

Lemma sleeps_of_app a b : sleeps_of (a ++ b) = sleeps_of a ++ sleeps_of b.
Proof.
  induction a as [|e a IH]; [reflexivity|].
  destruct e; simpl; now rewrite ?IH.
Qed.

Lemma due_requests_app due a b :
  due_requests due (a ++ b) = due_requests due a ++ due_requests due b.
Proof.
  induction a as [|e a IH]; [reflexivity|].
  destruct e; simpl; rewrite ?IH; [|reflexivity..].
  now destruct (due req resp).
Qed.

Lemma paced_exactly_app due d a b :
  paced_exactly due d a -> paced_exactly due d b -> ~ sleep_follows b ->
  paced_exactly due d (a ++ b).
Proof.
  intros Ha Hb Hclean. induction a as [|e a IH]; [exact Hb|].
  destruct e; simpl in *; auto.
  destruct Ha as [Hs Ha]. split; [|now apply IH].
  destruct (due req resp).
  - now apply sleeps_next_app.
  - now apply sleep_follows_app.
Qed.

#[export] Instance sleeps_exactly_trace_property due d
  : TraceProperty (sleeps_exactly_when due d).
Proof.
  split.
  - split; [exact I|]. split; [intros []|reflexivity].
  - intros a b (Ha & Hca & Hna) (Hb & Hcb & Hnb). split; [|split].
    + now apply paced_exactly_app.
    + now apply sleep_follows_app.
    + rewrite sleeps_of_app, due_requests_app, !length_app. lia.
Qed.


Lemma _get_run (self : ZoteroBackup.t) path params stream w :
  let req := get_request self path params stream in
  ZoteroBackup._get self path params stream w
  = (if is_error_status (status_code (answer w req))
     then Raise (get_failure (status_code (answer w req)))
     else Ret (answer w req),
     record_events [EvGet req (answer w req)] w).
Proof.
  intros req.
  destruct (is_error_status (status_code (answer w req))) eqn:E.
  - now apply _get_fails.
  - now apply _get_passes.
Qed.

Section Pacing.
Context `{Runtime}.
Variable self : ZoteroBackup.t.

Let d := ZoteroBackup.sleep_between_requests self.
Hypothesis sleep_ok : (0 <= d)%Q.
















End Pacing.

Section NoSleep.
Context `{Runtime}.
Variable self : ZoteroBackup.t.

Let d := ZoteroBackup.sleep_between_requests self.
Hypothesis sleep_refused : ~ (0 <= d)%Q.

Let awake := fun evs : list event => sleeps_of evs = [].

Instance awake_trace_property : TraceProperty awake.
Proof.
  split; [reflexivity|]. intros a b Ha Hb. unfold awake in *.
  now rewrite sleeps_of_app, Ha, Hb.
Qed.

Lemma awake_sleep : emits awake (sleep d).
Proof.
  unfold sleep. destruct (Qle_bool 0 d) eqn:E.
  - apply Qle_bool_iff in E. contradiction.
  - apply emits_raise.
Qed.

Ltac awake_step :=
  first [apply awake_sleep | reflexivity].





End NoSleep.

Section PacedBackup.
Context `{Runtime}.
Variable self : ZoteroBackup.t.


End PacedBackup.



(** ** The metadata of an attachment *)




Section AttachmentMetadata.
Context `{Runtime}.
Variable self : ZoteroBackup.t.




End AttachmentMetadata.

Section MetadataFirst.
Context `{Runtime}.


Lemma bind_lift_ok {A B} (a : A) (k : A -> M B) : bind (lift (Ok a)) k = k a.
Proof. reflexivity. Qed.

Lemma bind_lift_err {A B} (e : exn) (k : A -> M B) :
  bind (lift (Err e)) k = raise e.
Proof. reflexivity. Qed.


(** The directories of a [ZoteroBackup] as its constructor lays them
    out. *)
Lemma init_layout api_key library_id library_type out
      include_attachments commit_repo sleep_between_requests per_page w :
  exists self w',
    ZoteroBackup.init api_key library_id library_type out
      include_attachments commit_repo sleep_between_requests per_page w
    = (Ret self, w')
    /\ ZoteroBackup.output_dir self = out
    /\ ZoteroBackup.attachments_dir self = path_join out "attachments"
    /\ ZoteroBackup.annotations_dir self = path_join out "annotations".
Proof. do 2 eexists. split; [reflexivity|]. repeat split. Qed.



End MetadataFirst.


(** ** The commit comes last *)

Section CommitLast.
Context `{Runtime}.
Variable self : ZoteroBackup.t.

Let no_run := Forall (fun e => is_run e = false).

Ltac no_run_event := constructor; [reflexivity | constructor].

Lemma no_run_list_all_items_loop fuel :
  forall items start,
    emits no_run (ZoteroBackup.list_all_items_loop fuel self items start).
Proof.
  induction fuel as [|fuel IH]; intros items start; [apply emits_diverge|].
  cbn [ZoteroBackup.list_all_items_loop]. unfold ZoteroBackup._get.
  emits_structure; try no_run_event. apply IH.
Qed.

Lemma no_run_backup_child child :
  emits no_run (ZoteroBackup.backup_child self child).
Proof.
  unfold ZoteroBackup.backup_child, ZoteroBackup.download_attachment,
    ZoteroBackup.backup_annotations, ZoteroBackup.get_item_children,
    ZoteroBackup.get_attachment_file, ZoteroBackup.save_stream,
    ZoteroBackup._get.
  emits_structure; no_run_event.
Qed.

Lemma no_run_backup_items total :
  forall items idx,
    emits no_run (ZoteroBackup.backup_items self total idx items).
Proof.
  induction items as [|item items IH]; intros idx; simpl.
  - apply emits_ret.
  - apply emits_bind; [|intros _; apply IH].
    unfold ZoteroBackup.backup_item, ZoteroBackup.get_item_children,
      ZoteroBackup._get.
    emits_structure; try no_run_event. apply no_run_backup_child.
Qed.

End CommitLast.

(** ** The commit *)

Lemma replay_oracles evs w :
  w_server (replay evs w) = w_server w
  /\ w_subprocess (replay evs w) = w_subprocess w
  /\ w_clock (replay evs w) = w_clock w
  /\ w_environ (replay evs w) = w_environ w.
Proof.
  revert w. induction evs as [|e evs IH]; intros w; [repeat split|].
  simpl. destruct (IH (apply_event w e)) as (-> & -> & -> & ->).
  now destruct e.
Qed.

Lemma replay_snoc evs e w :
  replay (evs ++ [e]) w = apply_event (replay evs w) e.
Proof. now rewrite replay_app. Qed.

Lemma subprocess_run_replay argv pre w :
  let o := git_outcome w pre argv in
  subprocess_run argv (replay pre w)
  = (match run_failure o with
     | None => Ret tt
     | Some e => Raise e
     end, replay (pre ++ [EvRun argv o]) w).
Proof.
  intros o. unfold subprocess_run. rewrite replay_trace.
  destruct (replay_oracles pre w) as (_ & -> & _).
  fold (git_outcome w pre argv). fold o. rewrite replay_snoc.
  destruct o as [[| |]|]; reflexivity.
Qed.

Lemma print_replay line pre w :
  print line (replay pre w) = (Ret tt, replay (pre ++ [EvPrint line]) w).
Proof. unfold print, emit. now rewrite replay_snoc. Qed.

Lemma quiet_replay_fs evs w :
  Forall (fun e => quiet e = true) evs -> w_fs (replay evs w) = w_fs w.
Proof.
  intros Hq. rewrite <- record_events_replay; [reflexivity|].
  induction Hq as [|e evs He _ IH]; [reflexivity|]. simpl. now rewrite He.
Qed.

Lemma write_gitignore_replay self pre w :
  Forall (fun e => quiet e = true) pre ->
  ZoteroBackup.write_gitignore_if_absent self (replay pre w)
  = (Ret tt, replay (pre ++ ignore_file_written self w) w).
Proof.
  intros Hq. rewrite write_gitignore_if_absent_run.
  rewrite (quiet_replay_fs _ _ Hq). unfold ignore_file_written.
  destruct (w_fs w !! gitignore_path self).
  - now rewrite app_nil_r.
  - now rewrite replay_snoc.
Qed.

Lemma utcnow_replay pre w :
  utcnow (replay pre w) = (Ret (w_clock w (w_trace w ++ pre)), replay pre w).
Proof.
  unfold utcnow. rewrite replay_trace.
  now destruct (replay_oracles pre w) as (_ & _ & -> & _).
Qed.

Lemma run_failure_exited rc :
  run_failure (Exited rc) = if rc =? 0 then None else Some (CalledProcessError rc).
Proof. now destruct rc. Qed.

Lemma add_and_commit_replay self pre w :
  let add := EvRun (add_command self) in
  let o2 := git_outcome w pre (add_command self) in
  let staged := pre ++ [add (Exited 0)] in
  let now := w_clock w (w_trace w ++ staged) in
  let commit := commit_command self ("Zotero backup " +:+ strftime_utc now) in
  let o3 := git_outcome w staged commit in
  ZoteroBackup.add_and_commit self (replay pre w)
  = if match o2 with Exited 0 => true | _ => false end
    then (ends_after o3,
          replay (staged ++ EvRun commit o3 :: commit_closing o3) w)
    else (ends_after o2,
          replay (pre ++ add o2
                         :: match o2 with
                            | Exited rc =>
                                [commit_failed_report (CalledProcessError rc)]
                            | NotStarted => []
                            end) w).
Proof.
  intros add o2 staged now commit o3.
  unfold ZoteroBackup.add_and_commit, try_except. unfold bind at 1.
  change (ZoteroBackup.git_in self ["add"; "."]) with (add_command self).
  rewrite subprocess_run_replay. fold o2.
  destruct o2 as [rc2|] eqn:E2.
  - rewrite run_failure_exited. destruct (rc2 =? 0) eqn:Hz.
    + apply Z.eqb_eq in Hz. subst rc2. cbn [Z.eqb].
      fold add. fold staged. unfold bind at 1. rewrite utcnow_replay.
      fold now. unfold bind at 1.
      change (ZoteroBackup.git_in self
                ["commit"; "-m"; ZoteroBackup.commit_message now])
        with commit.
      rewrite subprocess_run_replay. fold o3.
      destruct o3 as [rc3|] eqn:E3.
      * rewrite run_failure_exited. destruct (rc3 =? 0) eqn:Hz3.
        -- apply Z.eqb_eq in Hz3. subst rc3. rewrite print_replay.
           cbn [ends_after commit_closing]. now rewrite <- app_assoc.
        -- cbn [is_CalledProcessError]. rewrite print_replay.
           cbn [ends_after]. rewrite <- app_assoc.
           destruct rc3; [discriminate | reflexivity | reflexivity].
      * cbn [run_failure is_CalledProcessError ends_after commit_closing].
        reflexivity.
    + cbn [is_CalledProcessError]. rewrite print_replay.
      rewrite <- app_assoc. cbn [ends_after].
      destruct rc2; [discriminate | reflexivity | reflexivity].
  - cbn [run_failure is_CalledProcessError ends_after]. reflexivity.
Qed.

Lemma init_repo_if_needed_replay self w :
  let rev := EvRun (rev_parse_command self) in
  let init := EvRun (init_command self) in
  let o0 := git_outcome w [] (rev_parse_command self) in
  ZoteroBackup.init_repo_if_needed self w
  = match o0 with
    | NotStarted => (Raise OSError, replay [rev NotStarted] w)
    | Exited rc0 =>
        if rc0 =? 0 then (Ret true, replay [rev (Exited 0)] w)
        else
          let o1 := git_outcome w [rev (Exited rc0); init_notice]
                      (init_command self) in
          match run_failure o1 with
          | None =>
              (Ret true, replay [rev (Exited rc0); init_notice; init o1] w)
          | Some e =>
              (Ret false,
               replay [rev (Exited rc0); init_notice; init o1;
                       init_failed_report e] w)
          end
    end.
Proof.
  intros rev init o0.
  unfold ZoteroBackup.init_repo_if_needed, ZoteroBackup._is_git_repo.
  unfold bind at 1. unfold try_except at 1. unfold bind at 1.
  change (ZoteroBackup.git_in self ["rev-parse"]) with (rev_parse_command self).
  change w with (replay [] w) at 1.
  rewrite subprocess_run_replay. fold o0. cbn [app].
  destruct o0 as [rc0|] eqn:E0.
  - rewrite run_failure_exited. destruct (rc0 =? 0) eqn:Hz.
    + apply Z.eqb_eq in Hz. subst rc0. reflexivity.
    + cbn [is_CalledProcessError ret negb]. unfold bind at 1.
      rewrite print_replay. cbn [app]. unfold try_except. unfold bind at 1.
      change ["git"; "init"; ZoteroBackup.output_dir self]
        with (init_command self).
      rewrite subprocess_run_replay. cbn [app]. fold init_notice.
      set (o1 := git_outcome w _ (init_command self)).
      destruct (run_failure o1) as [e|] eqn:E1.
      * assert (He : is_Exception e = true).
        { destruct o1 as [[| |]|]; simpl in E1; try discriminate;
            now injection E1 as <-. }
        rewrite He. unfold bind at 1. rewrite print_replay. reflexivity.
      * reflexivity.
  - cbn [run_failure is_CalledProcessError]. reflexivity.
Qed.

Section CommitStep.
Context `{Runtime}.
Variable self : ZoteroBackup.t.

Lemma ready_is_quiet w ready :
  repository_ready self w ready -> Forall (fun e => quiet e = true) ready.
Proof.
  intros [[_ ->]|(rc0 & _ & _ & _ & ->)]; repeat constructor.
Qed.

Lemma commit_after_ready w ready :
  repository_ready self w ready ->
  exists evs o,
    (ZoteroBackup.write_gitignore_if_absent self ;;
     ZoteroBackup.add_and_commit self)%M (replay ready w)
    = (o, replay evs w)
    /\ commit_cases self w evs o.
Proof.
  intros Hready. unfold bind.
  rewrite (write_gitignore_replay _ _ _ (ready_is_quiet _ _ Hready)).
  rewrite add_and_commit_replay.
  set (ignore := ignore_file_written self w).
  set (o2 := git_outcome w (ready ++ ignore) (add_command self)).
  destruct o2 as [rc2|] eqn:E2.
  - destruct (rc2 =? 0) eqn:Hz.
    + apply Z.eqb_eq in Hz. subst rc2. cbn [Z.eqb].
      eexists _, _. rewrite <- !app_assoc. split; [reflexivity|].
      right. right. exists ready. split; [exact Hready|]. right.
      eexists. cbv zeta. fold ignore. rewrite <- !app_assoc.
      split; [exact E2|]. split; [reflexivity|]. split; reflexivity.
    + assert (Hne : Exited rc2 <> Exited 0).
      { intros [= ->]. discriminate. }
      assert (Hb : match rc2 with 0 => true | _ => false end = false)
        by now destruct rc2.
      rewrite Hb. eexists _, _. rewrite <- !app_assoc.
      split; [reflexivity|].
      right. right. exists ready. split; [exact Hready|]. left.
      exists (Exited rc2). fold ignore.
      split; [exact E2|]. split; [exact Hne|]. split; reflexivity.
  - eexists _, _. rewrite <- !app_assoc. split; [reflexivity|].
    right. right. exists ready. split; [exact Hready|]. left.
    exists NotStarted. fold ignore.
    split; [exact E2|]. split; [discriminate|]. split; reflexivity.
Qed.

Lemma commit_step_run w :
  exists evs o,
    ZoteroBackup._maybe_init_and_commit self w = (o, replay evs w)
    /\ commit_cases self w evs o.
Proof.
  unfold ZoteroBackup._maybe_init_and_commit. unfold bind at 1.
  rewrite init_repo_if_needed_replay.
  destruct (git_outcome w [] (rev_parse_command self)) as [rc0|] eqn:E0.
  - destruct (rc0 =? 0) eqn:Hz.
    + apply Z.eqb_eq in Hz. subst rc0. cbn [negb].
      apply commit_after_ready. left. auto.
    + apply Z.eqb_neq in Hz. cbv zeta.
      set (o1 := git_outcome w _ (init_command self)).
      destruct (run_failure o1) as [e|] eqn:E1.
      * cbn [negb ret]. eexists _, _. split; [reflexivity|].
        right. left. exists rc0, o1, e. repeat split; auto.
      * cbn [negb].
        assert (Ho1 : o1 = Exited 0).
        { destruct o1 as [[| |]|]; simpl in E1; try discriminate; reflexivity. }
        rewrite Ho1. apply commit_after_ready. right.
        exists rc0. repeat split; auto.
  - eexists _, _. split; [reflexivity|]. left. auto.
Qed.

End CommitStep.

Lemma bind_assoc {A B C} (m : M A) (k : A -> M B) (k' : B -> M C) w :
  bind (bind m k) k' w = bind m (fun a => bind (k a) k') w.
Proof. unfold bind. destruct (m w) as [[a|e|] w1]; reflexivity. Qed.

Lemma bind_ext {A B} (m : M A) (k1 k2 : A -> M B) w :
  (forall a w', k1 a w' = k2 a w') -> bind m k1 w = bind m k2 w.
Proof.
  intros Hk. unfold bind. destruct (m w) as [[a|e|] w1]; auto.
Qed.

Section CommitOfABackup.
Context `{Runtime}.
Variable self : ZoteroBackup.t.

Lemma no_run_items_phase fuel :
  emits (Forall (fun e => is_run e = false)) (items_phase fuel self).
Proof.
  unfold items_phase, ZoteroBackup.list_all_items.
  emits_structure; try (constructor; [reflexivity | constructor]).
  - apply no_run_list_all_items_loop.
  - apply no_run_backup_items.
Qed.

Lemma backup_is_items_then_commit fuel w :
  ZoteroBackup.backup fuel self w
  = match fst (items_phase fuel self w) with
    | Ret _ =>
        if ZoteroBackup.commit_repo self
        then ZoteroBackup._maybe_init_and_commit self
               (snd (items_phase fuel self w))
        else items_phase fuel self w
    | _ => items_phase fuel self w
    end.
Proof.
  assert (Hbind : ZoteroBackup.backup fuel self w
                  = (items_phase fuel self ;;
                     if ZoteroBackup.commit_repo self
                     then ZoteroBackup._maybe_init_and_commit self
                     else ret tt)%M w).
  { unfold ZoteroBackup.backup, items_phase.
    rewrite bind_assoc. apply bind_ext. intros _ w1.
    rewrite bind_assoc. apply bind_ext. intros items w2.
    rewrite bind_assoc. apply bind_ext. intros now w3.
    rewrite bind_assoc. apply bind_ext. intros _ w4.
    rewrite bind_assoc. apply bind_ext. intros _ w5.
    reflexivity. }
  rewrite Hbind. unfold bind.
  destruct (items_phase fuel self w) as [[[]|e|] w1]; cbn [fst snd];
    try reflexivity.
  now destruct (ZoteroBackup.commit_repo self).
Qed.

End CommitOfABackup.

(** C9, amended. With committing enabled a backup that has processed its
    items runs the commit step, and nothing else runs a command; disabled,
    or after a failure, no command is run.  The commit step asks
    [git rev-parse] and runs [git init] only when that exits with a status
    other than 0; a [git init] that fails is reported and ends the step
    normally.  With a repository it writes the default [.gitignore] only if
    there is none, runs [git add .] and then [git commit] with the message
    [Zotero backup <time>], the time read from the clock after staging.  A
    [git add] or [git commit] that exits with a status other than 0 is
    reported and the step returns normally; the step ends with an exception
    only when [git] cannot be started for [rev-parse], [add] or [commit],
    so it always returns normally where [git] can be started. *)
Theorem commit_is_guarded_and_never_fatal `{Runtime}
        (self : ZoteroBackup.t) (w : world) :
  (forall fuel w0,
      let phase := items_phase fuel self w0 in
      Forall (fun e => is_run e = false) (new_events w0 (snd phase))
      /\ ZoteroBackup.backup fuel self w0
         = match fst phase with
           | Ret _ =>
               if ZoteroBackup.commit_repo self
               then ZoteroBackup._maybe_init_and_commit self (snd phase)
               else phase
           | _ => phase
           end)
  /\ (exists evs o,
         ZoteroBackup._maybe_init_and_commit self w = (o, replay evs w)
         /\ commit_cases self w evs o)
  /\ (git_starts w ->
      fst (ZoteroBackup._maybe_init_and_commit self w) = Ret tt).
Proof.
  split; [|split].
  - intros fuel w0 phase. subst phase.
    split; [|exact (backup_is_items_then_commit self fuel w0)].
    destruct (no_run_items_phase self fuel w0) as (evs & Hw & Hevs).
    rewrite Hw, new_events_replay. exact Hevs.
  - apply commit_step_run.
  - intros Hg.
    destruct (commit_step_run self w) as (evs & o & -> & Hcases).
    cbn [fst].
    assert (Hstart : forall pre argv, git_outcome w pre argv <> NotStarted).
    { intros pre argv. apply Hg. }
    destruct Hcases as [(E & _)|[(rc0 & o1 & e & _ & _ & _ & _ & _ & ->)|
                                 (ready & _ & [(o2 & E & _ & _ & ->)
                                              |(o3 & E)])]].
    + now apply Hstart in E.
    + reflexivity.
    + destruct o2; [reflexivity | now apply Hstart in E].
    + cbv zeta in E. destruct E as (_ & E & _ & ->).
      destruct o3; [reflexivity | now apply Hstart in E].
Qed.

(** C9, as the claim states it, fails where [git] cannot be started: the
    backup of an empty library, with committing enabled, ends with the
    exception of the first command of the commit step, which no clause
    catches. *)
Lemma commit_without_git_is_fatal :
  let run :=
    @ZoteroBackup.backup scalar_runtime 5 sample_backup world_without_git in
  ZoteroBackup.commit_repo sample_backup = true
  /\ fst run = Raise OSError
  /\ last (w_trace (snd run))
     = Some (EvRun (rev_parse_command sample_backup) NotStarted).
Proof. repeat split. Qed.

Lemma commit_is_guarded_and_never_fatal_witness :
  fst (ZoteroBackup._maybe_init_and_commit sample_backup
         unchanged_backup_world) = Ret tt.
Proof.
  apply (@commit_is_guarded_and_never_fatal scalar_runtime sample_backup
           unchanged_backup_world).
  intros hist argv. unfold unchanged_backup_world, nothing_to_commit.
  cbn [w_subprocess]. destruct (String.eqb _ _); discriminate.
Defined.

(* ===================================================================== *)
(** * Further properties of the clients, the export and the backup *)
(* ===================================================================== *)

Lemma is_hyphen_eqb c : PyStr.mem c "-" = PyStr.eqb_char c "-".
Proof. simpl. apply orb_false_r. Qed.

Lemma slug_char_not_hyphen c :
  is_slug_char c = true -> PyStr.eqb_char c "-" = false.
Proof.
  intros Hs. destruct (PyStr.eqb_char c "-") eqn:E; [|reflexivity].
  apply Ascii.eqb_eq in E. subst c. discriminate Hs.
Qed.

Lemma sub_runs_hyphenated b s :
  hyphenated b
    (PyStr.sub_runs_from (fun c => negb (is_slug_char c)) "-" b s) = true.
Proof.
  revert b. induction s as [|c r IH]; intros b; [reflexivity|].
  cbn [PyStr.sub_runs_from].
  destruct (is_slug_char c) eqn:Hc; cbn [negb].
  - cbn [hyphenated]. rewrite Hc. apply IH.
  - destruct b; [apply IH|].
    change ("-" +:+ ?x) with (String "-" x).
    cbn [hyphenated]. change (is_slug_char "-") with false. cbn.
    apply IH.
Qed.

Lemma hyphenated_lstrip b s :
  hyphenated b s = true ->
  hyphenated true (PyStr.lstrip (fun c => PyStr.mem c "-") s) = true.
Proof.
  revert b. induction s as [|c r IH]; intros b Hs; [reflexivity|].
  cbn [PyStr.lstrip]. rewrite is_hyphen_eqb.
  cbn [hyphenated] in Hs.
  destruct (is_slug_char c) eqn:Hc.
  - rewrite (slug_char_not_hyphen c Hc). cbn [hyphenated]. now rewrite Hc.
  - apply andb_true_iff in Hs as [Hs Hr]. apply andb_true_iff in Hs as [He _].
    rewrite He. now apply (IH true).
Qed.

Lemma slug_from_nonempty s : slug_from true s = true -> PyStr.is_empty s = false.
Proof. destruct s; [discriminate | reflexivity]. Qed.

Lemma hyphenated_rstrip b s :
  hyphenated b s = true ->
  let t := PyStr.rstrip (fun c => PyStr.mem c "-") s in
  t = EmptyString \/ slug_from b t = true.
Proof.
  revert b. induction s as [|c r IH]; intros b Hs; [now left|].
  cbn [PyStr.rstrip]. cbv zeta. rewrite is_hyphen_eqb.
  cbn [hyphenated] in Hs.
  destruct (is_slug_char c) eqn:Hc.
  - rewrite (slug_char_not_hyphen c Hc). cbn [andb]. right.
    cbn [slug_from]. rewrite Hc.
    destruct (IH false Hs) as [E|E]; [now rewrite E | exact E].
  - apply andb_true_iff in Hs as [Hs Hr]. apply andb_true_iff in Hs as [He Hb].
    rewrite He. cbn [andb].
    destruct (IH true Hr) as [E|E].
    + rewrite E. now left.
    + rewrite (slug_from_nonempty _ E). right.
      cbn [slug_from]. rewrite Hc, He, Hb. exact E.
Qed.

Lemma slugify_shape value : is_slug (slugify value) = true.
Proof.
  unfold slugify, PyStr.strip_chars, PyStr.strip_with, PyStr.sub_runs.
  pose proof (sub_runs_hyphenated false (PyStr.lower value)) as H1.
  apply hyphenated_lstrip in H1. apply hyphenated_rstrip in H1.
  cbv zeta in H1. destruct H1 as [E|E].
  - now rewrite E.
  - unfold is_slug. destruct (PyStr.rstrip _ _); [reflexivity | exact E].
Qed.

Lemma lower_char_slug c :
  is_slug_char c = true \/ PyStr.eqb_char c "-" = true ->
  PyStr.lower_char c = c.
Proof.
  destruct c as [[] [] [] [] [] [] [] []];
    intros [E|E]; try reflexivity; discriminate E.
Qed.

Lemma slug_from_lower b s : slug_from b s = true -> PyStr.lower s = s.
Proof.
  revert b. induction s as [|c r IH]; intros b Hs; [reflexivity|].
  cbn [slug_from] in Hs. cbn [PyStr.lower].
  destruct (is_slug_char c) eqn:Hc.
  - rewrite (IH _ Hs). now rewrite lower_char_slug by now left.
  - apply andb_true_iff in Hs as [Hs Hr]. apply andb_true_iff in Hs as [He _].
    rewrite (IH _ Hr). now rewrite lower_char_slug by now right.
Qed.

Lemma slug_from_sub_runs b s :
  slug_from b s = true ->
  PyStr.sub_runs_from (fun c => negb (is_slug_char c)) "-" b s = s.
Proof.
  revert b. induction s as [|c r IH]; intros b Hs; [reflexivity|].
  cbn [slug_from] in Hs. cbn [PyStr.sub_runs_from].
  destruct (is_slug_char c) eqn:Hc; cbn [negb].
  - now rewrite (IH _ Hs).
  - apply andb_true_iff in Hs as [Hs Hr]. apply andb_true_iff in Hs as [He Hb].
    destruct b; [discriminate Hb|].
    rewrite (IH _ Hr). apply Ascii.eqb_eq in He. now subst c.
Qed.

Lemma slug_from_rstrip b s :
  slug_from b s = true -> PyStr.rstrip (fun c => PyStr.mem c "-") s = s.
Proof.
  revert b. induction s as [|c r IH]; intros b Hs; [reflexivity|].
  cbn [slug_from] in Hs. cbn [PyStr.rstrip]. rewrite is_hyphen_eqb.
  destruct (is_slug_char c) eqn:Hc.
  - rewrite (slug_char_not_hyphen c Hc). cbn [andb]. now rewrite (IH _ Hs).
  - apply andb_true_iff in Hs as [Hs Hr]. apply andb_true_iff in Hs as [He Hb].
    rewrite (IH _ Hr), (slug_from_nonempty _ Hr), andb_false_r. reflexivity.
Qed.

Lemma slug_from_lstrip s :
  slug_from true s = true -> PyStr.lstrip (fun c => PyStr.mem c "-") s = s.
Proof.
  destruct s as [|c r]; [reflexivity|]. cbn [slug_from PyStr.lstrip].
  rewrite is_hyphen_eqb. destruct (is_slug_char c) eqn:Hc.
  - now rewrite (slug_char_not_hyphen c Hc).
  - rewrite andb_false_r. discriminate.
Qed.

Lemma slugify_of_slug s : is_slug s = true -> slugify s = s.
Proof.
  destruct s as [|c r]; [reflexivity|]. unfold is_slug. intros Hs.
  unfold slugify, PyStr.strip_chars, PyStr.strip_with, PyStr.sub_runs.
  rewrite (slug_from_lower _ _ Hs).
  rewrite slug_from_sub_runs.
  2:{ revert Hs. generalize (String c r). intros s.
      destruct s as [|d t]; [discriminate|]. cbn [slug_from].
      destruct (is_slug_char d); [auto|]. rewrite andb_false_r. discriminate. }
  rewrite (slug_from_lstrip _ Hs). apply (slug_from_rstrip _ _ Hs).
Qed.

(** Whatever the text, its slug is empty or made of words of the
    characters a-z and 0-9 joined by single hyphens, with no hyphen at
    either end.  Such a text is its own slug, so the slug of a slug is the
    slug itself, and the texts that [slugify] leaves as they are are
    exactly these. *)
Theorem slugify_gives_hyphenated_words (value : string) :
  is_slug (slugify value) = true
  /\ slugify (slugify value) = slugify value
  /\ (slugify value = value <-> is_slug value = true).
Proof.
  split; [apply slugify_shape|].
  split; [apply slugify_of_slug, slugify_shape|].
  split; [intros E; rewrite <- E; apply slugify_shape | apply slugify_of_slug].
Qed.

Lemma chars_lstrip p s c :
  In c (chars (PyStr.lstrip p s)) -> In c (chars s).
Proof.
  induction s as [|d r IH]; [auto|]. cbn [PyStr.lstrip].
  destruct (p d); [|auto]. intros Hin. right. auto.
Qed.

Lemma chars_rstrip p s c :
  In c (chars (PyStr.rstrip p s)) -> In c (chars s).
Proof.
  induction s as [|d r IH]; [auto|]. cbn [PyStr.rstrip].
  destruct (p d && PyStr.is_empty (PyStr.rstrip p r)); [intros []|].
  intros [E|Hin]; [now left | right; auto].
Qed.

Lemma chars_take n s c : In c (chars (PyStr.take n s)) -> In c (chars s).
Proof.
  revert s. induction n as [|n IH]; intros [|d r]; cbn [PyStr.take];
    try (intros Hin; now destruct Hin).
  intros [E|Hin]; [now left | right; auto].
Qed.

Lemma length_take n s : (String.length (PyStr.take n s) <= n)%nat.
Proof.
  revert s. induction n as [|n IH]; intros [|d r]; simpl; try lia.
  specialize (IH r). lia.
Qed.

Lemma length_take_min n s :
  String.length (PyStr.take n s) = Nat.min n (String.length s).
Proof.
  revert s. induction n as [|n IH]; intros [|d r]; simpl; auto.
Qed.

Lemma first_char_lstrip p s c :
  first_char (PyStr.lstrip p s) = Some c -> p c = false.
Proof.
  induction s as [|d r IH]; [discriminate|]. cbn [PyStr.lstrip].
  destruct (p d) eqn:E; [auto|]. now intros [= <-].
Qed.

Lemma first_char_rstrip p s c :
  first_char (PyStr.rstrip p s) = Some c -> first_char s = Some c.
Proof.
  destruct s as [|d r]; [auto|]. cbn [PyStr.rstrip].
  destruct (p d && _); [discriminate | auto].
Qed.

Lemma first_char_take n s c :
  first_char (PyStr.take n s) = Some c -> first_char s = Some c.
Proof. destruct n, s; simpl; auto; discriminate. Qed.

Lemma chars_sub_runs (cls : ascii -> bool) (rep : ascii) b s c :
  In c (chars (PyStr.sub_runs_from cls (String rep EmptyString) b s)) ->
  c = rep \/ (cls c = false /\ In c (chars s)).
Proof.
  revert b. induction s as [|d r IH]; intros b; [intros []|].
  cbn [PyStr.sub_runs_from]. destruct (cls d) eqn:E.
  - destruct b.
    + intros Hin. destruct (IH _ Hin) as [|[? ?]]; [now left|].
      right. split; [assumption | now right].
    + change (String rep "" +:+ ?x) with (String rep x).
      intros [->|Hin]; [now left|].
      destruct (IH _ Hin) as [|[? ?]]; [now left|].
      right. split; [assumption | now right].
  - intros [<-|Hin]; [right; split; [assumption | now left]|].
    destruct (IH _ Hin) as [|[? ?]]; [now left|].
    right. split; [assumption | now right].
Qed.

(** The name under which a download is saved has at most 150 characters,
    each of them a digit, a letter, a dash, an underscore or a dot, so that
    it holds no slash, and it does not start with an underscore. *)
Theorem slugify_name_is_a_file_name (s : string) :
  (String.length (slugify_name s) <= 150)%nat
  /\ (forall c, In c (chars (slugify_name s)) -> is_name_char c = true)
  /\ ~ In "/"%char (chars (slugify_name s))
  /\ first_char (slugify_name s) <> Some "_"%char.
Proof.
  assert (Hchars : forall c, In c (chars (slugify_name s)) ->
                             is_name_char c = true).
  { intros c Hin. unfold slugify_name, PyStr.strip_chars, PyStr.strip_with in Hin.
    apply chars_take, chars_rstrip, chars_lstrip in Hin.
    apply (chars_sub_runs _ "_"%char) in Hin as [->|[Hc _]]; [reflexivity|].
    now apply negb_false_iff in Hc. }
  split; [apply length_take|]. split; [exact Hchars|]. split.
  - intros Hin. apply Hchars in Hin. discriminate Hin.
  - intros Hf. unfold slugify_name, PyStr.strip_chars, PyStr.strip_with in Hf.
    apply first_char_take, first_char_rstrip, first_char_lstrip in Hf.
    discriminate Hf.
Qed.

Lemma chars_string_map f s c :
  In c (chars (string_map f s)) -> exists d, In d (chars s) /\ c = f d.
Proof.
  induction s as [|d r IH]; [intros []|].
  intros [<-|Hin]; [exists d; split; [now left | reflexivity]|].
  destruct (IH Hin) as (d' & ? & ?). exists d'. split; [now right | assumption].
Qed.

Lemma length_string_map f s : String.length (string_map f s) = String.length s.
Proof. induction s; simpl; auto. Qed.

(** The sanitized title has the length of the title, up to 100 characters,
    and none of the characters that are illegal in a file name. *)
Theorem safe_title_has_no_illegal_character (title : string) :
  String.length (safe_title_of title) = Nat.min 100 (String.length title)
  /\ forall c, In c (chars (safe_title_of title)) ->
               PyStr.mem c illegal_filename_chars = false.
Proof.
  rewrite safe_title_of_chars. split.
  - now rewrite length_take_min, length_string_map.
  - intros c Hin. apply chars_take, chars_string_map in Hin as (d & _ & ->).
    unfold sanitize_char. destruct (PyStr.mem d illegal_filename_chars) eqn:E;
      [reflexivity | exact E].
Qed.

(** ** Children by type *)

Lemma children_of_type_filter kind children l :
  ZoteroClient.children_of_type kind children = Ok l ->
  l = List.filter (has_item_type kind) children.
Proof.
  revert l. induction children as [|i rest IH]; intros l.
  - now intros [= <-].
  - cbn [ZoteroClient.children_of_type List.filter].
    unfold has_item_type at 1, item_type_is.
    destruct (Py.getitem i "data") as [data|]; cbn [rbind]; [|discriminate].
    destruct (Py.get data "itemType" JNull) as [ty|]; cbn [rbind];
      [|discriminate].
    destruct (ZoteroClient.children_of_type kind rest) as [keep|];
      cbn [rbind]; [|discriminate].
    intros [= <-]. now rewrite (IH keep eq_refl).
Qed.

Lemma children_of_type_total kind children :
  Forall (fun i => exists b, item_type_is kind i = Ok b) children ->
  ZoteroClient.children_of_type kind children
  = Ok (List.filter (has_item_type kind) children).
Proof.
  induction 1 as [|i rest [b Hi] _ IH]; [reflexivity|].
  cbn [ZoteroClient.children_of_type List.filter].
  unfold has_item_type at 1. unfold item_type_is in *.
  destruct (Py.getitem i "data") as [data|]; cbn [rbind] in *; [|discriminate].
  destruct (Py.get data "itemType" JNull) as [ty|]; cbn [rbind] in *;
    [|discriminate].
  rewrite IH. reflexivity.
Qed.

Lemma has_item_type_exact kind other i :
  has_item_type kind i = true -> other <> kind -> has_item_type other i = false.
Proof.
  unfold has_item_type, item_type_is. intros Hk Hne.
  destruct (Py.getitem i "data") as [data|]; cbn [rbind] in *; [|reflexivity].
  destruct (Py.get data "itemType" JNull) as [ty|]; cbn [rbind] in *;
    [|reflexivity].
  destruct ty; try discriminate. simpl in *.
  apply String.eqb_eq in Hk. subst s. apply String.eqb_neq.
  intros E. now apply Hne.
Qed.

Lemma filter_has_item_type kind children :
  Forall (fun i => has_item_type kind i = true)
         (List.filter (has_item_type kind) children).
Proof.
  apply List.Forall_forall. intros i Hin. now apply List.filter_In in Hin.
Qed.

Section ChildrenByType.
Context `{Runtime}.

(** The queries for attachments and for annotations return the children
    whose type is exactly the one asked for, in the order of the answer. *)
Theorem query_children_filters_by_type
        (client : ZoteroClient.t) (item_key : json) (kind : string)
        (w : world) :
  let req := children_request client item_key in
  let run := ZoteroClient.query_children client item_key kind w in
  snd run = record_events [EvGet req (answer w req)] w
  /\ (forall l, fst run = Ret l ->
        exists children,
          Py.iter (body (answer w req)) = Ok children
          /\ l = List.filter (has_item_type kind) children
          /\ forall other, other <> kind ->
                           Forall (fun i => has_item_type other i = false) l)
  /\ (forall children,
        is_error_status (status_code (answer w req)) = false ->
        body (answer w req) = JArr children ->
        Forall (fun i => exists b, item_type_is kind i = Ok b) children ->
        fst run = Ret (List.filter (has_item_type kind) children)).
Proof.
  intros req run. unfold run. rewrite query_children_run. fold req.
  cbn [fst snd]. split; [reflexivity|]. split.
  - intros l Hl. unfold children_result in Hl.
    destruct (is_error_status (status_code (answer w req))); [discriminate|].
    destruct (Py.iter (body (answer w req))) as [children|]; cbn [rbind] in Hl;
      [|discriminate].
    destruct (ZoteroClient.children_of_type kind children) as [l'|] eqn:E;
      [|discriminate].
    injection Hl as ->. apply children_of_type_filter in E. subst l.
    exists children. repeat split. intros other Hne.
    eapply Forall_impl; [apply filter_has_item_type|].
    intros i Hi. cbv beta in Hi. now apply (has_item_type_exact kind).
  - intros children Hs Hb Hall. unfold children_result.
    rewrite Hs, Hb. cbn [Py.iter rbind].
    now rewrite (children_of_type_total _ _ Hall).
Qed.

End ChildrenByType.

Lemma query_children_filters_by_type_witness :
  fst (@ZoteroClient.query_children scalar_runtime sample_client
         (JStr "ITEM0002") "attachment"
         (fresh_world annotated_library credentials))
  = Ret [read_attachment].
Proof.
  destruct (@query_children_filters_by_type scalar_runtime sample_client
              (JStr "ITEM0002") "attachment"
              (fresh_world annotated_library credentials))
    as (_ & _ & Hall).
  apply (Hall [read_attachment; plain_note]).
  - reflexivity.
  - reflexivity.
  - repeat constructor; eexists; reflexivity.
Defined.

(** ** Running monadic code, continued *)

Lemma bind_ret_inv {A B} (m : M A) (k : A -> M B) w b w' :
  bind m k w = (Ret b, w') ->
  exists a w1, m w = (Ret a, w1) /\ k a w1 = (Ret b, w').
Proof.
  unfold bind. destruct (m w) as [[a|e|] w1]; try discriminate.
  intros E. now exists a, w1.
Qed.

Lemma lift_ret_inv {A} (r : result A) w a w' :
  lift r w = (Ret a, w') -> r = Ok a /\ w' = w.
Proof. destruct r; simpl; [intros [= <- <-]; auto | discriminate]. Qed.

Lemma prefix_app a b : String.prefix a (a +:+ b) = true.
Proof.
  induction a as [|c a IH]; simpl; [now destruct b|].
  destruct (ascii_dec c c); [exact IH | contradiction].
Qed.

Lemma prefix_app_r a b c :
  String.prefix a b = true -> String.prefix a (b +:+ c) = true.
Proof.
  revert b. induction a as [|x a IH]; intros [|y b]; simpl; try discriminate;
    auto.
  - now destruct c.
  - destruct (ascii_dec x y); [apply IH | discriminate].
Qed.

(** ** [get_all_annotations] *)

Section AllAnnotations.
Context `{Runtime}.
Variable client : ZoteroClient.t.

Let reads := Forall (client_request client).

Lemma reads_query_items top limit :
  emits reads (ZoteroClient.query_items client top limit).
Proof.
  unfold ZoteroClient.query_items. emits_structure.
  constructor; [|constructor]. cbn [client_request headers url stream].
  repeat split. unfold PyStr.startswith.
  destruct top; [apply prefix_app_r|]; apply prefix_app.
Qed.

Lemma reads_query_children item_key kind :
  emits reads (ZoteroClient.query_children client item_key kind).
Proof.
  unfold ZoteroClient.query_children. emits_structure.
  constructor; [|constructor]. cbn [client_request headers url stream].
  repeat split. apply prefix_app.
Qed.

Lemma reads_extend_with_annotations attachments :
  forall acc,
    emits reads (ZoteroClient.extend_with_annotations client attachments acc).
Proof.
  induction attachments as [|att rest IH]; intros acc;
    cbn [ZoteroClient.extend_with_annotations]; emits_structure.
  - apply reads_query_children.
  - apply IH.
Qed.

Lemma reads_annotations_of_items items :
  forall acc,
    emits reads (ZoteroClient.annotations_of_items client items acc).
Proof.
  induction items as [|item rest IH]; intros acc;
    cbn [ZoteroClient.annotations_of_items]; emits_structure.
  - apply reads_query_children.
  - apply reads_extend_with_annotations.
  - apply IH.
Qed.

Lemma reads_get_all_annotations limit :
  emits reads (ZoteroClient.get_all_annotations client limit).
Proof.
  unfold ZoteroClient.get_all_annotations. emits_structure.
  - apply reads_query_items.
  - apply reads_annotations_of_items.
Qed.

Lemma query_children_returns item_key kind w l w' :
  ZoteroClient.query_children client item_key kind w = (Ret l, w') ->
  Forall (fun i => has_item_type kind i = true) l.
Proof.
  intros Hrun. rewrite query_children_run in Hrun.
  injection Hrun as Hl _. unfold children_result in Hl.
  destruct (is_error_status _); [discriminate|].
  destruct (Py.iter _) as [children|]; cbn [rbind] in Hl; [|discriminate].
  destruct (ZoteroClient.children_of_type kind children) as [l'|] eqn:E;
    [|discriminate].
  injection Hl as ->. apply children_of_type_filter in E. subst l.
  apply filter_has_item_type.
Qed.

Lemma extend_with_annotations_returns attachments :
  forall acc w l w',
    ZoteroClient.extend_with_annotations client attachments acc w
    = (Ret l, w') ->
    exists more,
      l = acc ++ more
      /\ Forall (fun a => has_item_type "annotation" a = true) more.
Proof.
  induction attachments as [|att rest IH]; intros acc w l w' Hrun.
  - injection Hrun as <- <-. exists []. now rewrite app_nil_r.
  - cbn [ZoteroClient.extend_with_annotations] in Hrun.
    apply bind_ret_inv in Hrun as (key & w1 & _ & Hrun).
    apply bind_ret_inv in Hrun as (anns & w2 & Hq & Hrun).
    apply query_children_returns in Hq.
    destruct (IH _ _ _ _ Hrun) as (more & -> & Hmore).
    exists (anns ++ more). rewrite app_assoc. split; [reflexivity|].
    now apply Forall_app.
Qed.

Lemma annotations_of_items_returns items :
  forall acc w l w',
    ZoteroClient.annotations_of_items client items acc w = (Ret l, w') ->
    exists more,
      l = acc ++ more
      /\ Forall (fun a => has_item_type "annotation" a = true) more.
Proof.
  induction items as [|item rest IH]; intros acc w l w' Hrun.
  - injection Hrun as <- <-. exists []. now rewrite app_nil_r.
  - cbn [ZoteroClient.annotations_of_items] in Hrun.
    apply bind_ret_inv in Hrun as (key & w1 & _ & Hrun).
    apply bind_ret_inv in Hrun as (atts & w2 & _ & Hrun).
    apply bind_ret_inv in Hrun as (acc' & w3 & He & Hrun).
    apply extend_with_annotations_returns in He as (m1 & -> & Hm1).
    destruct (IH _ _ _ _ Hrun) as (m2 & -> & Hm2).
    exists (m1 ++ m2). rewrite app_assoc. split; [reflexivity|].
    now apply Forall_app.
Qed.

Lemma get_all_annotations_returns limit w l w' :
  ZoteroClient.get_all_annotations client limit w = (Ret l, w') ->
  Forall (fun a => has_item_type "annotation" a = true) l.
Proof.
  unfold ZoteroClient.get_all_annotations. intros E.
  apply bind_ret_inv in E as (items & w1 & _ & E).
  apply bind_ret_inv in E as (its & w2 & _ & E).
  apply annotations_of_items_returns in E as (more & -> & Hmore).
  exact Hmore.
Qed.

(** [get_all_annotations] only reads: every event is a request of the
    client, no file is touched, and what it returns are annotations. *)
Theorem get_all_annotations_only_reads (limit : Z) (w : world) :
  let run := ZoteroClient.get_all_annotations client limit w in
  Forall (client_request client) (new_events w (snd run))
  /\ w_fs (snd run) = w_fs w
  /\ w_dirs (snd run) = w_dirs w
  /\ forall l, fst run = Ret l ->
               Forall (fun a => has_item_type "annotation" a = true) l.
Proof.
  intros run. unfold run.
  destruct (reads_get_all_annotations limit w) as (evs & Hw & Hevs).
  assert (Hq : Forall (fun e => quiet e = true) evs).
  { eapply Forall_impl; [exact Hevs|]. intros [] He; try contradiction.
    reflexivity. }
  rewrite Hw, new_events_replay. split; [exact Hevs|].
  rewrite <- (record_events_replay evs w).
  2:{ clear -Hq. induction Hq as [|e evs He _ IH]; [reflexivity|].
      simpl. now rewrite He. }
  split; [reflexivity|]. split; [reflexivity|].
  intros l Hl.
  destruct (ZoteroClient.get_all_annotations client limit w) as [o w'] eqn:E.
  cbn [fst] in Hl. subst o. exact (get_all_annotations_returns _ _ _ _ E).
Qed.

End AllAnnotations.

(** ** The script [get_annotations.py] *)

Section Script.
Context `{Runtime}.




End Script.


(** ** Credentials of the client *)

Section ClientCredentials.
Context `{Runtime}.

Lemma client_init_fails w :
  no_credential w "ZOTERO_API_KEY" \/ no_credential w "ZOTERO_LIBRARY_ID" ->
  exists msg,
    ZoteroClient.init None None None w = (Raise (ValueError msg), w).
Proof.
  unfold no_credential, ZoteroClient.init, bind, env_get, opt_or.
  cbn [opt_truthy].
  intros [Hk|Hi].
  - destruct (w_environ w !! "ZOTERO_API_KEY") as [k|]; cbn [opt_truthy] in *.
    + rewrite Hk. cbn [negb]. eexists. reflexivity.
    + eexists. reflexivity.
  - destruct (opt_truthy match w_environ w !! "ZOTERO_API_KEY" with
                         | Some v => Some v | None => None end);
      cbn [negb]; [|eexists; reflexivity].
    destruct (w_environ w !! "ZOTERO_LIBRARY_ID") as [i|]; cbn [opt_truthy] in *.
    + rewrite Hi. cbn [negb]. eexists. reflexivity.
    + eexists. reflexivity.
Qed.

(** Without an API key or a library id in the environment the client
    cannot be built: the script stops at once, the export command after it
    has created its output directory, and no request is sent.  Arguments
    given to the constructor replace the environment. *)
Theorem client_needs_credentials (w : world) :
  (forall k i ty,
      k <> EmptyString -> i <> EmptyString ->
      exists t,
        ZoteroClient.init (Some k) (Some i) ty w
        = (Ret {| ZoteroClient.api_key := Some k;
                  ZoteroClient.library_id := Some i;
                  ZoteroClient.library_type := Some t;
                  ZoteroClient.base_url :=
                    "https://api.zotero.org/" +:+ t +:+ "/" +:+ i |}, w)
        /\ (ty = None -> w_environ w !! "ZOTERO_LIBRARY_TYPE" = None ->
            t = "users"))
  /\ (no_credential w "ZOTERO_API_KEY" \/ no_credential w "ZOTERO_LIBRARY_ID" ->
      (exists msg,
          ZoteroClient.init None None None w = (Raise (ValueError msg), w))
      /\ (exists msg,
             GetAnnotations.script w = (Raise (ValueError msg), w))
      /\ forall a,
          exists msg,
            ExportAnnotations.export a w
            = (Raise (ValueError msg),
               record_event (EvMkdir (ExportAnnotations.output_dir a))
                 (store_dir (ExportAnnotations.output_dir a) w))).
Proof.
  split.
  - intros k i ty Hk Hi.
    assert (Hsome : forall s x, s <> EmptyString -> opt_or (Some s) x = Some s).
    { intros s x Hs. unfold opt_or. cbn [opt_truthy]. now destruct s. }
    assert (Htrue : forall s, s <> EmptyString -> opt_truthy (Some s) = true).
    { intros s Hs. now destruct s. }
    unfold ZoteroClient.init, bind, env_get.
    rewrite (Hsome k _ Hk), (Hsome i _ Hi), (Htrue k Hk), (Htrue i Hi).
    cbn [negb ret opt_str].
    destruct ty as [t|]; unfold opt_or; cbn [opt_truthy].
    + destruct (PyStr.is_empty t) eqn:Et; cbn [negb].
      * destruct (w_environ w !! "ZOTERO_LIBRARY_TYPE") as [v|];
          cbn [opt_str]; eexists; (split; [reflexivity | discriminate]).
      * eexists. split; [reflexivity | discriminate].
    + destruct (w_environ w !! "ZOTERO_LIBRARY_TYPE") as [v|];
        cbn [opt_str]; eexists; (split; [reflexivity|]).
      * discriminate.
      * reflexivity.
  - intros Hno. destruct (client_init_fails w Hno) as (msg & Hinit).
    split; [eauto|]. split.
    + exists msg. unfold GetAnnotations.script, bind. now rewrite Hinit.
    + intros a.
      set (w1 := record_event (EvMkdir (ExportAnnotations.output_dir a))
                   (store_dir (ExportAnnotations.output_dir a) w)).
      destruct (client_init_fails w1 Hno) as (msg1 & Hinit1).
      exists msg1. unfold ExportAnnotations.export.
      unfold bind at 1. unfold ExportAnnotations.ensure_output_dir.
      unfold bind at 1. unfold mkdir at 1. cbn [ret]. fold w1.
      unfold bind at 1. now rewrite Hinit1.
Qed.

End ClientCredentials.

Lemma client_needs_credentials_witness :
  exists msg,
    @ExportAnnotations.export scalar_runtime
      {| ExportAnnotations.output_dir := "notes";
         ExportAnnotations.limit := 100 |}
      (fresh_world annotated_library only_api_key)
    = (Raise (ValueError msg),
       record_event (EvMkdir "notes")
         (store_dir "notes" (fresh_world annotated_library only_api_key))).
Proof.
  destruct (@client_needs_credentials scalar_runtime
              (fresh_world annotated_library only_api_key)) as [_ Hno].
  destruct Hno as (_ & _ & Hexport); [right; reflexivity|].
  apply (Hexport {| ExportAnnotations.output_dir := "notes";
                    ExportAnnotations.limit := 100 |}).
Defined.

(** ** What the export command does *)




Section ExportSteps.
Context `{Runtime}.



Variable client : ZoteroClient.t.
Variable out : string.

Let steps := Forall (export_step out).





End ExportSteps.

Section ExportCommand.
Context `{Runtime}.


End ExportCommand.

(** ** Pagination without end *)

Section EndlessPagination.
Variable self : ZoteroBackup.t.
Hypothesis sleep_ok : (0 <= ZoteroBackup.sleep_between_requests self)%Q.

Lemma list_all_items_loop_goes_on fuel :
  forall items start w,
    never_short (ZoteroBackup.per_page self) w ->
    exists evs,
      ZoteroBackup.list_all_items_loop fuel self items start w
      = (Diverge, record_events evs w)
      /\ length (requests_of evs) = fuel.
Proof.
  induction fuel as [|fuel IH]; intros items start w Hfull.
  - exists []. now rewrite record_events_nil.
  - cbn [ZoteroBackup.list_all_items_loop]. unfold bind at 1.
    rewrite _get_run.
    set (req := get_request self "/items/top" _ false).
    destruct (Hfull (w_trace w) req) as (Hs & batch & Hb & Hne & Hlen).
    fold (answer w req) in Hs, Hb. rewrite Hs, Hb.
    destruct batch as [|x batch]; [contradiction|].
    cbn [Py.truthy negb Py.iter Py.len]. rewrite !bind_lift_ok.
    unfold bind at 1. unfold print at 1, emit at 1.
    unfold bind at 1. rewrite (sleep_returns self sleep_ok).
    unfold batch_size in Hlen. apply Z.ltb_ge in Hlen. rewrite Hlen.
    rewrite !record_event_events, !record_events_app.
    set (evs1 := [_] ++ [_] ++ [_]).
    destruct (IH (items ++ x :: batch)
                 (start + Z.of_nat (length (x :: batch)))
                 (record_events evs1 w)) as (evs & Hrun & Hn).
    { intros hist r. apply Hfull. }
    rewrite Hrun. exists (evs1 ++ evs). rewrite record_events_app.
    split; [reflexivity|]. rewrite requests_of_app, length_app, Hn.
    reflexivity.
Qed.

End EndlessPagination.

(** The listing has no limit of its own: against a server that never
    answers with an empty or short batch it asks for page after page and
    does not return. *)
Theorem list_all_items_has_no_page_limit
        (self : ZoteroBackup.t) (w : world) (fuel : nat) :
  (0 <= ZoteroBackup.sleep_between_requests self)%Q ->
  never_short (ZoteroBackup.per_page self) w ->
  let run := ZoteroBackup.list_all_items fuel self w in
  fst run = Diverge
  /\ length (requests_of (new_events w (snd run))) = fuel.
Proof.
  intros Hsleep Hfull run. unfold run, ZoteroBackup.list_all_items.
  destruct (list_all_items_loop_goes_on self Hsleep fuel [] 0 w Hfull)
    as (evs & -> & Hn).
  cbn [fst snd]. split; [reflexivity|].
  now rewrite new_events_record.
Qed.

Lemma list_all_items_has_no_page_limit_witness :
  fst (ZoteroBackup.list_all_items 7 sample_backup
         (fresh_world endless_library credentials)) = Diverge
  /\ length (requests_of
               (new_events (fresh_world endless_library credentials)
                  (snd (ZoteroBackup.list_all_items 7 sample_backup
                          (fresh_world endless_library credentials)))))
     = 7%nat.
Proof.
  apply (list_all_items_has_no_page_limit sample_backup
           (fresh_world endless_library credentials) 7).
  - discriminate.
  - intros hist req. split; [reflexivity|].
    exists (numbered_items 0 100). split; [reflexivity|].
    split; [discriminate | vm_compute; discriminate].
Defined.

(** ** The annotations of an attachment in a backup *)

Section BackupAnnotations.
Context `{Runtime}.
Variable self : ZoteroBackup.t.

Lemma get_item_children_run item_key w :
  let req := item_children_request self item_key in
  ZoteroBackup.get_item_children self item_key w
  = (if is_error_status (status_code (answer w req))
     then Raise (get_failure (status_code (answer w req)))
     else Ret (body (answer w req)),
     record_events [EvGet req (answer w req)] w).
Proof.
  intros req. unfold ZoteroBackup.get_item_children, bind.
  rewrite _get_run. fold (item_children_request self item_key). fold req.
  now destruct (is_error_status (status_code (answer w req))).
Qed.

Lemma get_failure_is_Exception s : is_Exception (get_failure s) = true.
Proof. unfold get_failure. now destruct (s =? 429). Qed.

Ltac solve_trace :=
  cbn [w_trace record_events record_event store_file store_dir];
  rewrite <- ?app_assoc; reflexivity.

(** Fetching the annotations of an attachment never stops the backup:
    whatever the server answers, rate limiting included, the step returns
    normally after one request.  On an error status the failure is printed
    and nothing is written; otherwise, the pause being legal, the
    annotations are written to their file exactly when the answer is not
    empty. *)
Theorem backup_annotations_never_fails (att_key : json) (w : world) :
  let req := item_children_request self att_key in
  let resp := answer w req in
  let file := annotations_file self att_key in
  let run := ZoteroBackup.backup_annotations self att_key w in
  let evs := new_events w (snd run) in
  fst run = Ret tt
  /\ requests_of evs = [req]
  /\ (is_error_status (status_code resp) = true ->
      evs = [EvGet req resp;
             children_failed_report att_key (get_failure (status_code resp))]
      /\ w_fs (snd run) = w_fs w)
  /\ (is_error_status (status_code resp) = false ->
      (0 <= ZoteroBackup.sleep_between_requests self)%Q ->
      if Py.truthy (body resp)
      then w_fs (snd run) = <[file := JsonDump (body resp)]> (w_fs w)
           /\ written_paths evs = [file]
      else w_fs (snd run) = w_fs w
           /\ evs = [EvGet req resp;
                     EvSleep (ZoteroBackup.sleep_between_requests self)]).
Proof.
  intros req resp file run evs.
  assert (Hrun : exists tail w',
             run = (Ret tt, w')
             /\ w_trace w' = w_trace w ++ EvGet req resp :: tail
             /\ requests_of tail = []
             /\ (is_error_status (status_code resp) = true ->
                 tail = [children_failed_report att_key
                           (get_failure (status_code resp))]
                 /\ w_fs w' = w_fs w)
             /\ (is_error_status (status_code resp) = false ->
                 (0 <= ZoteroBackup.sleep_between_requests self)%Q ->
                 if Py.truthy (body resp)
                 then w_fs w' = <[file := JsonDump (body resp)]> (w_fs w)
                      /\ written_paths tail = [file]
                 else w_fs w' = w_fs w
                      /\ tail = [EvSleep
                                   (ZoteroBackup.sleep_between_requests self)])).
  { unfold run, ZoteroBackup.backup_annotations, try_except.
    unfold bind at 1. rewrite get_item_children_run. fold req. fold resp.
    destruct (is_error_status (status_code resp)) eqn:Hs.
    - rewrite get_failure_is_Exception. unfold print, emit.
      eexists _, _. split; [reflexivity|]. split; [solve_trace|].
      split; [reflexivity|]. split; [auto | discriminate].
    - unfold bind at 1. unfold sleep at 1.
      destruct (Qle_bool 0 (ZoteroBackup.sleep_between_requests self)) eqn:Hq.
      + unfold emit at 1. destruct (Py.truthy (body resp)) eqn:Ht.
        * unfold bind at 1, write_file at 1.
          unfold bind at 1.
          destruct (Py.len (body resp)) as [n|e] eqn:Hlen; cbn [lift ret raise].
          -- unfold print, emit.
             eexists _, _. split; [reflexivity|]. split; [solve_trace|].
             split; [reflexivity|].
             split; [discriminate|]. intros _ _. split; reflexivity.
          -- assert (He : is_Exception e = true).
             { destruct (body resp); simpl in Hlen; try discriminate;
                 now injection Hlen as <-. }
             rewrite He. unfold print, emit.
             eexists _, _. split; [reflexivity|]. split; [solve_trace|].
             split; [reflexivity|].
             split; [discriminate|]. intros _ _. split; reflexivity.
        * eexists _, _. split; [reflexivity|]. split; [solve_trace|].
          split; [reflexivity|].
          split; [discriminate|]. intros _ _. split; reflexivity.
      + cbn [raise is_Exception]. unfold print, emit.
        eexists _, _. split; [reflexivity|]. split; [solve_trace|].
        split; [reflexivity|].
        split; [discriminate|]. intros _ Hle.
        apply Qle_bool_iff in Hle. congruence. }
  destruct Hrun as (tail & w' & Hrun & Htrace & Hreq & Herr & Hok).
  assert (Hevs : evs = EvGet req resp :: tail).
  { unfold evs, new_events. rewrite Hrun. cbn [snd]. rewrite Htrace.
    apply drop_app_length. }
  rewrite Hevs, Hrun. cbn [fst snd].
  split; [reflexivity|]. split; [cbn [requests_of]; now rewrite Hreq|].
  split.
  - intros Hs. destruct (Herr Hs) as [-> ->]. split; reflexivity.
  - intros Hs Hle. specialize (Hok Hs Hle).
    destruct (Py.truthy (body resp)).
    + destruct Hok as [-> Hp]. split; [reflexivity|].
      cbn [written_paths]. exact Hp.
    + destruct Hok as [-> ->]. split; reflexivity.
Qed.

End BackupAnnotations.

Lemma backup_annotations_never_fails_witness :
  let w := fresh_world rate_limiting credentials in
  let run :=
    @ZoteroBackup.backup_annotations scalar_runtime sample_backup
      (JStr "ATT00003") w in
  fst run = Ret tt /\ w_fs (snd run) = w_fs w.
Proof.
  intros w run.
  destruct (@backup_annotations_never_fails scalar_runtime sample_backup
              (JStr "ATT00003") w) as (Hret & _ & Herr & _).
  split; [exact Hret|]. apply Herr. reflexivity.
Defined.

(** ** What every step of a backup respects *)

Section BackupSteps.
Context `{Runtime}.
Variable self : ZoteroBackup.t.

Let steps := Forall (backup_step self).

Ltac step_event := constructor; [simpl; auto | constructor].

Lemma steps_list_all_items_loop fuel :
  forall items start,
    emits steps (ZoteroBackup.list_all_items_loop fuel self items start).
Proof.
  induction fuel as [|fuel IH]; intros items start; [apply emits_diverge|].
  cbn [ZoteroBackup.list_all_items_loop]. unfold ZoteroBackup._get.
  emits_structure; try step_event. apply IH.
Qed.

Lemma steps_backup_child child :
  emits steps (ZoteroBackup.backup_child self child).
Proof.
  unfold ZoteroBackup.backup_child, ZoteroBackup.download_attachment,
    ZoteroBackup.backup_annotations, ZoteroBackup.get_item_children,
    ZoteroBackup.get_attachment_file, ZoteroBackup.save_stream,
    ZoteroBackup._get.
  emits_structure; step_event.
Qed.

Lemma steps_backup_items total :
  forall items idx,
    emits steps (ZoteroBackup.backup_items self total idx items).
Proof.
  induction items as [|item items IH]; intros idx; simpl.
  - apply emits_ret.
  - apply emits_bind; [|intros _; apply IH].
    unfold ZoteroBackup.backup_item, ZoteroBackup.get_item_children,
      ZoteroBackup._get.
    emits_structure; try step_event. apply steps_backup_child.
Qed.

Lemma steps_maybe_init_and_commit :
  emits steps (ZoteroBackup._maybe_init_and_commit self).
Proof.
  unfold ZoteroBackup._maybe_init_and_commit,
    ZoteroBackup.init_repo_if_needed, ZoteroBackup._is_git_repo,
    ZoteroBackup.write_gitignore_if_absent, ZoteroBackup.add_and_commit.
  emits_structure; step_event.
Qed.

(** In a backup run every request, a download from an address found in the
    data of an item included, carries the headers of the session and so the
    API key; every pause has the configured length; and the only program
    run is [git]. *)
Theorem backup_sends_the_key_with_every_request (fuel : nat) (w : world) :
  Forall (backup_step self)
         (new_events w (snd (ZoteroBackup.backup fuel self w))).
Proof.
  assert (Hem : emits steps (ZoteroBackup.backup fuel self)).
  { unfold ZoteroBackup.backup, ZoteroBackup.list_all_items.
    emits_structure; try step_event.
    - apply steps_list_all_items_loop.
    - apply steps_backup_items.
    - apply steps_maybe_init_and_commit. }
  destruct (Hem w) as (evs & -> & Hevs). now rewrite new_events_replay.
Qed.

End BackupSteps.

(** ** Downloads *)

Ltac solve_trace_drop :=
  cbn [w_trace record_events record_event store_file store_dir snd];
  rewrite <- ?app_assoc; apply drop_app_length.

Lemma append_empty_r s : s +:+ "" = s.
Proof.
  induction s as [|c s IH]; [reflexivity|].
  change (String c s +:+ "") with (String c (s +:+ "")). now rewrite IH.
Qed.

Lemma written_chunks_join chunks :
  written_chunks chunks = PyStr.join "" chunks.
Proof.
  induction chunks as [|c rest IH]; [reflexivity|].
  cbn [written_chunks PyStr.join]. rewrite IH.
  destruct rest as [|d rest].
  - destruct c; [reflexivity|]. cbn [PyStr.is_empty PyStr.join].
    apply append_empty_r.
  - destruct c; reflexivity.
Qed.

Section Downloads.
Context `{Runtime}.
Variable self : ZoteroBackup.t.

Lemma get_attachment_file_href attachment href :
  download_href attachment = Ok (Some href) ->
  forall dest_path,
    ZoteroBackup.get_attachment_file self attachment dest_path
    = (h <- lift (Py.str_method href) ;;
       let h := if PyStr.startswith "/" h
                then "https://api.zotero.org" +:+ h else h in
       try_except
         (print [PLit "  Downloading file from "; PStr h] ;;
          resp <- session_get {| url := h;
                                 headers := ZoteroBackup.session_headers self;
                                 params := []; stream := true |} ;;
          raise_for_status resp ;;
          ZoteroBackup.save_stream resp dest_path ;;
          ret true)
         is_Exception
         (fun e =>
            print [PLit "  ⚠️  Failed to download "; PStr h; PLit ": ";
                   PExn e] ;;
            ret false))%M.
Proof.
  unfold download_href, ZoteroBackup.get_attachment_file.
  intros Hh dest_path.
  destruct (Py.get attachment "links" JNull) as [links|]; cbn [rbind] in Hh;
    [|discriminate].
  rewrite bind_lift_ok.
  destruct (ZoteroBackup.named_href (Py.or_else links (JObj []))
              ZoteroBackup.link_candidates) as [[named|]|];
    cbn [rbind] in Hh; try discriminate; rewrite bind_lift_ok.
  - injection Hh as ->. reflexivity.
  - rewrite Hh, bind_lift_ok. reflexivity.
Qed.

(** With an address in the links the download is one request, sent to
    that address (on the host of the API when it starts with a slash) and
    read as a stream.  An answer without error status is saved as it
    comes, chunk after chunk, and the call returns [True]; an error status
    is reported, nothing is written and the call returns [False].  An
    address that is not a string makes the call raise. *)
Theorem get_attachment_file_downloads_the_href
        (attachment href : json) (dest_path : string) (w : world) :
  download_href attachment = Ok (Some href) ->
  let run := ZoteroBackup.get_attachment_file self attachment dest_path w in
  match href with
  | JStr h =>
      let req := href_request self h in
      let resp := answer (record_events [downloading_notice h] w) req in
      if is_error_status (status_code resp)
      then fst run = Ret false
           /\ w_fs (snd run) = w_fs w
           /\ new_events w (snd run)
              = [downloading_notice h; EvGet req resp;
                 download_failed_report h (HTTPError (status_code resp))]
      else fst run = Ret true
           /\ w_fs (snd run)
              = <[dest_path := Binary (PyStr.join "" (content resp))]> (w_fs w)
           /\ new_events w (snd run)
              = [downloading_notice h; EvGet req resp;
                 EvWrite dest_path (Binary (PyStr.join "" (content resp)))]
  | _ => run = (Raise AttributeError, w)
  end.
Proof.
  intros Hh run. unfold run. rewrite (get_attachment_file_href _ _ Hh).
  destruct href as [| | |h| |]; try reflexivity.
  cbn [Py.str_method]. rewrite bind_lift_ok. cbv zeta.
  fold (absolute_href h).
  unfold try_except, bind, print, emit, session_get, raise_for_status,
    ZoteroBackup.save_stream, write_file, answer, href_request,
    downloading_notice, download_failed_report, new_events.
  cbn [w_server w_trace record_event record_events store_file].
  match goal with
  | |- context [is_error_status ?s] => destruct (is_error_status s)
  end.
  - cbn [raise is_Exception ret fst snd w_fs w_trace record_event].
    split; [reflexivity|]. split; [reflexivity|].
    rewrite <- !app_assoc. apply drop_app_length.
  - cbn [ret fst snd w_fs w_trace record_event store_file].
    rewrite written_chunks_join.
    split; [reflexivity|]. split; [reflexivity|].
    rewrite <- !app_assoc. apply drop_app_length.
Qed.

Lemma named_href_in_order links before c after lf h :
  (forall b v, In b before -> Py.assoc b links = Some v ->
               carries_href v = false) ->
  Py.assoc c links = Some (JObj lf) ->
  Py.assoc "href" lf = Some h ->
  Py.truthy h = true ->
  ZoteroBackup.named_href (JObj links) (before ++ c :: after) = Ok (Some h).
Proof.
  intros Hbefore Hc Hh Ht.
  induction before as [|b before IH]; cbn [app ZoteroBackup.named_href Py.get rbind].
  - rewrite Hc. cbn [Py.is_dict Py.get rbind]. rewrite Hh. now rewrite Ht.
  - assert (IH' : ZoteroBackup.named_href (JObj links) (before ++ c :: after)
                  = Ok (Some h)).
    { apply IH. intros b' v Hin. apply Hbefore. now right. }
    destruct (Py.assoc b links) as [v|] eqn:Hb; [|exact IH'].
    specialize (Hbefore b v (or_introl eq_refl) Hb).
    destruct v; cbn [Py.is_dict]; try exact IH'.
    cbn [Py.get rbind]. unfold carries_href in Hbefore. rewrite Hbefore.
    exact IH'.
Qed.

(** The named links are tried in the order enclosure, file, link,
    attachment, whatever their order in the record of the attachment: the
    download goes to the [href] of the first of them that carries one. *)
Theorem named_links_are_tried_in_order
        (fields links lf : list (string * json))
        (before after : list string) (c : string) (h : json) :
  Py.assoc "links" fields = Some (JObj links) ->
  ZoteroBackup.link_candidates = before ++ c :: after ->
  (forall b v, In b before -> Py.assoc b links = Some v ->
               carries_href v = false) ->
  Py.assoc c links = Some (JObj lf) ->
  Py.assoc "href" lf = Some h ->
  Py.truthy h = true ->
  download_href (JObj fields) = Ok (Some h).
Proof.
  intros Hlinks Hcands Hbefore Hc Hh Ht.
  unfold download_href. cbn [Py.get rbind]. rewrite Hlinks.
  assert (Hne : Py.or_else (JObj links) (JObj []) = JObj links).
  { destruct links; [discriminate Hc | reflexivity]. }
  rewrite Hne, Hcands.
  now rewrite (named_href_in_order links before c after lf h).
Qed.

Lemma get_attachment_file_trace attachment dest_path w :
  exists evs,
    w_trace (snd (ZoteroBackup.get_attachment_file self attachment dest_path w))
    = w_trace w ++ evs
    /\ requests_of evs = download_requests self attachment.
Proof.
  unfold download_requests.
  destruct (download_href attachment) as [[href|]|e] eqn:Hh.
  - rewrite (get_attachment_file_href _ _ Hh).
    destruct href as [| | |h| |];
      try (exists []; rewrite app_nil_r; split; reflexivity).
    cbn [Py.str_method]. rewrite bind_lift_ok. cbv zeta.
    fold (absolute_href h).
    unfold try_except, bind, print, emit, session_get, raise_for_status,
      ZoteroBackup.save_stream, write_file.
    cbn [w_server w_trace record_event record_events store_file].
    match goal with
    | |- context [is_error_status ?s] => destruct (is_error_status s)
    end;
      cbn [raise is_Exception ret fst snd w_fs w_trace record_event
             store_file];
      rewrite <- !app_assoc; eexists; (split; [reflexivity|]); reflexivity.
  - unfold download_href in Hh. unfold ZoteroBackup.get_attachment_file.
    destruct (Py.get attachment "links" JNull) as [links|] eqn:Hl;
      cbn [rbind] in Hh; [|discriminate].
    rewrite bind_lift_ok.
    destruct (ZoteroBackup.named_href (Py.or_else links (JObj []))
                ZoteroBackup.link_candidates) as [[named|]|];
      cbn [rbind] in Hh; try discriminate.
    rewrite bind_lift_ok, Hh, bind_lift_ok.
    destruct (Py.get attachment "key" JNull) as [att_key|e];
      [rewrite bind_lift_ok | rewrite bind_lift_err];
      [|exists []; rewrite app_nil_r; split; reflexivity].
    destruct (Py.truthy att_key);
      [|exists []; rewrite app_nil_r; split; reflexivity].
    unfold bind at 1. unfold try_except. unfold bind at 1.
    rewrite _get_run. fold (file_request self att_key).
    set (req := file_request self att_key).
    destruct (is_error_status (status_code (answer w req))).
    + unfold get_failure. destruct (status_code (answer w req) =? 429);
        cbn [is_HTTPError ret snd record_events w_trace];
        eexists; (split; [reflexivity|]); reflexivity.
    + destruct (status_code (answer w req) =? 200).
      * unfold bind, ZoteroBackup.save_stream, write_file, ret.
        cbn [snd record_events record_event store_file w_trace].
        rewrite <- !app_assoc. eexists. split; [reflexivity|]. reflexivity.
      * cbn [ret snd record_events w_trace].
        eexists. split; [reflexivity|]. reflexivity.
  - exists []. rewrite app_nil_r. split; [|reflexivity]. f_equal.
    unfold download_href in Hh. unfold ZoteroBackup.get_attachment_file.
    destruct (Py.get attachment "links" JNull) as [links|] eqn:Hl;
      cbn [rbind] in Hh; [|now rewrite bind_lift_err].
    rewrite bind_lift_ok.
    destruct (ZoteroBackup.named_href (Py.or_else links (JObj []))
                ZoteroBackup.link_candidates) as [[named|]|];
      cbn [rbind] in Hh; try discriminate.
    + rewrite bind_lift_ok, Hh, bind_lift_err. reflexivity.
    + rewrite bind_lift_err. reflexivity.
Qed.

Lemma new_events_trans w w1 w2 a b :
  w_trace w1 = w_trace w ++ a -> w_trace w2 = w_trace w1 ++ b ->
  new_events w w2 = a ++ b.
Proof.
  intros H1 H2. unfold new_events. rewrite H2, H1, <- app_assoc.
  apply drop_app_length.
Qed.

(** A second attempt to download an attachment repeats the request of the
    first: the two attempts differ in the name of the file only.  The
    requests of the whole step are none, those of one attempt, or those of
    one attempt twice. *)
Theorem download_attachment_repeats_the_request
        (child cdata att_key : json) (att_dir : string) (w : world) :
  let run :=
    ZoteroBackup.download_attachment self child cdata att_key att_dir w in
  let sent := requests_of (new_events w (snd run)) in
  (length (download_requests self child) <= 1)%nat
  /\ (sent = []
      \/ sent = download_requests self child
      \/ sent = download_requests self child ++ download_requests self child).
Proof.
  intros run sent. split.
  { unfold download_requests.
    destruct (download_href child) as [[[]|]|]; simpl; try lia.
    destruct (Py.get child "key" JNull) as [k|]; simpl; try lia.
    destruct (Py.truthy k); simpl; lia. }
  set (R := download_requests self child).
  assert (Hgen : forall o w',
             ZoteroBackup.download_attachment self child cdata att_key
               att_dir w = (o, w') ->
             exists evs, w_trace w' = w_trace w ++ evs
                         /\ (requests_of evs = [] \/ requests_of evs = R
                             \/ requests_of evs = R ++ R)).
  { intros o w' Hrun. unfold ZoteroBackup.download_attachment in Hrun.
    assert (Hnone : forall (e : exn),
               (@Raise unit e, w) = (o, w') ->
               exists evs, w_trace w' = w_trace w ++ evs
                           /\ (requests_of evs = [] \/ requests_of evs = R
                               \/ requests_of evs = R ++ R)).
    { intros e [= <- <-]. exists []. rewrite app_nil_r. auto. }
    destruct (Py.get cdata "filename" JNull) as [filename|];
      [rewrite bind_lift_ok in Hrun
      | rewrite bind_lift_err in Hrun; eapply Hnone, Hrun].
    destruct (Py.get cdata "title" JNull) as [title|];
      [rewrite bind_lift_ok in Hrun
      | rewrite bind_lift_err in Hrun; eapply Hnone, Hrun].
    destruct (Py.re_subject _) as [raw_fn|];
      [rewrite bind_lift_ok in Hrun
      | rewrite bind_lift_err in Hrun; eapply Hnone, Hrun].
    cbv zeta in Hrun. unfold bind at 1 in Hrun.
    destruct (get_attachment_file_trace child
                (path_join att_dir (slugify_name raw_fn)) w)
      as (evs1 & Ht1 & Hr1).
    destruct (ZoteroBackup.get_attachment_file self child
                (path_join att_dir (slugify_name raw_fn)) w)
      as [[success|e|] w1]; cbn [snd] in Ht1.
    - destruct success; cbn [negb] in Hrun.
      + unfold print, emit in Hrun. injection Hrun as <- <-.
        exists (evs1 ++ [EvPrint [PLit "    saved file ";
                                  PStr (PyStr.basename
                                          (path_join att_dir
                                             (slugify_name raw_fn)))]]).
        cbn [w_trace record_event]. rewrite Ht1, <- app_assoc.
        split; [reflexivity|]. right. left.
        rewrite requests_of_app, Hr1. apply app_nil_r.
      + unfold bind at 1 in Hrun.
        destruct (get_attachment_file_trace child
                    (path_join att_dir (py_str att_key)) w1)
          as (evs2 & Ht2 & Hr2).
        destruct (ZoteroBackup.get_attachment_file self child
                    (path_join att_dir (py_str att_key)) w1)
          as [[success2|e|] w2]; cbn [snd] in Ht2.
        * assert (Hq : forall line,
                     exists evs,
                       w_trace (record_event (EvPrint line) w2)
                       = w_trace w ++ evs
                       /\ (requests_of evs = [] \/ requests_of evs = R
                           \/ requests_of evs = R ++ R)).
          { intros line. exists (evs1 ++ evs2 ++ [EvPrint line]).
            cbn [w_trace record_event]. rewrite Ht2, Ht1, <- !app_assoc.
            split; [reflexivity|]. right. right.
            rewrite !requests_of_app, Hr1, Hr2. cbn [requests_of].
            now rewrite app_nil_r. }
          destruct success2; unfold print, emit in Hrun;
            injection Hrun as <- <-; apply Hq.
        * injection Hrun as <- <-. exists (evs1 ++ evs2).
          rewrite Ht2, Ht1, <- app_assoc. split; [reflexivity|].
          right. right. now rewrite requests_of_app, Hr1, Hr2.
        * injection Hrun as <- <-. exists (evs1 ++ evs2).
          rewrite Ht2, Ht1, <- app_assoc. split; [reflexivity|].
          right. right. now rewrite requests_of_app, Hr1, Hr2.
    - injection Hrun as <- <-. exists evs1. auto.
    - injection Hrun as <- <-. exists evs1. auto. }
  unfold sent. destruct run as [o w'] eqn:Hrun.
  destruct (Hgen o w' Hrun) as (evs & Ht & Hevs). cbn [snd].
  unfold new_events. rewrite Ht, drop_app_length. exact Hevs.
Qed.

End Downloads.

Lemma get_attachment_file_downloads_the_href_witness :
  let run :=
    @ZoteroBackup.get_attachment_file scalar_runtime sample_backup
      enclosed_attachment "out/attachments/ATT00005/a.pdf"
      (fresh_world file_server credentials) in
  fst run = Ret true
  /\ w_fs (snd run) !! "out/attachments/ATT00005/a.pdf"
     = Some (Binary "%PDF-1.7")
  /\ requests_of (w_trace (snd run))
     = [href_request sample_backup "/users/42/items/ATT00005/file/view"].
Proof.
  pose proof (@get_attachment_file_downloads_the_href scalar_runtime
                sample_backup enclosed_attachment
                (JStr "/users/42/items/ATT00005/file/view")
                "out/attachments/ATT00005/a.pdf"
                (fresh_world file_server credentials) eq_refl) as Hrun.
  cbv zeta in Hrun. cbv zeta.
  change (is_error_status _) with false in Hrun. cbv iota in Hrun.
  destruct Hrun as (Hret & Hfs & Hevs).
  split; [exact Hret|]. split.
  - rewrite Hfs. reflexivity.
  - reflexivity.
Defined.

Lemma named_links_are_tried_in_order_witness :
  download_href enclosed_attachment
  = Ok (Some (JStr "/users/42/items/ATT00005/file/view")).
Proof.
  apply (named_links_are_tried_in_order
           [("key", JStr "ATT00005");
            ("links",
             JObj [("file",
                    JObj [("href", JStr "https://files.example/a.pdf")]);
                   ("enclosure",
                    JObj [("href",
                           JStr "/users/42/items/ATT00005/file/view")])]);
            ("data", JObj [("itemType", JStr "attachment");
                           ("filename", JStr "a.pdf")])]
           [("file", JObj [("href", JStr "https://files.example/a.pdf")]);
            ("enclosure",
             JObj [("href", JStr "/users/42/items/ATT00005/file/view")])]
           [("href", JStr "/users/42/items/ATT00005/file/view")]
           [] ["file"; "link"; "attachment"] "enclosure").
  - reflexivity.
  - reflexivity.
  - intros b v [].
  - reflexivity.
  - reflexivity.
  - reflexivity.
Defined.

(** ** The backup of the items *)

Lemma quiet_written_paths evs :
  Forall (fun e => quiet e = true) evs -> written_paths evs = [].
Proof.
  induction 1 as [|e evs He _ IH]; [reflexivity|].
  destruct e; try discriminate He; exact IH.
Qed.

Lemma emits_extends {A} P (m : M A) w :
  emits P m ->
  exists evs, snd (m w) = replay evs w
              /\ w_trace (snd (m w)) = w_trace w ++ evs /\ P evs.
Proof.
  intros Hm. destruct (Hm w) as (evs & Hw & HP). exists evs.
  split; [exact Hw|]. split; [|exact HP]. rewrite Hw. apply replay_trace.
Qed.

Section BackupOfItems.
Context `{Runtime}.
Variable self : ZoteroBackup.t.

Let silent := Forall (fun e => quiet e = true).

Lemma quiet_list_all_items_loop fuel :
  forall items start,
    emits silent (ZoteroBackup.list_all_items_loop fuel self items start).
Proof.
  induction fuel as [|fuel IH]; intros items start; [apply emits_diverge|].
  cbn [ZoteroBackup.list_all_items_loop]. unfold ZoteroBackup._get.
  emits_structure; try (constructor; [reflexivity | constructor]). apply IH.
Qed.

Lemma steps_after_manifest items :
  emits (Forall (backup_step self))
    (ZoteroBackup.backup_items self (length items) 1 items ;;
     print [PLit "Backup complete."] ;;
     if ZoteroBackup.commit_repo self
     then ZoteroBackup._maybe_init_and_commit self else ret tt)%M.
Proof.
  emits_structure.
  - apply steps_backup_items.
  - constructor; [exact I | constructor].
  - apply steps_maybe_init_and_commit.
Qed.

(** A backup writes nothing while it lists the items.  When the listing
    fails the backup fails in the same way and the disk is as it was; when
    it succeeds the first file written is the manifest, with the time and
    the number of items listed. *)
Theorem backup_lists_before_it_writes (fuel : nat) (w : world) :
  let listing :=
    ZoteroBackup.list_all_items fuel self (record_event start_notice w) in
  let run := ZoteroBackup.backup fuel self w in
  written_paths (new_events w (snd listing)) = []
  /\ w_fs (snd listing) = w_fs w
  /\ match fst listing with
     | Ret items =>
         exists rest,
           new_events w (snd run)
           = new_events w (snd listing)
             ++ EvWrite (manifest_path self)
                  (JsonDump
                     (manifest (w_clock w (w_trace (snd listing)))
                        (length items)))
             :: rest
     | Raise e => run = (Raise e, snd listing)
     | Diverge => run = (Diverge, snd listing)
     end.
Proof.
  intros listing run.
  destruct (emits_extends _ _ (record_event start_notice w)
              (quiet_list_all_items_loop fuel [] 0))
    as (evs & Hw & Ht & Hq).
  fold (ZoteroBackup.list_all_items fuel self) in Hw, Ht. fold listing in Hw, Ht.
  assert (Hnew : new_events w (snd listing) = start_notice :: evs).
  { unfold new_events. rewrite Ht. cbn [w_trace record_event].
    rewrite <- app_assoc. apply drop_app_length. }
  split; [rewrite Hnew; cbn [written_paths start_notice];
          now apply quiet_written_paths|].
  split; [rewrite Hw; now rewrite quiet_replay_fs|].
  assert (Hrun : run
                 = (items <- (fun _ => listing) ;;
                    now <- utcnow ;;
                    write_file (manifest_path self)
                      (JsonDump (manifest now (length items))) ;;
                    ZoteroBackup.backup_items self (length items) 1 items ;;
                    print [PLit "Backup complete."] ;;
                    if ZoteroBackup.commit_repo self
                    then ZoteroBackup._maybe_init_and_commit self
                    else ret tt)%M w).
  { reflexivity. }
  rewrite Hrun. unfold bind at 1.
  destruct listing as [[items|e|] w1] eqn:Hl; cbn [fst snd] in *;
    try reflexivity.
  unfold bind at 1. unfold utcnow at 1. unfold bind at 1.
  unfold write_file at 1.
  set (w2 := record_event _ (store_file _ _ w1)).
  destruct (emits_extends _ _ w2 (steps_after_manifest items))
    as (rest & _ & Ht2 & _).
  exists rest. unfold new_events at 1. rewrite Ht2.
  unfold w2. cbn [w_trace record_event store_file]. rewrite Ht.
  cbn [w_trace record_event]. rewrite <- !app_assoc.
  rewrite drop_app_length. rewrite Hnew.
  assert (Hclock : w_clock w1 = w_clock w).
  { rewrite Hw. now destruct (replay_oracles evs (record_event start_notice w))
      as (_ & _ & -> & _). }
  rewrite Hclock. reflexivity.
Qed.

End BackupOfItems.

Section SavedItems.
Context `{Runtime}.
Variable self : ZoteroBackup.t.

Lemma steps_backup_item total idx item :
  emits (Forall (backup_step self))
        (ZoteroBackup.backup_item self total idx item).
Proof.
  pose proof (steps_backup_items self total [item] idx) as Hem.
  cbn [ZoteroBackup.backup_items] in Hem.
  intros w. destruct (Hem w) as (evs & Hw & Hevs). exists evs.
  split; [|exact Hevs]. rewrite <- Hw. unfold bind.
  now destruct (ZoteroBackup.backup_item self total idx item w) as [[[]| |] w1].
Qed.

Lemma backup_item_writes total idx item w w' :
  ZoteroBackup.backup_item self total idx item w = (Ret tt, w') ->
  exists evs,
    w_trace w' = w_trace w ++ evs
    /\ In (EvWrite (item_file self item) (JsonDump item)) evs.
Proof.
  intros Hrun.
  destruct (emits_extends _ _ w (steps_backup_item total idx item))
    as (evs & _ & Ht & _).
  rewrite Hrun in Ht. cbn [snd] in Ht. exists evs. split; [exact Ht|].
  unfold ZoteroBackup.backup_item in Hrun.
  apply bind_ret_inv in Hrun as (data & w1 & Hd & Hrun).
  apply lift_ret_inv in Hd as [Hd ->].
  apply bind_ret_inv in Hrun as (item_key & w1 & Hk & Hrun).
  apply lift_ret_inv in Hk as [Hk ->].
  apply bind_ret_inv in Hrun as (title & w1 & Hti & Hrun).
  apply lift_ret_inv in Hti as [Hti ->].
  apply bind_ret_inv in Hrun as ([] & w1 & Hp & Hrun).
  unfold print, emit in Hp. injection Hp as <-.
  apply bind_ret_inv in Hrun as ([] & w2 & Hwr & Hrun).
  unfold write_file in Hwr. injection Hwr as <-.
  set (rest := (children <- ZoteroBackup.get_item_children self item_key ;;
                sleep (ZoteroBackup.sleep_between_requests self) ;;
                children <- lift (Py.iter children) ;;
                for_each children (ZoteroBackup.backup_child self))%M) in Hrun.
  assert (Hrest : emits (Forall (backup_step self)) rest).
  { unfold rest, ZoteroBackup.get_item_children, ZoteroBackup._get.
    emits_structure; try (constructor; [simpl; auto | constructor]).
    apply steps_backup_child. }
  match type of Hrun with rest ?v = _ =>
    destruct (emits_extends _ _ v Hrest) as (evs2 & _ & Ht2 & _) end.
  rewrite Hrun in Ht2. cbn [snd w_trace record_event store_file] in Ht2.
  rewrite Ht, <- !app_assoc in Ht2. apply app_inv_head in Ht2. subst evs.
  right. left. unfold item_file. now rewrite Hk.
Qed.

Lemma backup_items_write total :
  forall items idx w w',
    ZoteroBackup.backup_items self total idx items w = (Ret tt, w') ->
    exists evs,
      w_trace w' = w_trace w ++ evs
      /\ Forall (fun item =>
                   In (EvWrite (item_file self item) (JsonDump item)) evs)
                items.
Proof.
  induction items as [|item items IH]; intros idx w w' Hrun.
  - injection Hrun as <-. exists []. now rewrite app_nil_r.
  - cbn [ZoteroBackup.backup_items] in Hrun.
    apply bind_ret_inv in Hrun as ([] & w1 & Hitem & Hrun).
    apply backup_item_writes in Hitem as (evs1 & Ht1 & Hin1).
    apply IH in Hrun as (evs2 & Ht2 & Hin2).
    exists (evs1 ++ evs2). rewrite Ht2, Ht1, <- app_assoc.
    split; [reflexivity|]. constructor.
    + apply in_or_app. now left.
    + eapply Forall_impl; [exact Hin2|]. intros i Hi. apply in_or_app.
      now right.
Qed.

(** A backup that returns has listed the items and written the snapshot
    of every one of them, the whole record as the server gave it, to the
    file named after its key. *)
Theorem backup_saves_every_item (fuel : nat) (w w' : world) :
  ZoteroBackup.backup fuel self w = (Ret tt, w') ->
  exists items w1,
    ZoteroBackup.list_all_items fuel self (record_event start_notice w)
    = (Ret items, w1)
    /\ In (EvWrite (manifest_path self)
             (JsonDump (manifest (w_clock w1 (w_trace w1)) (length items))))
          (new_events w w')
    /\ Forall (fun item =>
                 In (EvWrite (item_file self item) (JsonDump item))
                    (new_events w w'))
              items.
Proof.
  intros Hrun. unfold ZoteroBackup.backup in Hrun.
  apply bind_ret_inv in Hrun as ([] & w0 & Hp & Hrun).
  unfold print, emit in Hp. injection Hp as <-.
  apply bind_ret_inv in Hrun as (items & w1 & Hlist & Hrun).
  exists items, w1. split; [exact Hlist|].
  destruct (emits_extends _ _ (record_event start_notice w)
              (steps_list_all_items_loop self fuel [] 0))
    as (evs1 & _ & Ht1 & _).
  fold (ZoteroBackup.list_all_items fuel self) in Ht1.
  unfold start_notice in *. rewrite Hlist in Ht1. cbn [snd] in Ht1.
  apply bind_ret_inv in Hrun as (now & w1' & Hnow & Hrun).
  unfold utcnow in Hnow. injection Hnow as <- <-.
  apply bind_ret_inv in Hrun as ([] & w2 & Hwr & Hrun).
  unfold write_file in Hwr. injection Hwr as <-.
  apply bind_ret_inv in Hrun as ([] & w3 & Hitems & Hrun).
  apply backup_items_write in Hitems as (evs3 & Ht3 & Hin3).
  apply bind_ret_inv in Hrun as ([] & w4 & Hp & Hrun).
  unfold print, emit in Hp. injection Hp as <-.
  assert (Hlast : exists evs5, w_trace w' = w_trace w3 ++ evs5).
  { destruct (ZoteroBackup.commit_repo self).
    - destruct (emits_extends _ _ (record_event
                                     (EvPrint [PLit "Backup complete."]) w3)
                  (steps_maybe_init_and_commit self))
        as (evs5 & _ & Ht5 & _).
      rewrite Hrun in Ht5. cbn [snd w_trace record_event] in Ht5.
      rewrite <- app_assoc in Ht5. eauto.
    - injection Hrun as <-. cbn [w_trace record_event]. eauto. }
  destruct Hlast as (evs5 & Ht5).
  cbn [w_trace record_event store_file] in Ht3.
  assert (Hnew : new_events w w'
                 = EvPrint [PLit "Starting Zotero backup"] :: evs1
                   ++ EvWrite (manifest_path self)
                        (JsonDump (manifest (w_clock w1 (w_trace w1))
                                     (length items)))
                   :: evs3 ++ evs5).
  { unfold new_events. rewrite Ht5, Ht3, Ht1. cbn [w_trace record_event].
    rewrite <- !app_assoc. rewrite drop_app_length. reflexivity. }
  rewrite Hnew. split.
  - right. apply in_or_app. right. now left.
  - eapply Forall_impl; [exact Hin3|]. intros i Hi. right.
    apply in_or_app. right. right. apply in_or_app. now left.
Qed.

End SavedItems.

(** The backup of a library of two items. *)
Lemma backup_saves_every_item_witness :
  let w := fresh_world small_library credentials in
  let run := @ZoteroBackup.backup scalar_runtime 5 sample_backup w in
  fst run = Ret tt
  /\ Forall (fun item =>
               In (EvWrite (@item_file scalar_runtime sample_backup item)
                     (JsonDump item))
                  (new_events w (snd run)))
            two_items.
Proof.
  intros w run.
  assert (Hret : fst run = Ret tt) by reflexivity.
  split; [exact Hret|].
  assert (Hrun : run = (Ret tt, snd run)).
  { rewrite <- Hret. apply surjective_pairing. }
  destruct (@backup_saves_every_item scalar_runtime sample_backup 5 w
              (snd run) Hrun) as (items & w1 & Hlist & _ & Hall).
  assert (Hitems : fst (ZoteroBackup.list_all_items 5 sample_backup
                          (record_event start_notice w)) = Ret two_items)
    by reflexivity.
  rewrite Hlist in Hitems. cbn [fst] in Hitems.
  injection Hitems as ->. exact Hall.
Defined.
